(** * Minecraft wiki item scraper (src/main.py): model and properties

    The script fetches the wiki's item listing page, collects the item
    links of its column lists, visits every item page to read the
    "Stackable" row of its infobox, and writes the collected
    [{"item": name, "stack": n}] entries to [minecraft_items.json].

    Modelling choices, valid for the whole development:
    - A Python [str] is a [string] whose characters are the code points
      below 256; [str.isspace] and the regular expression's [\d] are
      taken on these code points.
    - A Python [int] is a [Z].  [int(s)] of a run of decimal digits is its
      decimal value when the run has at most 4300 characters and raises
      [ValueError] when it is longer (the interpreter's default limit on
      the conversion of strings to integers).
    - A page parsed by [BeautifulSoup(text, 'html.parser')] is a tree of
      [node]s; the parser and the HTTP session are parameters of the
      model (Section variables), every property holds for all of them.
    - The worker pool is a transition system whose atomic steps are the
      points where a worker takes a task and sends its request, where it
      appends its entry to [items_data] under [data_lock], and where the
      main thread is interrupted or saves. *)

From Stdlib Require Import Bool Arith ZArith Lia List Ascii String Permutation.
From Stdlib Require Import DecimalString DecimalNat DecimalPos DecimalZ.
Import ListNotations.

Set Warnings "-register-all".
Local Open Scope string_scope.
Local Open Scope list_scope.

(** ** Exceptions and outcomes *)

(** An exception object: its class name and [str(e)].  Every exception of
    the model derives from Python's [Exception] (what the session, the
    parser and [int] raise); [KeyboardInterrupt] reaches the main thread
    only and is a transition of the worker pool below. *)
Record exception : Type := { exc_class : string; exc_str : string }.

Inductive outcome (A : Type) : Type :=
| Returns (a : A)
| Raises (e : exception).
Arguments Returns {A} a.
Arguments Raises {A} e.

(** [str(n)] for a length. *)
Definition str_of_nat (n : nat) : string :=
  NilEmpty.string_of_uint (Nat.to_uint n).

(** ** Strings *)

Module Str.

(** [str.isspace] on the code points below 256: TAB, LF, VT, FF, CR, the
    separators FS, GS, RS, US, the space, NEL and the no-break space. *)
Definition isspace (c : ascii) : bool :=
  let n := nat_of_ascii c in
  (((9 <=? n) && (n <=? 13)) || ((28 <=? n) && (n <=? 32))
   || (n =? 133) || (n =? 160))%nat.

(** The regular expression class [\d] on the code points below 256. *)
Definition isdigit (c : ascii) : bool :=
  let n := nat_of_ascii c in ((48 <=? n) && (n <=? 57))%nat.

Fixpoint lstrip (s : string) : string :=
  match s with
  | String c r => if isspace c then lstrip r else s
  | EmptyString => EmptyString
  end.

Fixpoint rstrip (s : string) : string :=
  match s with
  | String c r =>
      match rstrip r with
      | EmptyString => if isspace c then EmptyString else String c EmptyString
      | r' => String c r'
      end
  | EmptyString => EmptyString
  end.

(** [s.strip()] *)
Definition strip (s : string) : string := rstrip (lstrip s).

(** [needle in hay] *)
Fixpoint contains (needle hay : string) : bool :=
  prefix needle hay
  || match hay with
     | String _ r => contains needle r
     | EmptyString => false
     end.

(** [bool(s)]: a string is true when it is not empty. *)
Definition nonempty (s : string) : bool :=
  match s with EmptyString => false | _ => true end.

(** The value of a run of decimal digits, most significant first, added
    to ten times [acc] for every digit. *)
Fixpoint int_acc (acc : Z) (s : string) : Z :=
  match s with
  | String c r => int_acc (10 * acc + (Z.of_nat (nat_of_ascii c) - 48)) r
  | EmptyString => acc
  end.

(** The default of [sys.get_int_max_str_digits()]. *)
Definition int_max_str_digits : nat := 4300.

(** The exception of a conversion that exceeds the limit. *)
Definition ValueError_too_long (digits : nat) : exception :=
  {| exc_class := "ValueError";
     exc_str :=
       "Exceeds the limit (" ++ str_of_nat int_max_str_digits
       ++ " digits) for integer string conversion: value has "
       ++ str_of_nat digits
       ++ " digits; use sys.set_int_max_str_digits() to increase the limit" |}.

(** [int(s)] for a run of decimal digits: its value, or [ValueError] when
    the run is longer than the limit. *)
Definition int (s : string) : outcome Z :=
  if (String.length s <=? int_max_str_digits)%nat
  then Returns (int_acc 0 s)
  else Raises (ValueError_too_long (String.length s)).

(** All characters of [s] are decimal digits. *)
Fixpoint all_digits (s : string) : bool :=
  match s with
  | String c r => isdigit c && all_digits r
  | EmptyString => true
  end.

(** The longest prefix of decimal digits and what follows it. *)
Fixpoint span_digits (s : string) : string * string :=
  match s with
  | String c r =>
      if isdigit c
      then let (ds, rest) := span_digits r in (String c ds, rest)
      else (EmptyString, s)
  | EmptyString => (EmptyString, EmptyString)
  end.

End Str.

(** ** The regular expression [\((\d+)\)]

    [re.search] tries the pattern at every position from the left and
    returns the first match.  At one position the pattern reads an opening
    parenthesis, a greedy non-empty run of digits and a closing
    parenthesis.  The character that must follow the run is not a digit,
    so giving back digits never turns a failure into a match: the longest
    run is the only one to try (see [match_here_complete]). *)

Module Re.

(** Match of the pattern anchored at the start of [s]; the result is
    group 1. *)
Definition match_here (s : string) : option string :=
  match s with
  | String c r =>
      if Ascii.eqb c "(" then
        match Str.span_digits r with
        | (ds, String c' _) =>
            if Str.nonempty ds && Ascii.eqb c' ")" then Some ds else None
        | (_, EmptyString) => None
        end
      else None
  | EmptyString => None
  end.

(** [re.search(r'\((\d+)\)', s)]: [Some g] is a match whose group 1 is
    [g], [None] is no match. *)
Fixpoint search (s : string) : option string :=
  match match_here s with
  | Some g => Some g
  | None =>
      match s with
      | String _ r => search r
      | EmptyString => None
      end
  end.

End Re.

(** ** Parsed pages *)

(** A node of the parse tree.  Of a tag's attributes the script reads two:
    [class], which the parser stores as the list of its tokens, and
    [href], a single string when present. *)
Inductive node : Type :=
| NavigableString (s : string)
| Comment (s : string)
| Tag (name : string) (classes : list string) (href : option string)
      (contents : list node).

(** Induction on parse trees: a property that holds of the text nodes and
    of a tag whenever it holds of the tag's children holds of every node. *)
Section NodeInduction.

Variable P : node -> Prop.
Hypothesis P_string : forall s, P (NavigableString s).
Hypothesis P_comment : forall s, P (Comment s).
Hypothesis P_tag :
  forall name classes href contents,
    Forall P contents -> P (Tag name classes href contents).

Fixpoint node_tree_ind (n : node) : P n :=
  match n with
  | NavigableString s => P_string s
  | Comment s => P_comment s
  | Tag name classes href contents =>
      P_tag name classes href contents
        ((fix all (l : list node) : Forall P l :=
            match l with
            | [] => Forall_nil P
            | c :: l' => Forall_cons c (node_tree_ind c) (all l')
            end) contents)
  end.

End NodeInduction.

Module Soup.

(** [tag.descendants]: every node below [n], in document order. *)
Fixpoint descendants (n : node) : list node :=
  match n with
  | Tag _ _ _ cs => flat_map (fun c => c :: descendants c) cs
  | _ => []
  end.

Definition is_tag (name : string) (n : node) : bool :=
  match n with
  | Tag nm _ _ _ => String.eqb nm name
  | _ => false
  end.

Definition has_class (cls : string) (n : node) : bool :=
  match n with
  | Tag _ classes _ _ => existsb (String.eqb cls) classes
  | _ => false
  end.

Definition has_href (n : node) : bool :=
  match n with
  | Tag _ _ (Some _) _ => true
  | _ => false
  end.

(** [n.find_all(name)] *)
Definition find_all (name : string) (n : node) : list node :=
  filter (is_tag name) (descendants n).

(** [n.find_all(name, class_=cls)] *)
Definition find_all_class (name cls : string) (n : node) : list node :=
  filter (fun d => is_tag name d && has_class cls d) (descendants n).

(** [n.find_all(name, href=True)] *)
Definition find_all_href (name : string) (n : node) : list node :=
  filter (fun d => is_tag name d && has_href d) (descendants n).

(** [n.find(name)]: the first result of [find_all], or [None]. *)
Definition find (name : string) (n : node) : option node :=
  hd_error (find_all name n).

(** The strings that [get_text(strip=True)] joins: every text node below
    [n], stripped, the empty ones left out. *)
Definition stripped_strings (n : node) : list string :=
  flat_map
    (fun d =>
       match d with
       | NavigableString s =>
           let t := Str.strip s in
           if Str.nonempty t then [t] else []
       | _ => []
       end)
    (descendants n).

(** [n.get_text(strip=True)] *)
Definition get_text (n : node) : string :=
  String.concat "" (stripped_strings n).

(** [link['href']] of a node that has the attribute. *)
Definition href_of (n : node) : string :=
  match n with
  | Tag _ _ (Some h) _ => h
  | _ => ""
  end.

End Soup.

(** ** The specification's vocabulary

    The notions the specification is worded with, defined on their own:
    none of them refers to the string functions, the regular expression
    or the loops of the script. *)

Module Spec.

(** *** Texts *)

(** The code points below 256 that are whitespace. *)
Definition whitespace : list nat := [9; 10; 11; 12; 13; 28; 29; 30; 31; 32; 133; 160].

Definition space (c : ascii) : Prop := In (nat_of_ascii c) whitespace.

(** Every character of [s] is whitespace. *)
Fixpoint blank (s : string) : Prop :=
  match s with
  | String c r => space c /\ blank r
  | EmptyString => True
  end.

Definition first_char (s : string) : option ascii :=
  match s with
  | String c _ => Some c
  | EmptyString => None
  end.

Fixpoint last_char (s : string) : option ascii :=
  match s with
  | EmptyString => None
  | String c EmptyString => Some c
  | String _ r => last_char r
  end.

(** [s] is empty, or neither starts nor ends with whitespace. *)
Definition trimmed (s : string) : Prop :=
  (forall c, first_char s = Some c -> ~ space c)
  /\ (forall c, last_char s = Some c -> ~ space c).

(** [m] is the trimmed text of [s]: [s] without the whitespace at its two
    ends. *)
Definition trim_of (s m : string) : Prop :=
  exists l r, s = (l ++ m ++ r)%string /\ blank l /\ blank r /\ trimmed m.

(** The text nodes below [n], in document order. *)
Fixpoint strings (n : node) : list string :=
  match n with
  | Tag _ _ _ cs =>
      flat_map
        (fun c =>
           match c with
           | NavigableString s => [s]
           | _ => strings c
           end)
        cs
  | _ => []
  end.

(** [text] is made of the trimmed texts of [pieces], one after the
    other. *)
Inductive joined : list string -> string -> Prop :=
| joined_nil : joined [] EmptyString
| joined_cons s m pieces text :
    trim_of s m -> joined pieces text -> joined (s :: pieces) (m ++ text)%string.

(** The trimmed text of an element is [text]. *)
Definition reads (n : node) (text : string) : Prop := joined (strings n) text.

(** [text] contains the substring "Yes". *)
Definition has_yes (text : string) : Prop :=
  exists pre post, text = (pre ++ "Yes" ++ post)%string.

(** *** Parenthesized integers *)

Definition digit (c : ascii) : Prop :=
  In c ["0"; "1"; "2"; "3"; "4"; "5"; "6"; "7"; "8"; "9"]%char.

Fixpoint digits (s : string) : Prop :=
  match s with
  | String c r => digit c /\ digits r
  | EmptyString => True
  end.

(** The number that a run of digits denotes: every digit counts for its
    value times the power of ten of its place. *)
Fixpoint decimal (s : string) : Z :=
  match s with
  | String c r =>
      ((Z.of_nat (nat_of_ascii c) - 48) * 10 ^ Z.of_nat (String.length r)
       + decimal r)%Z
  | EmptyString => 0%Z
  end.

(** [ds] is a parenthesized integer at the start of [s]. *)
Definition paren_int_here (s ds : string) : Prop :=
  exists post,
    s = ("(" ++ ds ++ ")" ++ post)%string
    /\ ds <> EmptyString /\ digits ds.

(** [ds] is a parenthesized integer of [text], [pre] is what precedes it. *)
Definition paren_int_after (text pre ds : string) : Prop :=
  exists rest, text = (pre ++ rest)%string /\ paren_int_here rest ds.

(** No parenthesized integer of [text] starts before position [n]. *)
Definition none_before (text : string) (n : nat) : Prop :=
  forall pre ds, paren_int_after text pre ds -> n <= String.length pre.

(** [ds] is the first parenthesized integer of [text]. *)
Definition first_paren_int (text ds : string) : Prop :=
  exists pre,
    paren_int_after text pre ds /\ none_before text (String.length pre).

(** The longest run of digits that is converted to an integer. *)
Definition max_digits : nat := 4300.

(** The stack size that the text of a value cell stands for. *)
Inductive stack_size_of (text : string) : Z -> Prop :=
| size_not_stackable :
    ~ has_yes text -> stack_size_of text 1
| size_unspecified :
    has_yes text ->
    (forall pre ds, ~ paren_int_after text pre ds) ->
    stack_size_of text 64
| size_given ds :
    has_yes text ->
    first_paren_int text ds ->
    String.length ds <= max_digits ->
    stack_size_of text (decimal ds)
| size_not_converted ds :
    has_yes text ->
    first_paren_int text ds ->
    max_digits < String.length ds ->
    stack_size_of text 1.

(** *** Item pages *)

(** The rows of the infobox-rows tables, tables and rows in document
    order. *)
Definition rows_in_order (soup : node) : list node :=
  flat_map (Soup.find_all "tr") (Soup.find_all_class "table" "infobox-rows" soup).

(** The header cell of [row], its first [th], reads "Stackable". *)
Definition stackable (row : node) : Prop :=
  exists header, Soup.find "th" row = Some header /\ reads header "Stackable".

(** [cell] is the value cell of [row], its first [td]. *)
Definition value_cell (row cell : node) : Prop := Soup.find "td" row = Some cell.

(** A matching row: its header cell reads "Stackable" and it has a value
    cell. *)
Definition matching (row : node) : Prop :=
  stackable row /\ exists cell, value_cell row cell.

(** [row] is the first matching row of the page. *)
Definition first_matching (soup row : node) : Prop :=
  exists before after,
    rows_in_order soup = before ++ row :: after
    /\ matching row
    /\ forall r, In r before -> ~ matching r.

(** [text] is the trimmed text of the value cell of the first matching
    row. *)
Definition value_text (soup : node) (text : string) : Prop :=
  exists row cell,
    first_matching soup row /\ value_cell row cell /\ reads cell text.

(** *** The listing page *)

Definition origin : string := "https://minecraft.wiki".

(** The candidates that a sequence of hyperlinks gives: a link whose
    trimmed text is empty, "JE" or "BE" gives none, any other link gives
    its text and its href after the origin. *)
Inductive candidates_of : list node -> list (string * string) -> Prop :=
| candidates_nil : candidates_of [] []
| candidates_skip link links cs :
    reads link "" \/ reads link "JE" \/ reads link "BE" ->
    candidates_of links cs ->
    candidates_of (link :: links) cs
| candidates_keep link links cs name :
    reads link name ->
    name <> "" -> name <> "JE" -> name <> "BE" ->
    candidates_of links cs ->
    candidates_of (link :: links)
      ((name, (origin ++ Soup.href_of link)%string) :: cs).

(** The hyperlinks of the column lists: the column lists in document
    order, the hyperlinks of each in document order. *)
Definition hyperlinks (soup : node) : list node :=
  flat_map (Soup.find_all_href "a") (Soup.find_all_class "div" "div-col" soup).

(** A column list: a [div] of class [div-col]. *)
Definition column_list (n : node) : bool :=
  Soup.is_tag "div" n && Soup.has_class "div-col" n.

(** A hyperlink: an [a] with an [href]. *)
Definition hyperlink (n : node) : bool :=
  Soup.is_tag "a" n && Soup.has_href n.

(** One walk through the tree below and including [n]: the nodes that
    lie inside a column list, in document order.  [within] tells whether
    [n] itself lies inside one. *)
Fixpoint inside (within : bool) (n : node) : list node :=
  (if within then [n] else [])
  ++ match n with
     | Tag _ _ _ cs => flat_map (fun c => inside (within || column_list n) c) cs
     | _ => []
     end.

(** The hyperlinks of the page that lie inside a column list, each once,
    in document order. *)
Definition hyperlinks_in_document_order (soup : node) : list node :=
  filter hyperlink
    match soup with
    | Tag _ _ _ cs => flat_map (fun c => inside false c) cs
    | _ => []
    end.

(** No column list lies inside another. *)
Definition not_nested (soup : node) : Prop :=
  forall region,
    In region (Soup.find_all_class "div" "div-col" soup) ->
    Soup.find_all_class "div" "div-col" region = [].

End Spec.

(** ** Effects: console and network *)

(** [{"item": item_name, "stack": stack_size}] *)
Record entry : Type := { item : string; stack : Z }.

(** What a computation does that the outside sees: a line printed, a
    request sent, [json.dump(data, f)] into the file re-created at
    [path]. *)
Inductive event : Type :=
| Print (line : string)
| Get (url : string)
| Dump (path : string) (data : list entry).

(** A computation: the events it performs, in order, and how it ends. *)
Definition io (A : Type) : Type := (list event * outcome A)%type.

Definition ret {A} (a : A) : io A := ([], Returns a).

Definition bind {A B} (m : io A) (k : A -> io B) : io B :=
  match m with
  | (t1, Returns a) => let (t2, r) := k a in (t1 ++ t2, r)
  | (t1, Raises e) => (t1, Raises e)
  end.

Definition print (line : string) : io unit := ([Print line], Returns tt).

(** A computation without events: a value returned or an exception
    raised. *)
Definition of_outcome {A} (o : outcome A) : io A := ([], o).

(** [try: body  except Exception as e: handler(e)] *)
Definition try_except {A} (body : io A) (handler : exception -> io A) : io A :=
  match body with
  | (t1, Raises e) => let (t2, r) := handler e in (t1 ++ t2, r)
  | done => done
  end.

Notation "x <- m ;; k" := (bind m (fun x => k))
  (at level 61, m at next level, right associativity).
Notation "m ;;; k" := (bind m (fun _ => k))
  (at level 61, right associativity).

(** [requests.Response]: [status_code] and [text]. *)
Record Response : Type := { status_code : Z; text : string }.

Definition output_file : string := "minecraft_items.json".
Definition base_url : string := "https://minecraft.wiki/w/Item#Lists_of_items".

(** The content of the output file after the events [t]: what the last
    [Dump] wrote, [None] when the run wrote no file. *)
Fixpoint saved_file (t : list event) : option (list entry) :=
  match t with
  | [] => None
  | ev :: rest =>
      match saved_file rest with
      | Some data => Some data
      | None =>
          match ev with
          | Dump _ data => Some data
          | _ => None
          end
      end
  end.

(** The requests of a trace, in order. *)
Fixpoint requests (t : list event) : list string :=
  match t with
  | [] => []
  | Get url :: rest => url :: requests rest
  | _ :: rest => requests rest
  end.

(** ** The script *)

Section Script.

(** [session.get(url, ...)]: retries and the cache live below this
    interface; it returns a response or raises. *)
Variable session_get : string -> outcome Response.

(** [BeautifulSoup(text, 'html.parser')] *)
Variable BeautifulSoup : string -> outcome node.

Definition get (url : string) : io Response := ([Get url], session_get url).

Definition parse (body : string) : io node := ([], BeautifulSoup body).

(** Lines 59-64: the stack size read from the text of the value cell, or
    the exception of [int]. *)
Definition stack_of_text (text : string) : outcome Z :=
  if Str.contains "Yes" text then
    match Re.search text with
    | Some group1 => Str.int group1
    | None => Returns 64%Z
    end
  else Returns 1%Z.

(** Lines 54-64, the inner loop: [Some o] is the loop left from inside,
    by [return v] when [o] is [Returns v] and by the exception [e] of
    line 62 when [o] is [Raises e]; [None] is the loop running to its
    end. *)
Fixpoint scan_rows (rows : list node) : option (outcome Z) :=
  match rows with
  | [] => None
  | row :: rest =>
      match Soup.find "th" row with
      | Some header =>
          if String.eqb (Soup.get_text header) "Stackable" then
            match Soup.find "td" row with
            | Some value_cell => Some (stack_of_text (Soup.get_text value_cell))
            | None => scan_rows rest
            end
          else scan_rows rest
      | None => scan_rows rest
      end
  end.

(** Lines 53-64, the outer loop. *)
Fixpoint scan_tables (tables : list node) : option (outcome Z) :=
  match tables with
  | [] => None
  | table :: rest =>
      match scan_rows (Soup.find_all "tr" table) with
      | Some o => Some o
      | None => scan_tables rest
      end
  end.

(** Lines 50-65: what [get_stackable_info] computes from a parsed page. *)
Definition extract_stack_size (soup : node) : outcome Z :=
  let infobox_tables := Soup.find_all_class "table" "infobox-rows" soup in
  match scan_tables infobox_tables with
  | Some o => o
  | None => Returns 1%Z
  end.

Definition get_stackable_info (item_url : string) : io Z :=
  try_except
    (response <- get item_url ;;
     if negb (status_code response =? 200)%Z then
       print ("[!] Failed to retrieve: " ++ item_url) ;;;
       ret 1%Z
     else
       soup <- parse (text response) ;;
       of_outcome (extract_stack_size soup))
    (fun e =>
       print ("[!] Exception for " ++ item_url ++ ": " ++ exc_str e) ;;;
       ret 1%Z).

(** [fetch_item_data], with the shared list [items_data] passed in and
    out.  The sleep has no effect on the state. *)
Definition fetch_item_data (item_tuple : string * string)
    (items_data : list entry) : io (entry * list entry) :=
  let (item_name, item_url) := item_tuple in
  stack_size <- get_stackable_info item_url ;;
  let item_entry := {| item := item_name; stack := stack_size |} in
  ret (item_entry, items_data ++ [item_entry]).

(** Lines 97-107, the inner loop of [main] over the links of one
    column list. *)
Fixpoint collect_links (links : list node)
    (item_tuples : list (string * string)) : list (string * string) :=
  match links with
  | [] => item_tuples
  | link :: rest =>
      let item_name := Soup.get_text link in
      if negb (Str.nonempty item_name) then collect_links rest item_tuples
      else if String.eqb item_name "JE" then collect_links rest item_tuples
      else if String.eqb item_name "BE" then collect_links rest item_tuples
      else
        let item_url := ("https://minecraft.wiki" ++ Soup.href_of link)%string in
        collect_links rest (item_tuples ++ [(item_name, item_url)])
  end.

(** Lines 96-107, the outer loop over the column lists. *)
Fixpoint collect_divs (div_cols : list node)
    (item_tuples : list (string * string)) : list (string * string) :=
  match div_cols with
  | [] => item_tuples
  | div :: rest =>
      collect_divs rest (collect_links (Soup.find_all_href "a" div) item_tuples)
  end.

(** Lines 92-107. *)
Definition extract_candidates (soup : node) : list (string * string) :=
  collect_divs (Soup.find_all_class "div" "div-col" soup) [].

(** Lines 84-111 of [main]: [Some item_tuples] goes on to the worker
    pool, [None] is the [return] of line 90. *)
Definition main_listing : io (option (list (string * string))) :=
  print ("Fetching item list from: " ++ base_url) ;;;
  response <- get base_url ;;
  if negb (status_code response =? 200)%Z then
    print "[!] Failed to retrieve the item listing page" ;;;
    ret None
  else
    soup <- parse (text response) ;;
    let item_tuples := extract_candidates soup in
    print ("Total items found: " ++ str_of_nat (List.length item_tuples)) ;;;
    print "Fetching item data in parallel..." ;;;
    ret (Some item_tuples).

(** The page at [url] is retrieved with status 200 and parses to [soup]. *)
Definition page_of (url : string) (soup : node) : Prop :=
  exists resp,
    session_get url = Returns resp
    /\ status_code resp = 200%Z
    /\ BeautifulSoup (text resp) = Returns soup.

(** The detail fetch or the extraction for [url] fails: the request
    raises (a timeout, a connection error, ...), the status is not 200,
    the parser raises, or the extraction from the parsed page raises. *)
Definition detail_fails (url : string) : Prop :=
  (exists e, session_get url = Raises e)
  \/ (exists resp, session_get url = Returns resp /\ status_code resp <> 200%Z)
  \/ (exists resp e, session_get url = Returns resp /\ BeautifulSoup (text resp) = Raises e)
  \/ (exists soup e, page_of url soup /\ extract_stack_size soup = Raises e).

(** The entry [e] is what [fetch_item_data] makes of the tuple [c]. *)
Definition produces (c : string * string) (e : entry) : Prop :=
  item e = fst c
  /\ exists t, get_stackable_info (snd c) = (t, Returns (stack e)).

(** The page at [url] gives the count zero: it is read, the value-cell
    text of its first matching row contains "Yes", and the first
    parenthesized integer of that text has at most 4300 digits and denotes
    zero. *)
Definition zero_count (url : string) : Prop :=
  exists soup text ds,
    page_of url soup
    /\ Spec.value_text soup text
    /\ Spec.has_yes text
    /\ Spec.first_paren_int text ds
    /\ String.length ds <= 4300
    /\ Spec.decimal ds = 0%Z.

(** [save_data], called with the current [items_data]. *)
Definition save_data (items_data : list entry) : io unit :=
  ([Dump output_file items_data;
    Print ("Progress saved to " ++ output_file ++ " ("
           ++ str_of_nat (List.length items_data) ++ " items)")],
   Returns tt).

(** *** Lines 113-122: the worker pool

    [executor.map] submits every tuple at once; the three worker threads
    take the work items in order and run [fetch_item_data] on them.  The
    main thread waits for the results.  A [KeyboardInterrupt] in the main
    thread leaves the [with] block, whose exit shuts the executor down and
    waits for the workers; only then does the [except] clause run.  The
    result iterator of [executor.map] cancels the waiting work items when
    the interrupt reaches it; which of them that covers depends on where the
    main thread is interrupted, and the model leaves it open: the first
    items of the queue may stay, the others are cancelled.  A run receives
    at most one interrupt.

    A call of [fetch_item_data] is two transitions: it starts, which sends
    its request, and it returns; the trace records with the return what
    the call did after its request (the line it prints on a failure), and
    the entry of the call is in [items_data] from then on.  The order of
    the trace among the requests and lines of calls that are in progress
    at the same time is that of these two transitions. *)

Inductive phase : Type :=
| Processing      (* inside the [with] block *)
| ShuttingDown    (* interrupted, the executor waits for its workers *)
| Done            (* line 122 passed *)
| Interrupted.    (* line 119 passed *)

Record pool : Type := {
  phase_of : phase;
  queue : list (string * string);      (* work items no worker has taken *)
  running : list (string * string);    (* calls of [fetch_item_data] in progress *)
  finished : list (string * string);   (* calls that returned *)
  cancelled : list (string * string);  (* work items cancelled *)
  trace : list event;
  items_data : list entry
}.

Definition max_workers : nat := 3.

Definition initial (t : list event) (item_tuples : list (string * string)) : pool :=
  {| phase_of := Processing; queue := item_tuples; running := [];
     finished := []; cancelled := []; trace := t; items_data := [] |}.

(** A worker takes the next work item and calls [fetch_item_data], which
    sends the request for the item's page. *)
Definition start (s : pool) (c : string * string) (q : list (string * string)) : pool :=
  {| phase_of := phase_of s; queue := q; running := running s ++ [c];
     finished := finished s; cancelled := cancelled s;
     trace := trace s ++ [Get (snd c)];
     items_data := items_data s |}.

(** The call for [c] returns, having appended its entry; [t] is what the
    call did after sending its request. *)
Definition finish (s : pool) (r1 : list (string * string)) (c : string * string)
    (r2 : list (string * string)) (t : list event) (data : list entry) : pool :=
  {| phase_of := phase_of s; queue := queue s; running := r1 ++ r2;
     finished := finished s ++ [c]; cancelled := cancelled s;
     trace := trace s ++ t; items_data := data |}.

(** [KeyboardInterrupt] in the main thread: of the waiting work items,
    [keep] stay in the queue and [drop] are cancelled. *)
Definition interrupt (s : pool) (keep drop : list (string * string)) : pool :=
  {| phase_of := ShuttingDown; queue := keep;
     running := running s; finished := finished s; cancelled := drop;
     trace := trace s; items_data := items_data s |}.

(** The main thread goes on after the [with] block. *)
Definition close (s : pool) (p : phase) (t : list event) : pool :=
  {| phase_of := p; queue := queue s; running := running s;
     finished := finished s; cancelled := cancelled s;
     trace := trace s ++ t; items_data := items_data s |}.

(** Lines 121-122. *)
Definition main_done (items_data : list entry) : io unit :=
  save_data items_data ;;;
  print ("Finished. Total items scraped: " ++ str_of_nat (List.length items_data)).

(** Lines 117-119. *)
Definition main_interrupted (items_data : list entry) : io unit :=
  print (String "010"%char "[!] KeyboardInterrupt received. Saving partial progress...") ;;;
  save_data items_data.

Inductive interrupts : pool -> pool -> Prop :=
| interrupts_intro s keep drop :
    phase_of s = Processing ->
    queue s = keep ++ drop ->
    interrupts s (interrupt s keep drop).

Inductive step : pool -> pool -> Prop :=
| step_start s c q :
    phase_of s = Processing \/ phase_of s = ShuttingDown ->
    queue s = c :: q ->
    List.length (running s) < max_workers ->
    step s (start s c q)
| step_finish s r1 c r2 t e data :
    phase_of s = Processing \/ phase_of s = ShuttingDown ->
    running s = r1 ++ c :: r2 ->
    fetch_item_data c (items_data s) = (Get (snd c) :: t, Returns (e, data)) ->
    step s (finish s r1 c r2 t data)
| step_interrupt s s' :
    interrupts s s' ->
    step s s'
| step_done s t :
    phase_of s = Processing ->
    queue s = [] -> running s = [] ->
    main_done (items_data s) = (t, Returns tt) ->
    step s (close s Done t)
| step_interrupted s t :
    phase_of s = ShuttingDown ->
    queue s = [] -> running s = [] ->
    main_interrupted (items_data s) = (t, Returns tt) ->
    step s (close s Interrupted t).

Inductive steps : pool -> pool -> Prop :=
| steps_refl s : steps s s
| steps_step s1 s2 s3 : steps s1 s2 -> step s2 s3 -> steps s1 s3.

(** A run of [main]: the events of the whole run and how [main] ends. *)
Inductive main_run : list event -> outcome unit -> Prop :=
| main_run_return t :
    main_listing = (t, Returns None) ->
    main_run t (Returns tt)
| main_run_raise t e :
    main_listing = (t, Raises e) ->
    main_run t (Raises e)
| main_run_pool t item_tuples s :
    main_listing = (t, Returns (Some item_tuples)) ->
    steps (initial t item_tuples) s ->
    phase_of s = Done \/ phase_of s = Interrupted ->
    main_run (trace s) (Returns tt).

(** Lines 124-127: the exit status of the script for a run of [main].
    When [main] returns, the script prints the total time and ends with
    status 0; an exception that leaves [main] ends it with status 1. *)
Definition exit_status (out : outcome unit) : Z :=
  match out with
  | Returns _ => 0%Z
  | Raises _ => 1%Z
  end.

(** The work items the executor still counts: done, in progress, waiting. *)
Definition active (s : pool) : list (string * string) :=
  finished s ++ running s ++ queue s.

(** What holds of every state of a run over [item_tuples] whose events
    before the pool were [t0]. *)
Record invariant (item_tuples : list (string * string)) (t0 : list event)
    (s : pool) : Prop := {
  inv_tasks : Permutation (active s ++ cancelled s) item_tuples;
  inv_entries : Forall2 produces (finished s) (items_data s);
  inv_workers : List.length (running s) <= max_workers;
  inv_saved :
    saved_file (trace s) =
    match phase_of s with
    | Done | Interrupted => Some (items_data s)
    | Processing | ShuttingDown => saved_file t0
    end;
  inv_final :
    phase_of s = Done \/ phase_of s = Interrupted ->
    queue s = [] /\ running s = [];
  inv_cancelled :
    phase_of s = Processing \/ phase_of s = Done -> cancelled s = []
}.

End Script.

(** ** The loops as list functions

    The loops of the script with their early returns, restated with
    [find], [filter] and [map], and the regular expression and
    [str.isspace] restated on whole strings; the properties below connect
    the script to the specification's vocabulary through them. *)

Module Flat.

(** [ds] is what the pattern matches at the start of [s]. *)
Definition paren_int_here (s ds : string) : Prop :=
  exists post,
    s = ("(" ++ ds ++ ")" ++ post)%string
    /\ ds <> EmptyString /\ Str.all_digits ds = true.

Definition paren_int_after (text pre ds : string) : Prop :=
  exists rest, text = (pre ++ rest)%string /\ paren_int_here rest ds.

Definition none_before (text : string) (n : nat) : Prop :=
  forall pre ds, paren_int_after text pre ds -> n <= String.length pre.

(** The test of line 55. *)
Definition stackable_row (row : node) : bool :=
  match Soup.find "th" row with
  | Some header => String.eqb (Soup.get_text header) "Stackable"
  | None => false
  end.

(** The test of line 57. *)
Definition has_value_cell (row : node) : bool :=
  match Soup.find "td" row with
  | Some _ => true
  | None => false
  end.

(** The row at which the loops of lines 53-64 return. *)
Definition matching_row (soup : node) : option node :=
  List.find (fun row => stackable_row row && has_value_cell row)
            (Spec.rows_in_order soup).

(** The text of line 59. *)
Definition value_text (soup : node) : option string :=
  match matching_row soup with
  | Some row => option_map Soup.get_text (Soup.find "td" row)
  | None => None
  end.

(** The tests of lines 99-104. *)
Definition kept (link : node) : bool :=
  let name := Soup.get_text link in
  Str.nonempty name && negb (String.eqb name "JE") && negb (String.eqb name "BE").

(** Lines 98 and 106-107. *)
Definition candidate_of (link : node) : string * string :=
  (Soup.get_text link, ("https://minecraft.wiki" ++ Soup.href_of link)%string).

Definition candidates (soup : node) : list (string * string) :=
  map candidate_of (filter kept (Spec.hyperlinks soup)).

(** Every character of [s] is whitespace for [str.isspace]. *)
Fixpoint all_space (s : string) : bool :=
  match s with
  | String c r => Str.isspace c && all_space r
  | EmptyString => true
  end.

(** The last character of [String c s]. *)
Fixpoint last_char (c : ascii) (s : string) : ascii :=
  match s with
  | String c' r => last_char c' r
  | EmptyString => c
  end.

(** [s] is empty, or neither starts nor ends with whitespace. *)
Definition trimmed (s : string) : bool :=
  match s with
  | String c r => negb (Str.isspace c) && negb (Str.isspace (last_char c r))
  | EmptyString => true
  end.

End Flat.

(** ['0' * k] *)
Fixpoint zeros (k : nat) : string :=
  match k with
  | O => EmptyString
  | S k' => String "0" (zeros k')
  end.

(** ** A small wiki

    A concrete session and parser, used to evaluate the script: the
    listing page of the specification's scenario and a few item pages.
    The body of an item page is the text of its "Stackable" value cell.
    The texts of the pages carry the whitespace of a real page: spaces,
    line feeds and no-break spaces around the words. *)

Module Demo.

(** The no-break space. *)
Definition nbsp : string := String "160"%char EmptyString.

(** The line feed. *)
Definition lf : string := String "010"%char EmptyString.

Definition document (contents : list node) : node :=
  Tag "[document]" [] None contents.

Definition link (href text : string) : node :=
  Tag "a" [] (Some href) [NavigableString text].

Definition row (header : string) (cells : list node) : node :=
  Tag "tr" [] None (Tag "th" [] None [NavigableString header] :: cells).

Definition value_cell (value : string) : node :=
  Tag "td" [] None [NavigableString value].

(** An item page whose infobox has the row "Stackable: value". *)
Definition infobox (value : string) : node :=
  document
    [Tag "table" ["infobox-rows"] None
       [row "Renewable" [value_cell "Yes"];
        row (lf ++ " Stackable" ++ nbsp) [value_cell (nbsp ++ value ++ lf)]]].

(** An item page without a "Stackable" row. *)
Definition plain : node :=
  document
    [Tag "table" ["infobox-rows"] None
       [row "Renewable" [value_cell "Yes (16)"];
        row "Stackable in" [value_cell "Yes (16)"]]].

(** An item page whose first "Stackable" row has no value cell; a second
    table has one. *)
Definition two_tables : node :=
  document
    [Tag "table" ["infobox-rows"] None [row "Stackable" []];
     Tag "table" ["infobox-rows"; "wide"] None
       [row (" Stackable" ++ nbsp) [value_cell " Yes (16) "];
        row "Stackable" [value_cell "Yes (32)"]]].

(** An item page whose cells hold markup: the header is set in bold, the
    value cell has a link, a comment and a line break. *)
Definition marked_up : node :=
  document
    [Tag "table" ["infobox-rows"] None
       [Tag "tr" [] None
          [Tag "th" [] None
             [NavigableString lf; Tag "b" [] None [NavigableString "Stackable"];
              NavigableString nbsp];
           Tag "td" [] None
             [NavigableString " (8) ";
              Tag "a" [] (Some "/w/Stack") [NavigableString "Yes"];
              Comment "per slot";
              Tag "br" [] None [];
              NavigableString (" (16)" ++ lf)]]]].

(** The listing page of the scenario. *)
Definition listing : node :=
  document
    [Tag "div" ["div-col"] None
       [link "/w/Stick" (lf ++ "Stick ");
        link "/w/Java_Edition" (" JE" ++ nbsp);
        link "/w/Bedrock_Edition" "BE"; link "/w/Air" nbsp;
        link "/w/Ink_Sac" ("Ink Sac" ++ lf)]].

(** The links of property P4. *)
Definition four_links : node :=
  document
    [Tag "div" ["div-col"] None
       [link "/w/Empty" ""; link "/w/Java_Edition" "JE";
        link "/w/Bedrock_Edition" "BE"; link "/w/Diamond_Sword" "Diamond Sword"]].

(** A column list inside a column list. *)
Definition nested : node :=
  document
    [Tag "div" ["div-col"] None
       [link "/w/Stick" "Stick";
        Tag "div" ["div-col"] None [link "/w/Ink_Sac" "Ink Sac"];
        link "/w/Bone" "Bone"]].

Definition timeout : exception :=
  {| exc_class := "ReadTimeout"; exc_str := "Read timed out. (read timeout=10)" |}.

(** A count of 4301 digits. *)
Definition long_count : string := zeros 4301.

Definition session_get (url : string) : outcome Response :=
  if String.eqb url base_url then
    Returns {| status_code := 200; text := "listing" |}
  else if String.eqb url "https://minecraft.wiki/w/Stick" then
    Returns {| status_code := 200; text := "Yes (64)" |}
  else if String.eqb url "https://minecraft.wiki/w/Ink_Sac" then
    Raises timeout
  else if String.eqb url "https://minecraft.wiki/w/Zero" then
    Returns {| status_code := 200; text := "Yes (0)" |}
  else if String.eqb url "https://minecraft.wiki/w/Long" then
    Returns {| status_code := 200; text := "Yes (" ++ long_count ++ ")" |}
  else if String.eqb url "https://minecraft.wiki/w/Broken" then
    Returns {| status_code := 200; text := "broken" |}
  else
    Returns {| status_code := 404; text := "Not Found" |}.

(** A session that finds no page at all. *)
Definition not_found (url : string) : outcome Response :=
  Returns {| status_code := 404; text := "Not Found" |}.

Definition parser_error : exception :=
  {| exc_class := "ParserRejectedMarkup"; exc_str := "expected name token" |}.

Definition BeautifulSoup (body : string) : outcome node :=
  if String.eqb body "listing" then Returns listing
  else if String.eqb body "broken" then Raises parser_error
  else Returns (infobox body).

(** A session that answers every request with [body], a parser that reads
    every body as [soup]. *)
Definition serving (body : string) (url : string) : outcome Response :=
  Returns {| status_code := 200; text := body |}.

Definition reading (soup : node) (body : string) : outcome node :=
  Returns soup.

(** The scenario of the specification: "Stick" is stackable by 64, the
    request for "Ink Sac" times out. *)
Definition stick : string * string := ("Stick", "https://minecraft.wiki/w/Stick").
Definition ink_sac : string * string := ("Ink Sac", "https://minecraft.wiki/w/Ink_Sac").
Definition zero : string * string := ("Zero", "https://minecraft.wiki/w/Zero").
Definition long : string * string := ("Long", "https://minecraft.wiki/w/Long").

(** What the call for [c] does after sending its request. *)
Definition events_of (c : string * string) : list event :=
  tl (fst (get_stackable_info session_get BeautifulSoup (snd c))).

Definition t0 : list event := fst (main_listing session_get BeautifulSoup).

(** A run to the end: both items are taken, "Ink Sac" returns first. *)
Definition s0 : pool := initial t0 [stick; ink_sac].
Definition s1 : pool := start s0 stick [ink_sac].
Definition s2 : pool := start s1 ink_sac [].
Definition s3 : pool :=
  finish s2 [stick] ink_sac [] (events_of ink_sac)
         [{| item := "Ink Sac"; stack := 1 |}].
Definition s4 : pool :=
  finish s3 [] stick [] (events_of stick)
         [{| item := "Ink Sac"; stack := 1 |}; {| item := "Stick"; stack := 64 |}].
Definition s5 : pool := close s4 Done (fst (main_done (items_data s4))).

(** An interrupted run: the interrupt arrives while the call for "Stick"
    is in progress and nothing has returned; "Ink Sac" is cancelled. *)
Definition i2 : pool := interrupt s1 [] [ink_sac].
Definition i3 : pool :=
  finish i2 [] stick [] (events_of stick) [{| item := "Stick"; stack := 64 |}].
Definition i4 : pool := close i3 Interrupted (fst (main_interrupted (items_data i3))).

(** A run over an item whose page reads "Stackable: Yes (0)". *)
Definition z0 : pool := initial [] [zero].
Definition z1 : pool := start z0 zero [].
Definition z2 : pool :=
  finish z1 [] zero [] (events_of zero) [{| item := "Zero"; stack := 0 |}].

End Demo.

(** The descendants of the column lists at or below [n], column list by
    column list, are the walk through [n] when no column list lies inside
    another. *)
Definition walk_agrees (n : node) : Prop :=
  (forall region,
      In region (filter Spec.column_list (n :: Soup.descendants n)) ->
      filter Spec.column_list (Soup.descendants region) = []) ->
  flat_map Soup.descendants (filter Spec.column_list (n :: Soup.descendants n))
  = Spec.inside false n.

(** Unfolding of the script's functions down to the events and outcomes. *)
Ltac unfold_get_stackable_info :=
  unfold get_stackable_info, try_except, bind, get, parse.
Ltac unfold_fetch_item_data := unfold fetch_item_data, bind, ret.
Ltac unfold_cases := unfold detail_fails, page_of.
Ltac unfold_main_listing := unfold main_listing, bind, get, parse, print, ret.

(** ** Measures of a run *)

(** The files written by the events [t], in order: path and data. *)
Fixpoint dumps (t : list event) : list (string * list entry) :=
  match t with
  | [] => []
  | Dump path data :: rest => (path, data) :: dumps rest
  | _ :: rest => dumps rest
  end.

(** What is left to do in a pool: two transitions for every waiting work
    item, one for every call in progress, and the end of [main]. *)
Definition work_left (s : pool) : nat :=
  2 * List.length (queue s) + List.length (running s)
  + match phase_of s with
    | Processing => 2
    | ShuttingDown => 1
    | Done | Interrupted => 0
    end.

(** A run of [n] transitions. *)
Inductive steps_in (session_get : string -> outcome Response)
    (BeautifulSoup : string -> outcome node) : nat -> pool -> pool -> Prop :=
| steps_in_none s : steps_in session_get BeautifulSoup 0 s s
| steps_in_more n s1 s2 s3 :
    steps_in session_get BeautifulSoup n s1 s2 ->
    step session_get BeautifulSoup s2 s3 ->
    steps_in session_get BeautifulSoup (S n) s1 s3.

(** ** The text of the output file

    [json.dump(items_data, f, indent=4)] of line 40, for a list of
    entries: the text written into the file.  The encoder works with its
    defaults: non-ASCII and control characters are escaped, the items of
    a list and of a dictionary stand on lines of their own, indented by
    four spaces per level.  A character of the model is a code point below
    256. *)

Module Json.

Definition quote : ascii := "034"%char.
Definition backslash : ascii := "092"%char.
Definition newline : ascii := "010"%char.

(** A hexadecimal digit, lower case. *)
Definition hex_digit (n : nat) : ascii :=
  if (n <? 10)%nat then ascii_of_nat (48 + n) else ascii_of_nat (87 + n).

(** The replacement of one character inside a string. *)
Definition escape_char (c : ascii) : string :=
  let n := nat_of_ascii c in
  if Ascii.eqb c quote then String backslash (String quote "")
  else if Ascii.eqb c backslash then String backslash (String backslash "")
  else if (n =? 8)%nat then String backslash "b"
  else if (n =? 12)%nat then String backslash "f"
  else if (n =? 10)%nat then String backslash "n"
  else if (n =? 13)%nat then String backslash "r"
  else if (n =? 9)%nat then String backslash "t"
  else if ((32 <=? n) && (n <=? 126))%nat then String c ""
  else
    String backslash
      (String "u" (String "0" (String "0"
         (String (hex_digit (n / 16)) (String (hex_digit (n mod 16)) ""))))).

Fixpoint escape (s : string) : string :=
  match s with
  | String c r => (escape_char c ++ escape r)%string
  | EmptyString => EmptyString
  end.

(** A string between quotes. *)
Definition encode_string (s : string) : string :=
  String quote (escape s ++ String quote "").

(** [int.__repr__] *)
Definition repr_int (z : Z) : string :=
  NilZero.string_of_int (Z.to_int z).

Definition nl (indent : string) : string := String newline indent.

(** One entry, a dictionary at the first level of the list. *)
Definition dumps_entry (e : entry) : string :=
  ("{" ++ nl "        "
   ++ encode_string "item" ++ ": " ++ encode_string (item e) ++ ","
   ++ nl "        "
   ++ encode_string "stack" ++ ": " ++ repr_int (stack e)
   ++ nl "    " ++ "}")%string.

(** The entries after the first one, each after a comma. *)
Fixpoint dumps_more (l : list entry) : string :=
  match l with
  | e :: l' => ("," ++ nl "    " ++ dumps_entry e ++ dumps_more l')%string
  | [] => EmptyString
  end.

(** The text of the whole list. *)
Definition dumps (items_data : list entry) : string :=
  match items_data with
  | [] => "[]"
  | e :: l => ("[" ++ nl "    " ++ dumps_entry e ++ dumps_more l ++ nl "" ++ "]")%string
  end.

(** A character that is printable ASCII or a line feed. *)
Definition plain_char (c : ascii) : bool :=
  let n := nat_of_ascii c in
  (((32 <=? n) && (n <=? 126)) || (n =? 10))%nat.

Fixpoint plain (s : string) : bool :=
  match s with
  | String c r => plain_char c && plain r
  | EmptyString => true
  end.

(** The value of a hexadecimal digit. *)
Definition hex_value (c : ascii) : option nat :=
  let n := nat_of_ascii c in
  if ((48 <=? n) && (n <=? 57))%nat then Some (n - 48)
  else if ((97 <=? n) && (n <=? 102))%nat then Some (n - 87)
  else None.

(** Reading back the inside of an encoded string, up to and including the
    closing quote: the string and what follows the quote. *)
Fixpoint read_string (s : string) : option (string * string) :=
  match s with
  | EmptyString => None
  | String c r =>
      if Ascii.eqb c quote then Some (EmptyString, r)
      else if Ascii.eqb c backslash then
        match r with
        | String e r' =>
            let more (c' : ascii) (rest : string) :=
              match read_string rest with
              | Some (d, after) => Some (String c' d, after)
              | None => None
              end in
            if Ascii.eqb e quote then more quote r'
            else if Ascii.eqb e backslash then more backslash r'
            else if Ascii.eqb e "b" then more "008"%char r'
            else if Ascii.eqb e "f" then more "012"%char r'
            else if Ascii.eqb e "n" then more "010"%char r'
            else if Ascii.eqb e "r" then more "013"%char r'
            else if Ascii.eqb e "t" then more "009"%char r'
            else if Ascii.eqb e "u" then
              match r' with
              | String _ (String _ (String h1 (String h2 r''))) =>
                  match hex_value h1, hex_value h2 with
                  | Some a, Some b => more (ascii_of_nat (16 * a + b)) r''
                  | _, _ => None
                  end
              | _ => None
              end
            else None
        | EmptyString => None
        end
      else
        match read_string r with
        | Some (d, after) => Some (String c d, after)
        | None => None
        end
  end.

End Json.

(** The fixed parts of the text of an entry and of the list. *)
Definition entry_open : string :=
  ("{" ++ Json.nl "        " ++ Json.encode_string "item" ++ ": ")%string.
Definition entry_middle : string :=
  ("," ++ Json.nl "        " ++ Json.encode_string "stack" ++ ": ")%string.
Definition entry_close : string := "    }".
Definition list_open : string := ("[" ++ Json.nl "    ")%string.
Definition list_next : string := ("," ++ Json.nl "    ")%string.
Definition list_close : string := (Json.nl "" ++ "]")%string.

(** A wiki whose listing page has no column list, and the run of [main]
    on it. *)
Module Edge.

Definition session_get : string -> outcome Response := Demo.serving "".
Definition BeautifulSoup : string -> outcome node := Demo.reading (Demo.document []).
Definition t0 : list event := fst (main_listing session_get BeautifulSoup).
Definition saved : pool := close (initial t0 []) Done (fst (main_done [])).

End Edge.

(** The character [c] does not occur in [s]. *)
Fixpoint free_of (c : ascii) (s : string) : bool :=
  match s with
  | String c' r => negb (Ascii.eqb c' c) && free_of c r
  | EmptyString => true
  end.

(** * Properties *)

(** ** Strings and the regular expression *)

Lemma append_assoc (a b c : string) : ((a ++ b) ++ c = a ++ (b ++ c))%string.
Proof.
  induction a as [|x a IH]; simpl; [reflexivity | now rewrite IH].
Qed.

Lemma append_empty_r (a : string) : (a ++ "")%string = a.
Proof.
  induction a as [|x a IH]; simpl; [reflexivity | now rewrite IH].
Qed.

Lemma length_append (a b : string) :
  String.length (a ++ b) = String.length a + String.length b.
Proof.
  induction a as [|x a IH]; simpl; [reflexivity | now rewrite IH].
Qed.

Lemma isdigit_value (c : ascii) :
  Str.isdigit c = true -> (0 <= Z.of_nat (nat_of_ascii c) - 48 <= 9)%Z.
Proof.
  unfold Str.isdigit; cbv zeta.
  rewrite andb_true_iff, !Nat.leb_le. lia.
Qed.

Lemma int_acc_nonneg (s : string) :
  forall acc, (0 <= acc)%Z -> Str.all_digits s = true -> (0 <= Str.int_acc acc s)%Z.
Proof.
  induction s as [|c s IH]; cbn [Str.int_acc Str.all_digits];
    intros acc Hacc Hd; [assumption|].
  apply andb_true_iff in Hd as [Hc Hs].
  apply IH; [|assumption].
  pose proof (isdigit_value c Hc). lia.
Qed.

(** [span_digits] splits its argument; the first part is made of digits
    and what follows does not start with one. *)
Lemma span_digits_spec (s : string) :
  forall ds rest,
    Str.span_digits s = (ds, rest) ->
    s = (ds ++ rest)%string
    /\ Str.all_digits ds = true
    /\ match rest with
       | String c _ => Str.isdigit c = false
       | EmptyString => True
       end.
Proof.
  induction s as [|c s IH]; simpl; intros ds rest H.
  - inversion H; subst. repeat split.
  - destruct (Str.isdigit c) eqn:Hc.
    + destruct (Str.span_digits s) as [ds' rest'] eqn:Hs.
      inversion H; subst; clear H.
      destruct (IH ds' rest eq_refl) as (-> & Hd & Hr).
      simpl. rewrite Hc. repeat split; assumption.
    + inversion H; subst; clear H. simpl. repeat split. exact Hc.
Qed.

(** The longest run of digits is found whatever follows it. *)
Lemma span_digits_app (ds : string) (c : ascii) (r : string) :
  Str.all_digits ds = true -> Str.isdigit c = false ->
  Str.span_digits (ds ++ String c r) = (ds, String c r).
Proof.
  intros Hd Hc. induction ds as [|d ds IH]; simpl.
  - now rewrite Hc.
  - simpl in Hd. apply andb_true_iff in Hd as [Hd1 Hd2].
    rewrite Hd1, (IH Hd2). reflexivity.
Qed.

Lemma nonempty_true (s : string) : Str.nonempty s = true <-> s <> EmptyString.
Proof.
  destruct s; simpl; split; intro H; try discriminate; try reflexivity.
  now elim H.
Qed.

Lemma match_here_sound (s g : string) :
  Re.match_here s = Some g -> Flat.paren_int_here s g.
Proof.
  unfold Re.match_here, Flat.paren_int_here.
  destruct s as [|c r]; [discriminate|].
  destruct (Ascii.eqb c "(") eqn:Hc; [|discriminate].
  apply Ascii.eqb_eq in Hc; subst c.
  destruct (Str.span_digits r) as [ds rest] eqn:Hs.
  destruct rest as [|c' post]; [discriminate|].
  destruct (Str.nonempty ds && Ascii.eqb c' ")") eqn:Hb; [|discriminate].
  intros H; inversion H; subst; clear H.
  apply andb_true_iff in Hb as [Hne Hc'].
  apply Ascii.eqb_eq in Hc'; subst c'.
  destruct (span_digits_spec _ _ _ Hs) as (-> & Hd & _).
  exists post. split; [reflexivity|].
  split; [now apply nonempty_true | assumption].
Qed.

(** Greedy matching of the digits loses no match. *)
Lemma match_here_complete (s g : string) :
  Flat.paren_int_here s g -> Re.match_here s = Some g.
Proof.
  intros (post & -> & Hne & Hd).
  unfold Re.match_here. simpl.
  rewrite (span_digits_app g ")" post Hd eq_refl).
  apply nonempty_true in Hne. rewrite Hne. reflexivity.
Qed.

Lemma match_here_none (s : string) :
  Re.match_here s = None <-> (forall g, ~ Flat.paren_int_here s g).
Proof.
  split.
  - intros H g Hg. apply match_here_complete in Hg. congruence.
  - intros H. destruct (Re.match_here s) as [g|] eqn:Hm; [|reflexivity].
    apply match_here_sound in Hm. now elim (H g).
Qed.

(** [search] returns the parenthesized integer that starts first. *)
Lemma search_some (s g : string) :
  Re.search s = Some g ->
  exists pre,
    Flat.paren_int_after s pre g /\ Flat.none_before s (String.length pre).
Proof.
  revert g. induction s as [|c s IH]; intros g H.
  - simpl in H. discriminate.
  - cbn [Re.search] in H.
    destruct (Re.match_here (String c s)) as [g'|] eqn:Hm.
    + inversion H; subst g'; clear H.
      exists EmptyString. split.
      * exists (String c s). split; [reflexivity | now apply match_here_sound].
      * intros pre ds _. simpl. lia.
    + destruct (IH g H) as (pre & (rest & Hs & Hp) & Hnb).
      exists (String c pre). split.
      * exists rest. split; [simpl; now rewrite Hs | assumption].
      * intros pre' ds (rest' & Hs' & Hp').
        destruct pre' as [|c' pre'].
        -- simpl in Hs'. subst rest'.
           apply match_here_complete in Hp'. congruence.
        -- simpl in Hs'. inversion Hs' as [[Hc Hr]].
           simpl. apply le_n_S. apply (Hnb pre' ds).
           exists rest'. split; assumption.
Qed.

Lemma search_none (s : string) :
  Re.search s = None -> forall pre g, ~ Flat.paren_int_after s pre g.
Proof.
  induction s as [|c s IH]; intros H pre g (rest & Hs & Hp).
  - destruct pre; [|discriminate]. simpl in Hs. subst rest.
    destruct Hp as (post & Hp & _). discriminate.
  - cbn [Re.search] in H.
    destruct (Re.match_here (String c s)) as [g'|] eqn:Hm; [discriminate|].
    destruct pre as [|c' pre].
    + simpl in Hs. subst rest. apply match_here_complete in Hp. congruence.
    + simpl in Hs. inversion Hs as [[Hc Hr]].
      apply (IH H pre g). exists rest. split; assumption.
Qed.

(** A parenthesized integer starts at one place only with one value. *)
Lemma paren_int_here_unique (s g1 g2 : string) :
  Flat.paren_int_here s g1 -> Flat.paren_int_here s g2 -> g1 = g2.
Proof.
  intros H1 H2. apply match_here_complete in H1, H2. congruence.
Qed.

Lemma append_same_length (a b c d : string) :
  (a ++ b = c ++ d)%string -> String.length a = String.length c -> a = c /\ b = d.
Proof.
  revert c. induction a as [|x a IH]; intros [|y c] H L; simpl in *;
    try discriminate.
  - split; [reflexivity | assumption].
  - inversion H; subst. destruct (IH c H2) as [-> ->]; [lia|]. split; reflexivity.
Qed.

(** The leftmost parenthesized integer is the result of [search]. *)
Lemma search_leftmost (text pre ds : string) :
  Flat.paren_int_after text pre ds ->
  Flat.none_before text (String.length pre) ->
  Re.search text = Some ds.
Proof.
  intros Hp Hnb.
  destruct (Re.search text) as [g|] eqn:Hs.
  - destruct (search_some _ _ Hs) as (pre' & Hp' & Hnb').
    pose proof (Hnb _ _ Hp') as L1. pose proof (Hnb' _ _ Hp) as L2.
    destruct Hp as (rest & E & Hh), Hp' as (rest' & E' & Hh').
    rewrite E in E'.
    destruct (append_same_length _ _ _ _ E') as [-> ->]; [lia|].
    f_equal. eapply paren_int_here_unique; eassumption.
  - elim (search_none _ Hs _ _ Hp).
Qed.

(** ** The script's string functions and the specification's texts *)

Lemma prefix_spec (a b : string) :
  prefix a b = true <-> exists post, b = (a ++ post)%string.
Proof.
  revert b. induction a as [|x a IH]; intros b.
  - destruct b; simpl; split; intros _; try reflexivity; eexists; reflexivity.
  - destruct b as [|y b]; simpl.
    + split; [discriminate | intros (post & H); discriminate].
    + destruct (ascii_dec x y) as [->|Hne].
      * rewrite IH. split; intros (post & H); exists post.
        -- now rewrite H.
        -- now inversion H.
      * split; [discriminate | intros (post & H)].
        inversion H. now elim Hne.
Qed.

Lemma contains_spec (needle hay : string) :
  Str.contains needle hay = true
  <-> exists pre post, hay = (pre ++ needle ++ post)%string.
Proof.
  induction hay as [|c hay IH].
  - cbn [Str.contains]. rewrite orb_false_r, prefix_spec. split.
    + intros (post & H). exists EmptyString, post. exact H.
    + intros (pre & post & H). destruct pre; [|discriminate].
      exists post. exact H.
  - cbn [Str.contains]. rewrite orb_true_iff, prefix_spec, IH. split.
    + intros [(post & H) | (pre & post & H)].
      * exists EmptyString, post. exact H.
      * exists (String c pre), post. simpl. now rewrite H.
    + intros (pre & post & H). destruct pre as [|c' pre].
      * left. exists post. exact H.
      * right. exists pre, post. simpl in H. now inversion H.
Qed.

(** The test of line 60 is the substring test of the specification. *)
Lemma contains_yes (text : string) :
  Str.contains "Yes" text = true <-> Spec.has_yes text.
Proof. apply contains_spec. Qed.

Lemma contains_no_yes (text : string) :
  Str.contains "Yes" text = false <-> ~ Spec.has_yes text.
Proof.
  rewrite <- contains_yes. destruct (Str.contains "Yes" text); split; intros H;
    try reflexivity; try discriminate; try (intros E; discriminate).
  now elim H.
Qed.

(** [str.isspace] holds of the whitespace characters, and of no other. *)
Lemma isspace_space (c : ascii) : Str.isspace c = true <-> Spec.space c.
Proof.
  unfold Str.isspace, Spec.space, Spec.whitespace. cbv zeta.
  generalize (nat_of_ascii c); intros n.
  rewrite !orb_true_iff, !andb_true_iff, !Nat.leb_le, !Nat.eqb_eq.
  cbn [In]. lia.
Qed.

Lemma isspace_not_space (c : ascii) : Str.isspace c = false <-> ~ Spec.space c.
Proof.
  rewrite <- isspace_space. destruct (Str.isspace c); split; intros H;
    try reflexivity; try discriminate; try (intros E; discriminate).
  now elim H.
Qed.

Lemma all_space_blank (s : string) : Flat.all_space s = true <-> Spec.blank s.
Proof.
  induction s as [|c s IH]; cbn [Flat.all_space Spec.blank]; [tauto|].
  now rewrite andb_true_iff, isspace_space, IH.
Qed.

Lemma last_char_some (c : ascii) (s : string) :
  Spec.last_char (String c s) = Some (Flat.last_char c s).
Proof.
  revert c. induction s as [|c' s IH]; intros c; [reflexivity|].
  cbn [Spec.last_char Flat.last_char]. apply IH.
Qed.

Lemma trimmed_spec (s : string) : Flat.trimmed s = true <-> Spec.trimmed s.
Proof.
  unfold Spec.trimmed. destruct s as [|c s].
  - cbn. split; [intros _; split; intros c H; discriminate H | reflexivity].
  - cbn [Flat.trimmed Spec.first_char]. rewrite last_char_some.
    rewrite andb_true_iff, !negb_true_iff, !isspace_not_space. split.
    + intros [H1 H2]. split; intros c' E; inversion E; subst; assumption.
    + intros [H1 H2]. split; [apply H1 | apply H2]; reflexivity.
Qed.

(** [lstrip] takes whitespace off the front and nothing else. *)
Lemma lstrip_spec (s : string) :
  exists l,
    s = (l ++ Str.lstrip s)%string
    /\ Flat.all_space l = true
    /\ match Str.lstrip s with
       | String c _ => Str.isspace c = false
       | EmptyString => True
       end.
Proof.
  induction s as [|c s (l & E & Hl & Hc)].
  - exists EmptyString. repeat split.
  - cbn [Str.lstrip]. destruct (Str.isspace c) eqn:Hsp.
    + exists (String c l). cbn [String.append Flat.all_space].
      rewrite Hsp, Hl, <- E. repeat split. exact Hc.
    + exists EmptyString. repeat split. exact Hsp.
Qed.

(** [rstrip] takes whitespace off the end and nothing else. *)
Lemma rstrip_spec (s : string) :
  exists r,
    s = (Str.rstrip s ++ r)%string
    /\ Flat.all_space r = true
    /\ match Str.rstrip s with
       | String c t => Str.isspace (Flat.last_char c t) = false
       | EmptyString => True
       end.
Proof.
  induction s as [|c s (r & E & Hr & Hc)].
  - exists EmptyString. repeat split.
  - cbn [Str.rstrip]. destruct (Str.rstrip s) as [|c' t] eqn:Hs.
    + cbn [String.append] in E. subst r.
      destruct (Str.isspace c) eqn:Hsp.
      * exists (String c s). cbn [String.append Flat.all_space].
        rewrite Hsp, Hr. repeat split.
      * exists s. repeat split; assumption.
    + exists r. cbn [String.append] in *. rewrite <- E. repeat split; assumption.
Qed.

Lemma rstrip_keeps_first (c : ascii) (s : string) :
  Str.isspace c = false -> exists t, Str.rstrip (String c s) = String c t.
Proof.
  intros Hsp. cbn [Str.rstrip]. destruct (Str.rstrip s) as [|c' t].
  - rewrite Hsp. now exists EmptyString.
  - now exists (String c' t).
Qed.

(** [strip] takes whitespace off both ends and nothing else. *)
Lemma strip_spec (s : string) :
  exists l r,
    s = (l ++ Str.strip s ++ r)%string
    /\ Flat.all_space l = true
    /\ Flat.all_space r = true
    /\ Flat.trimmed (Str.strip s) = true.
Proof.
  unfold Str.strip.
  destruct (lstrip_spec s) as (l & El & Hl & Hc).
  destruct (rstrip_spec (Str.lstrip s)) as (r & Er & Hr & Hlast).
  exists l, r. split; [now rewrite <- Er|]. split; [exact Hl|]. split; [exact Hr|].
  destruct (Str.lstrip s) as [|c t]; [reflexivity|].
  destruct (rstrip_keeps_first c t Hc) as (t' & Et).
  rewrite Et in *. cbn [Flat.trimmed]. now rewrite Hc, Hlast.
Qed.

Lemma lstrip_app_blank (l x : string) :
  Flat.all_space l = true -> Str.lstrip (l ++ x) = Str.lstrip x.
Proof.
  induction l as [|c l IH]; cbn [Flat.all_space String.append Str.lstrip];
    [reflexivity|].
  intros H. apply andb_true_iff in H as [Hc Hl]. rewrite Hc. now apply IH.
Qed.

Lemma rstrip_blank (r : string) : Flat.all_space r = true -> Str.rstrip r = EmptyString.
Proof.
  induction r as [|c r IH]; cbn [Flat.all_space Str.rstrip]; [reflexivity|].
  intros H. apply andb_true_iff in H as [Hc Hr]. now rewrite (IH Hr), Hc.
Qed.

Lemma rstrip_app_blank (m r : string) :
  Flat.all_space r = true -> Str.rstrip (m ++ r) = Str.rstrip m.
Proof.
  intros Hr. induction m as [|c m IH]; cbn [String.append Str.rstrip].
  - now apply rstrip_blank.
  - now rewrite IH.
Qed.

Lemma rstrip_trimmed (m : string) :
  forall c,
    Str.isspace (Flat.last_char c m) = false ->
    Str.rstrip (String c m) = String c m.
Proof.
  induction m as [|c' m IH]; intros c H.
  - cbn in *. now rewrite H.
  - cbn [Flat.last_char] in H.
    change (Str.rstrip (String c (String c' m)))
      with match Str.rstrip (String c' m) with
           | EmptyString => if Str.isspace c then EmptyString else String c EmptyString
           | r' => String c r'
           end.
    now rewrite (IH c' H).
Qed.

(** The result of [strip] is the trimmed text of the specification, and
    the only one. *)
Lemma strip_trim_of (s : string) : Spec.trim_of s (Str.strip s).
Proof.
  destruct (strip_spec s) as (l & r & E & Hl & Hr & Ht).
  exists l, r. split; [exact E|].
  split; [now apply all_space_blank|].
  split; [now apply all_space_blank | now apply trimmed_spec].
Qed.

Lemma trim_of_strip (s m : string) : Spec.trim_of s m -> Str.strip s = m.
Proof.
  intros (l & r & -> & Hl & Hr & Ht).
  apply all_space_blank in Hl, Hr. apply trimmed_spec in Ht.
  unfold Str.strip. rewrite (lstrip_app_blank l _ Hl).
  destruct m as [|c m].
  - cbn [String.append].
    rewrite <- (append_empty_r r), (lstrip_app_blank r _ Hr). reflexivity.
  - cbn [Flat.trimmed] in Ht. apply andb_true_iff in Ht as [Hc Hlast].
    apply negb_true_iff in Hc, Hlast.
    cbn [String.append Str.lstrip]. rewrite Hc.
    change (String c (m ++ r)) with (String c m ++ r)%string.
    rewrite (rstrip_app_blank _ r Hr). now apply rstrip_trimmed.
Qed.

Lemma concat_cons (t : string) (l : list string) :
  String.concat "" (t :: l) = (t ++ String.concat "" l)%string.
Proof.
  destruct l as [|t' l]; cbn [String.concat]; [now rewrite append_empty_r | reflexivity].
Qed.

(** The text nodes below a node are those among its descendants. *)
Lemma strings_descendants (n : node) :
  Spec.strings n
  = flat_map (fun d => match d with NavigableString s => [s] | _ => [] end)
             (Soup.descendants n).
Proof.
  induction n as [s|s|name classes href cs IH] using node_tree_ind;
    try reflexivity.
  cbn [Spec.strings Soup.descendants].
  induction IH as [|c cs Hc _ IHcs]; [reflexivity|].
  cbn [flat_map]. rewrite flat_map_app, <- IHcs. f_equal.
  destruct c as [s|s|name' classes' href' cs']; try reflexivity.
  cbn [flat_map app]. exact Hc.
Qed.

Lemma joined_unique (pieces : list string) (t1 t2 : string) :
  Spec.joined pieces t1 -> Spec.joined pieces t2 -> t1 = t2.
Proof.
  intros H1. revert t2. induction H1 as [|s m pieces text Hm _ IH]; intros t2 H2;
    inversion H2; subst; [reflexivity|].
  apply trim_of_strip in Hm.
  match goal with H : Spec.trim_of s _ |- _ => apply trim_of_strip in H; rewrite <- H end.
  rewrite <- Hm. f_equal. now apply IH.
Qed.

(** [get_text(strip=True)] gives the trimmed text of the specification,
    and the only one. *)
Lemma reads_get_text (n : node) : Spec.reads n (Soup.get_text n).
Proof.
  unfold Spec.reads, Soup.get_text, Soup.stripped_strings.
  rewrite strings_descendants.
  induction (Soup.descendants n) as [|d ds IH]; [constructor|].
  cbn [flat_map]. destruct d as [s|s|name classes href cs]; try exact IH.
  cbv zeta. cbn [app].
  destruct (Str.strip s) as [|c t] eqn:Hs; cbn [Str.nonempty app].
  - change (String.concat "" (flat_map _ ds))
      with ("" ++ String.concat ""
              (flat_map
                 (fun d => match d with
                           | NavigableString s =>
                               let t := Str.strip s in
                               if Str.nonempty t then [t] else []
                           | _ => []
                           end) ds))%string.
    constructor; [|exact IH]. rewrite <- Hs. apply strip_trim_of.
  - rewrite concat_cons. constructor; [|exact IH].
    rewrite <- Hs. apply strip_trim_of.
Qed.

Lemma reads_iff (n : node) (text : string) :
  Spec.reads n text <-> Soup.get_text n = text.
Proof.
  split.
  - intros H. exact (joined_unique _ _ _ (reads_get_text n) H).
  - intros <-. apply reads_get_text.
Qed.

(** The class [\d] holds of the ten digits, and of no other character. *)
Lemma isdigit_digit (c : ascii) : Str.isdigit c = true <-> Spec.digit c.
Proof.
  unfold Str.isdigit, Spec.digit. cbv zeta.
  rewrite andb_true_iff, !Nat.leb_le. split.
  - intros H. rewrite <- (ascii_nat_embedding c).
    assert (E : nat_of_ascii c = 48 \/ nat_of_ascii c = 49 \/ nat_of_ascii c = 50
                \/ nat_of_ascii c = 51 \/ nat_of_ascii c = 52 \/ nat_of_ascii c = 53
                \/ nat_of_ascii c = 54 \/ nat_of_ascii c = 55 \/ nat_of_ascii c = 56
                \/ nat_of_ascii c = 57) by lia.
    repeat destruct E as [E|E]; rewrite E; cbn; auto 12.
  - cbn [In]. intros H.
    repeat destruct H as [H|H]; try (subst c; cbn; lia). contradiction.
Qed.

Lemma all_digits_digits (s : string) : Str.all_digits s = true <-> Spec.digits s.
Proof.
  induction s as [|c s IH]; cbn [Str.all_digits Spec.digits]; [tauto|].
  now rewrite andb_true_iff, isdigit_digit, IH.
Qed.

Lemma paren_int_here_iff (s ds : string) :
  Spec.paren_int_here s ds <-> Flat.paren_int_here s ds.
Proof.
  unfold Spec.paren_int_here, Flat.paren_int_here.
  split; intros (post & E & Hne & Hd); exists post; repeat split;
    try assumption; now apply all_digits_digits.
Qed.

Lemma paren_int_after_iff (text pre ds : string) :
  Spec.paren_int_after text pre ds <-> Flat.paren_int_after text pre ds.
Proof.
  unfold Spec.paren_int_after, Flat.paren_int_after.
  split; intros (rest & E & H); exists rest; split; try assumption;
    now apply paren_int_here_iff.
Qed.

Lemma none_before_iff (text : string) (n : nat) :
  Spec.none_before text n <-> Flat.none_before text n.
Proof.
  unfold Spec.none_before, Flat.none_before.
  split; intros H pre ds Hp; apply (H pre ds); now apply paren_int_after_iff.
Qed.

(** [re.search] finds the first parenthesized integer of the text. *)
Lemma search_first_paren_int (text ds : string) :
  Re.search text = Some ds <-> Spec.first_paren_int text ds.
Proof.
  unfold Spec.first_paren_int. split.
  - intros H. destruct (search_some _ _ H) as (pre & Hp & Hnb).
    exists pre. split; [now apply paren_int_after_iff | now apply none_before_iff].
  - intros (pre & Hp & Hnb).
    apply (search_leftmost text pre ds);
      [now apply paren_int_after_iff | now apply none_before_iff].
Qed.

Lemma search_no_paren_int (text : string) :
  Re.search text = None <-> (forall pre ds, ~ Spec.paren_int_after text pre ds).
Proof.
  split.
  - intros H pre ds Hp. apply paren_int_after_iff in Hp.
    exact (search_none _ H _ _ Hp).
  - intros H. destruct (Re.search text) as [g|] eqn:Hs; [|reflexivity].
    destruct (search_some _ _ Hs) as (pre & Hp & _).
    apply paren_int_after_iff in Hp. elim (H _ _ Hp).
Qed.

(** The digits are accumulated to the number they denote. *)
Lemma int_acc_decimal (s : string) :
  forall acc,
    Str.int_acc acc s
    = (acc * 10 ^ Z.of_nat (String.length s) + Spec.decimal s)%Z.
Proof.
  induction s as [|c s IH]; intros acc;
    cbn [Str.int_acc Spec.decimal String.length].
  - cbn. lia.
  - rewrite IH, Nat2Z.inj_succ, Z.pow_succ_r by lia. ring.
Qed.

Lemma decimal_nonneg (s : string) : Spec.digits s -> (0 <= Spec.decimal s)%Z.
Proof.
  intros H. apply all_digits_digits in H.
  pose proof (int_acc_nonneg s 0 (Z.le_refl 0) H) as Hn.
  rewrite int_acc_decimal in Hn. lia.
Qed.

(** [int] converts a run of at most 4300 characters and raises on a
    longer one. *)
Lemma int_converts (s : string) :
  String.length s <= Spec.max_digits -> Str.int s = Returns (Spec.decimal s).
Proof.
  intros H. unfold Str.int.
  apply Nat.leb_le in H. unfold Spec.max_digits in H.
  unfold Str.int_max_str_digits. rewrite H.
  rewrite int_acc_decimal. reflexivity.
Qed.

Lemma int_raises (s : string) :
  Spec.max_digits < String.length s ->
  Str.int s = Raises (Str.ValueError_too_long (String.length s)).
Proof.
  intros H. unfold Str.int.
  apply Nat.leb_gt in H. unfold Spec.max_digits in H.
  unfold Str.int_max_str_digits. now rewrite H.
Qed.

(** The value that [get_stackable_info] makes of an outcome of the
    extraction: the exception of line 62 is caught at line 66. *)
Lemma stack_of_text_cases (text : string) :
  (~ Spec.has_yes text /\ stack_of_text text = Returns 1%Z)
  \/ (Spec.has_yes text
      /\ (forall pre ds, ~ Spec.paren_int_after text pre ds)
      /\ stack_of_text text = Returns 64%Z)
  \/ (exists ds,
        Spec.has_yes text /\ Spec.first_paren_int text ds
        /\ String.length ds <= Spec.max_digits
        /\ stack_of_text text = Returns (Spec.decimal ds))
  \/ (exists ds,
        Spec.has_yes text /\ Spec.first_paren_int text ds
        /\ Spec.max_digits < String.length ds
        /\ stack_of_text text = Raises (Str.ValueError_too_long (String.length ds))).
Proof.
  unfold stack_of_text.
  destruct (Str.contains "Yes" text) eqn:Hy.
  - apply contains_yes in Hy.
    destruct (Re.search text) as [ds|] eqn:Hs.
    + apply search_first_paren_int in Hs.
      destruct (le_lt_dec (String.length ds) Spec.max_digits) as [L|L].
      * right. right. left. exists ds. now rewrite (int_converts ds L).
      * right. right. right. exists ds. now rewrite (int_raises ds L).
    + right. left. split; [exact Hy|]. split; [|reflexivity].
      now apply search_no_paren_int.
  - left. split; [|reflexivity]. now apply contains_no_yes.
Qed.

Lemma first_paren_int_unique (text d1 d2 : string) :
  Spec.first_paren_int text d1 -> Spec.first_paren_int text d2 -> d1 = d2.
Proof.
  intros H1 H2. apply search_first_paren_int in H1, H2. congruence.
Qed.

Lemma first_paren_int_present (text ds : string) :
  Spec.first_paren_int text ds -> exists pre, Spec.paren_int_after text pre ds.
Proof. intros (pre & H & _). now exists pre. Qed.

(** The stack size of a text, in the words of the specification, is what
    [get_stackable_info] makes of [stack_of_text]. *)
Lemma stack_size_of_iff (text : string) (v : Z) :
  Spec.stack_size_of text v
  <-> match stack_of_text text with
      | Returns v' => v' = v
      | Raises _ => v = 1%Z
      end.
Proof.
  split.
  - intros H.
    destruct (stack_of_text_cases text)
      as [(Hn & E) | [(Hy & Hno & E) | [(ds & Hy & Hf & L & E) | (ds & Hy & Hf & L & E)]]];
      rewrite E; inversion H as [Hn' | Hy' Hno' | ds' Hy' Hf' L' | ds' Hy' Hf' L'];
      subst; try reflexivity; try contradiction;
      try (destruct (first_paren_int_present _ _ Hf) as (pre & Hp); elim (Hno' _ _ Hp));
      try (destruct (first_paren_int_present _ _ Hf') as (pre & Hp); elim (Hno _ _ Hp));
      try (pose proof (first_paren_int_unique _ _ _ Hf Hf') as Eq; subst;
           try reflexivity; lia).
  - destruct (stack_of_text_cases text)
      as [(Hn & E) | [(Hy & Hno & E) | [(ds & Hy & Hf & L & E) | (ds & Hy & Hf & L & E)]]];
      rewrite E; intros Hv; subst v.
    + now apply Spec.size_not_stackable.
    + now apply Spec.size_unspecified.
    + now apply Spec.size_given.
    + now apply (Spec.size_not_converted text ds).
Qed.

Lemma stack_size_of_unique (text : string) (v1 v2 : Z) :
  Spec.stack_size_of text v1 -> Spec.stack_size_of text v2 -> v1 = v2.
Proof.
  intros H1 H2. apply stack_size_of_iff in H1, H2.
  destruct (stack_of_text text); congruence.
Qed.

Lemma free_of_app (c : ascii) (a b : string) :
  free_of c (a ++ b) = free_of c a && free_of c b.
Proof.
  induction a as [|x a IH]; cbn [free_of String.append]; [reflexivity|].
  now rewrite IH, andb_assoc.
Qed.

(** ** The detail extractor *)

Lemma scan_rows_find (rows : list node) :
  scan_rows rows =
  match List.find (fun row => Flat.stackable_row row && Flat.has_value_cell row) rows with
  | Some row =>
      option_map (fun cell => stack_of_text (Soup.get_text cell)) (Soup.find "td" row)
  | None => None
  end.
Proof.
  induction rows as [|row rows IH]; [reflexivity|].
  cbn [scan_rows List.find].
  unfold Flat.stackable_row, Flat.has_value_cell.
  destruct (Soup.find "th" row) as [header|]; [|exact IH].
  destruct (Soup.get_text header =? "Stackable")%string; [|exact IH].
  destruct (Soup.find "td" row) as [cell|] eqn:Hc; [|exact IH].
  cbn. rewrite Hc. reflexivity.
Qed.

Lemma find_some_selected (rows : list node) (row : node) :
  List.find (fun row => Flat.stackable_row row && Flat.has_value_cell row) rows = Some row ->
  exists cell, Soup.find "td" row = Some cell.
Proof.
  intros H. apply find_some in H as [_ H].
  apply andb_true_iff in H as [_ H].
  unfold Flat.has_value_cell in H.
  destruct (Soup.find "td" row) as [cell|]; [now exists cell | discriminate].
Qed.

Lemma find_app_first {A} (f : A -> bool) (l1 l2 : list A) :
  List.find f (l1 ++ l2) =
  match List.find f l1 with
  | Some x => Some x
  | None => List.find f l2
  end.
Proof.
  induction l1 as [|x l1 IH]; simpl; [reflexivity|].
  destruct (f x); [reflexivity | exact IH].
Qed.

Lemma scan_tables_find (tables : list node) :
  scan_tables tables =
  match List.find (fun row => Flat.stackable_row row && Flat.has_value_cell row)
                  (flat_map (Soup.find_all "tr") tables) with
  | Some row =>
      option_map (fun cell => stack_of_text (Soup.get_text cell)) (Soup.find "td" row)
  | None => None
  end.
Proof.
  induction tables as [|table tables IH]; [reflexivity|].
  cbn [scan_tables flat_map].
  rewrite find_app_first, scan_rows_find.
  destruct (List.find _ (Soup.find_all "tr" table)) as [row|] eqn:Hf.
  - destruct (find_some_selected _ _ Hf) as [cell Hc]. rewrite Hc. reflexivity.
  - exact IH.
Qed.

(** The loops compute the stack size of the value text, 1 without one. *)
Lemma extract_stack_size_value_text (soup : node) :
  extract_stack_size soup =
  match Flat.value_text soup with
  | Some text => stack_of_text text
  | None => Returns 1%Z
  end.
Proof.
  unfold extract_stack_size, Flat.value_text, Flat.matching_row, Spec.rows_in_order.
  rewrite scan_tables_find.
  destruct (List.find _ _) as [row|] eqn:Hf; [|reflexivity].
  destruct (find_some_selected _ _ Hf) as [cell Hc]. rewrite Hc. reflexivity.
Qed.

(** The tests of the loops are the notions of the specification. *)
Lemma stackable_iff (row : node) :
  Spec.stackable row <-> Flat.stackable_row row = true.
Proof.
  unfold Spec.stackable, Flat.stackable_row. split.
  - intros (header & -> & H). apply reads_iff in H. now apply String.eqb_eq.
  - destruct (Soup.find "th" row) as [header|]; [|discriminate].
    intros H. apply String.eqb_eq in H. exists header.
    split; [reflexivity | now apply reads_iff].
Qed.

Lemma matching_iff (row : node) :
  Spec.matching row
  <-> Flat.stackable_row row && Flat.has_value_cell row = true.
Proof.
  unfold Spec.matching, Spec.value_cell, Flat.has_value_cell.
  rewrite andb_true_iff, stackable_iff. split.
  - intros [H (cell & ->)]. now split.
  - intros [H Hc]. split; [exact H|].
    destruct (Soup.find "td" row) as [cell|]; [now exists cell | discriminate].
Qed.

Lemma find_first {A} (f : A -> bool) (before : list A) (x : A) (after : list A) :
  (forall y, In y before -> f y = false) -> f x = true ->
  List.find f (before ++ x :: after) = Some x.
Proof.
  intros Hb Hx. induction before as [|y before IH]; cbn [app List.find].
  - now rewrite Hx.
  - rewrite (Hb y (or_introl eq_refl)). apply IH.
    intros z Hz. apply Hb. now right.
Qed.

Lemma find_split {A} (f : A -> bool) (l : list A) (x : A) :
  List.find f l = Some x ->
  exists before after,
    l = before ++ x :: after
    /\ f x = true
    /\ forall y, In y before -> f y = false.
Proof.
  induction l as [|y l IH]; cbn [List.find]; [discriminate|].
  destruct (f y) eqn:Hy.
  - intros H. inversion H; subst. exists [], l. repeat split; [exact Hy|].
    intros z [].
  - intros H. destruct (IH H) as (before & after & -> & Hx & Hb).
    exists (y :: before), after. repeat split; [exact Hx|].
    intros z [<-|Hz]; [exact Hy | now apply Hb].
Qed.

Lemma first_matching_iff (soup row : node) :
  Spec.first_matching soup row <-> Flat.matching_row soup = Some row.
Proof.
  unfold Spec.first_matching, Flat.matching_row. split.
  - intros (before & after & -> & Hm & Hb).
    apply find_first; [|now apply matching_iff].
    intros y Hy. specialize (Hb y Hy). rewrite matching_iff in Hb.
    now destruct (Flat.stackable_row y && Flat.has_value_cell y).
  - intros H. destruct (find_split _ _ _ H) as (before & after & E & Hx & Hb).
    exists before, after. split; [exact E|]. split; [now apply matching_iff|].
    intros r Hr Hm. apply matching_iff in Hm. rewrite (Hb r Hr) in Hm. discriminate.
Qed.

(** The text of line 59 is the value text of the specification. *)
Lemma value_text_iff (soup : node) (text : string) :
  Spec.value_text soup text <-> Flat.value_text soup = Some text.
Proof.
  unfold Spec.value_text, Spec.value_cell, Flat.value_text. split.
  - intros (row & cell & Hf & Hc & Hr).
    apply first_matching_iff in Hf. rewrite Hf, Hc. cbn.
    apply reads_iff in Hr. now rewrite Hr.
  - destruct (Flat.matching_row soup) as [row|] eqn:Hf; [|discriminate].
    destruct (Soup.find "td" row) as [cell|] eqn:Hc; [|discriminate].
    cbn. intros H. inversion H; subst. exists row, cell.
    split; [now apply first_matching_iff|]. split; [exact Hc|].
    apply reads_get_text.
Qed.

Lemma no_value_text_iff (soup : node) :
  (forall row, In row (Spec.rows_in_order soup) -> ~ Spec.matching row)
  <-> Flat.value_text soup = None.
Proof.
  unfold Flat.value_text, Flat.matching_row. split.
  - intros H.
    destruct (List.find _ _) as [row|] eqn:Hf; [|reflexivity].
    apply find_some in Hf as [Hin Hm]. apply matching_iff in Hm.
    elim (H row Hin Hm).
  - destruct (List.find _ _) as [row|] eqn:Hf.
    + destruct (find_some_selected _ _ Hf) as [cell Hc]. rewrite Hc. discriminate.
    + intros _ row Hin Hm. apply matching_iff in Hm.
      pose proof (find_none _ _ Hf row Hin) as Hn. cbv beta in Hn.
      rewrite Hm in Hn. discriminate.
Qed.

Lemma value_text_unique (soup : node) (t1 t2 : string) :
  Spec.value_text soup t1 -> Spec.value_text soup t2 -> t1 = t2.
Proof.
  intros H1 H2. apply value_text_iff in H1, H2. congruence.
Qed.


(** What the extraction gives on a page with a value text, and on a page
    without a matching row. *)
Lemma extract_stack_size_reads (soup : node) (text : string) (v : Z) :
  Spec.value_text soup text ->
  (Spec.stack_size_of text v
   <-> match extract_stack_size soup with
       | Returns v' => v' = v
       | Raises _ => v = 1%Z
       end).
Proof.
  intros Hv. apply value_text_iff in Hv.
  rewrite extract_stack_size_value_text, Hv. apply stack_size_of_iff.
Qed.

Lemma extract_stack_size_no_row (soup : node) :
  (forall row, In row (Spec.rows_in_order soup) -> ~ Spec.matching row) ->
  extract_stack_size soup = Returns 1%Z.
Proof.
  intros H. apply no_value_text_iff in H.
  now rewrite extract_stack_size_value_text, H.
Qed.

Section Detail.

Variable session_get : string -> outcome Response.
Variable BeautifulSoup : string -> outcome node.

Local Abbreviation get_stackable_info := (get_stackable_info session_get BeautifulSoup).
Local Abbreviation fetch_item_data := (fetch_item_data session_get BeautifulSoup).
Local Abbreviation page_of := (page_of session_get BeautifulSoup).
Local Abbreviation detail_fails := (detail_fails session_get BeautifulSoup).

(** On a page that is read, the call returns what the extraction returns,
    and the handler of line 66 turns an exception of the extraction into a
    printed line and the value 1. *)
Lemma get_stackable_info_page (url : string) (soup : node) :
  page_of url soup ->
  get_stackable_info url =
  match extract_stack_size soup with
  | Returns v => ([Get url], Returns v)
  | Raises e =>
      ([Get url; Print ("[!] Exception for " ++ url ++ ": " ++ exc_str e)],
       Returns 1%Z)
  end.
Proof.
  intros (resp & Hg & Hs & Hp).
  unfold_get_stackable_info.
  rewrite Hg, Hs, Hp. cbn.
  destruct (extract_stack_size soup); reflexivity.
Qed.

Lemma page_of_unique (url : string) (s1 s2 : node) :
  page_of url s1 -> page_of url s2 -> s1 = s2.
Proof.
  intros (r1 & G1 & _ & P1) (r2 & G2 & _ & P2).
  rewrite G1 in G2. inversion G2; subst. rewrite P1 in P2. now inversion P2.
Qed.

Lemma get_stackable_info_fails (url : string) :
  detail_fails url ->
  exists line, get_stackable_info url = ([Get url; Print line], Returns 1%Z).
Proof.
  intros [(e & Hg) | [(resp & Hg & Hs) | [(resp & e & Hg & Hp) | (soup & e & Hpage & He)]]].
  - unfold_get_stackable_info. rewrite Hg. eexists. reflexivity.
  - unfold_get_stackable_info. rewrite Hg.
    apply Z.eqb_neq in Hs. rewrite Hs. eexists. reflexivity.
  - unfold_get_stackable_info. rewrite Hg.
    destruct (status_code resp =? 200)%Z; rewrite ?Hp; eexists; reflexivity.
  - rewrite (get_stackable_info_page url soup Hpage), He. eexists. reflexivity.
Qed.

(** Every call either fails in one of the four ways or reads a page from
    which the extraction returns. *)
Lemma detail_fails_or_page (url : string) :
  detail_fails url
  \/ exists soup v, page_of url soup /\ extract_stack_size soup = Returns v.
Proof.
  unfold_cases.
  destruct (session_get url) as [resp|e] eqn:Hg.
  - destruct (Z.eq_dec (status_code resp) 200) as [Hs|Hs].
    + destruct (BeautifulSoup (text resp)) as [soup|e] eqn:Hp.
      * destruct (extract_stack_size soup) as [v|e] eqn:He.
        -- right. exists soup, v. split; [exists resp; auto | exact He].
        -- left. right. right. right. exists soup, e. split; [exists resp; auto | exact He].
      * left. right. right. left. exists resp, e. auto.
    + left. right. left. exists resp. auto.
  - left. left. exists e. reflexivity.
Qed.

(** A call sends its request, prints at most one line and returns. *)
Lemma get_stackable_info_events (url : string) :
  exists v,
    get_stackable_info url = ([Get url], Returns v)
    \/ exists line, get_stackable_info url = ([Get url; Print line], Returns v).
Proof.
  destruct (detail_fails_or_page url) as [Hf | (soup & v & Hp & He)].
  - destruct (get_stackable_info_fails url Hf) as (line & H). eauto.
  - rewrite (get_stackable_info_page url soup Hp), He. eauto.
Qed.

Lemma get_stackable_info_returns (url : string) :
  exists t v, get_stackable_info url = (Get url :: t, Returns v).
Proof.
  destruct (get_stackable_info_events url) as (v & [H | (line & H)]); eauto.
Qed.

Lemma fetch_item_data_entry (name url : string) (data : list entry) (t : list event) (v : Z) :
  get_stackable_info url = (t, Returns v) ->
  fetch_item_data (name, url) data =
  (t, Returns ({| item := name; stack := v |}, data ++ [{| item := name; stack := v |}])).
Proof.
  intros H. unfold_fetch_item_data. rewrite H.
  rewrite app_nil_r. reflexivity.
Qed.

(** The value of a call on a page with a value text is the stack size of
    that text, and of no other. *)
Lemma get_stackable_info_reads (url : string) (soup : node) (text : string) (v : Z) :
  page_of url soup ->
  Spec.value_text soup text ->
  (Spec.stack_size_of text v <-> snd (get_stackable_info url) = Returns v).
Proof.
  intros Hp Hv.
  rewrite (extract_stack_size_reads soup text v Hv).
  rewrite (get_stackable_info_page url soup Hp).
  destruct (extract_stack_size soup) as [v'|e]; cbn; split; intros H;
    try congruence; now inversion H.
Qed.

(** C2, as amended. Stack-size value parsing: on a page whose matching
    "Stackable" row has the value-cell text [text], [get_stackable_info]
    returns, when [text] contains "Yes", the number written by the first
    parenthesized integer of [text] if that integer has at most 4300
    digits, 1 after a printed line if it has more, and 64 if [text] has no
    parenthesized integer; it returns 1 when [text] does not contain
    "Yes". *)
Theorem stack_size_value_parsing (url : string) (soup : node) (text : string) :
  page_of url soup ->
  Spec.value_text soup text ->
  (Spec.has_yes text ->
   (forall ds,
       Spec.first_paren_int text ds ->
       (String.length ds <= 4300 ->
        get_stackable_info url = ([Get url], Returns (Spec.decimal ds)))
       /\ (4300 < String.length ds ->
           exists line,
             get_stackable_info url = ([Get url; Print line], Returns 1%Z)))
   /\ ((forall pre ds, ~ Spec.paren_int_after text pre ds) ->
       get_stackable_info url = ([Get url], Returns 64%Z)))
  /\ (~ Spec.has_yes text ->
      get_stackable_info url = ([Get url], Returns 1%Z)).
Proof.
  intros Hpage Hv.
  rewrite (get_stackable_info_page url soup Hpage).
  apply value_text_iff in Hv.
  rewrite extract_stack_size_value_text, Hv.
  destruct (stack_of_text_cases text)
    as [(Hn & E) | [(Hy & Hno & E) | [(ds & Hy & Hf & L & E) | (ds & Hy & Hf & L & E)]]];
    rewrite E; try unfold Spec.max_digits in L.
  - split; [intros Hy; contradiction | reflexivity].
  - split; [intros _ | intros Hn; contradiction]. split; [|reflexivity].
    intros ds Hf. destruct (first_paren_int_present _ _ Hf) as (pre & Hp).
    elim (Hno _ _ Hp).
  - split; [intros _ | intros Hn; contradiction]. split.
    + intros ds' Hf'. rewrite <- (first_paren_int_unique _ _ _ Hf Hf').
      split; [reflexivity | lia].
    + intros Hno. destruct (first_paren_int_present _ _ Hf) as (pre & Hp).
      elim (Hno _ _ Hp).
  - split; [intros _ | intros Hn; contradiction]. split.
    + intros ds' Hf'. rewrite <- (first_paren_int_unique _ _ _ Hf Hf').
      split; [lia | intros _; eexists; reflexivity].
    + intros Hno. destruct (first_paren_int_present _ _ Hf) as (pre & Hp).
      elim (Hno _ _ Hp).
Qed.

(** C7. Missing-row default: on a page none of whose infobox-rows tables
    has a row with a header cell whose trimmed text is "Stackable", the
    extraction, and with it [get_stackable_info], returns 1. *)
Theorem missing_row_default (url : string) (soup : node) :
  page_of url soup ->
  (forall table row,
      In table (Soup.find_all_class "table" "infobox-rows" soup) ->
      In row (Soup.find_all "tr" table) ->
      ~ Spec.stackable row) ->
  extract_stack_size soup = Returns 1%Z
  /\ get_stackable_info url = ([Get url], Returns 1%Z).
Proof.
  intros Hpage Hno.
  assert (E : extract_stack_size soup = Returns 1%Z).
  { apply extract_stack_size_no_row. intros row Hin [Hst _].
    unfold Spec.rows_in_order in Hin.
    apply in_flat_map in Hin as (table & Ht & Hr).
    exact (Hno table row Ht Hr Hst). }
  split; [exact E|].
  rewrite (get_stackable_info_page url soup Hpage), E. reflexivity.
Qed.

(** C9. First matching row: on a page that is read, the value that
    [get_stackable_info] returns is the stack size that the value-cell
    text of the first matching row stands for, the first row, tables and
    rows taken in document order, whose header cell reads "Stackable" and
    which has a value cell; the rows before it, among them "Stackable"
    rows without a value cell, and the rows and tables after it play no
    part.  When no row matches the value is 1. *)
Theorem first_matching_row (url : string) (soup : node) :
  page_of url soup ->
  (forall before row after cell text v,
      Spec.rows_in_order soup = before ++ row :: after ->
      (forall r, In r before -> ~ Spec.matching r) ->
      Spec.stackable row ->
      Spec.value_cell row cell ->
      Spec.reads cell text ->
      Spec.stack_size_of text v ->
      exists t, get_stackable_info url = (Get url :: t, Returns v))
  /\ (forall text, exists v, Spec.stack_size_of text v)
  /\ ((forall row, In row (Spec.rows_in_order soup) -> ~ Spec.matching row) ->
      get_stackable_info url = ([Get url], Returns 1%Z)).
Proof.
  intros Hpage. split; [|split].
  - intros before row after cell text v E Hb Hst Hc Hr Hs.
    assert (Hv : Spec.value_text soup text).
    { exists row, cell. split; [|split; assumption].
      exists before, after. split; [exact E|]. split; [|exact Hb].
      split; [exact Hst | now exists cell]. }
    apply (get_stackable_info_reads url soup text v Hpage Hv) in Hs.
    destruct (get_stackable_info_events url) as (v' & [Hg | (line & Hg)]);
      rewrite Hg in Hs; cbn in Hs; inversion Hs; subst; eauto.
  - intros text.
    destruct (stack_of_text text) as [v|e] eqn:E.
    + exists v. apply stack_size_of_iff. now rewrite E.
    + exists 1%Z. apply stack_size_of_iff. now rewrite E.
  - intros Hno.
    rewrite (get_stackable_info_page url soup Hpage).
    now rewrite (extract_stack_size_no_row soup Hno).
Qed.

(** C10, as amended. Leftmost parenthesized integer: when the value-cell
    text of the matching row contains "Yes", [get_stackable_info] returns
    the number written by the parenthesized integer of the text that
    starts first, wherever "Yes" stands in the text and whatever other
    integers follow, provided that integer has at most 4300 digits; when
    it has more, the call prints a line and returns 1, and no later
    integer is looked at. *)
Theorem leftmost_parenthesized_integer
    (url : string) (soup : node) (text pre ds : string) :
  page_of url soup ->
  Spec.value_text soup text ->
  Spec.has_yes text ->
  Spec.paren_int_after text pre ds ->
  Spec.none_before text (String.length pre) ->
  (String.length ds <= 4300 ->
   get_stackable_info url = ([Get url], Returns (Spec.decimal ds)))
  /\ (4300 < String.length ds ->
      exists line, get_stackable_info url = ([Get url; Print line], Returns 1%Z)).
Proof.
  intros Hpage Hv Hyes Hp Hnb.
  assert (Hf : Spec.first_paren_int text ds) by (exists pre; now split).
  rewrite (get_stackable_info_page url soup Hpage).
  apply value_text_iff in Hv.
  rewrite extract_stack_size_value_text, Hv.
  unfold stack_of_text.
  apply contains_yes in Hyes. rewrite Hyes.
  apply search_first_paren_int in Hf. rewrite Hf.
  split; intros L.
  - now rewrite (int_converts ds L).
  - rewrite (int_raises ds L). eexists. reflexivity.
Qed.

(** The zero of an entry: the page of [url] is read and the first
    parenthesized integer of its value text, a text with "Yes", has at
    most 4300 digits and denotes zero. *)
Lemma get_stackable_info_range (url : string) (t : list event) (v : Z) :
  get_stackable_info url = (t, Returns v) ->
  (0 <= v)%Z
  /\ (v = 0%Z
      <-> exists soup text ds,
            page_of url soup
            /\ Spec.value_text soup text
            /\ Spec.has_yes text
            /\ Spec.first_paren_int text ds
            /\ String.length ds <= 4300
            /\ Spec.decimal ds = 0%Z).
Proof.
  intros H.
  destruct (detail_fails_or_page url) as [Hf | (soup & v' & Hp & He)].
  - destruct (get_stackable_info_fails url Hf) as (line & E).
    rewrite E in H. inversion H; subst. split; [lia|].
    split; [discriminate|].
    intros (soup & text & ds & Hp & Hv & Hy & Hfp & L & Hz). exfalso.
    assert (Hs : Spec.stack_size_of text 0%Z).
    { rewrite <- Hz. now apply Spec.size_given. }
    apply (get_stackable_info_reads url soup text 0%Z Hp Hv) in Hs.
    rewrite E in Hs. discriminate Hs.
  - rewrite (get_stackable_info_page url soup Hp), He in H.
    inversion H; subst; clear H.
    rewrite extract_stack_size_value_text in He.
    destruct (Flat.value_text soup) as [text|] eqn:Hv.
    + apply value_text_iff in Hv.
      destruct (stack_of_text_cases text)
        as [(Hn & E) | [(Hy & Hno & E) | [(ds & Hy & Hf & L & E) | (ds & Hy & Hf & L & E)]]];
        rewrite E in He; inversion He; subst; clear He.
      * split; [lia|]. split; [discriminate|].
        intros (soup' & text' & ds & Hp' & Hv' & Hy & _). exfalso.
        rewrite (page_of_unique _ _ _ Hp' Hp) in Hv'.
        rewrite (value_text_unique _ _ _ Hv' Hv) in Hy. contradiction.
      * split; [lia|]. split; [discriminate|].
        intros (soup' & text' & ds & Hp' & Hv' & _ & Hf & _). exfalso.
        rewrite (page_of_unique _ _ _ Hp' Hp) in Hv'.
        rewrite (value_text_unique _ _ _ Hv' Hv) in Hf.
        destruct (first_paren_int_present _ _ Hf) as (pre & Hpa). elim (Hno _ _ Hpa).
      * assert (Hd : Spec.digits ds).
        { destruct Hf as (pre & (rest & _ & post & _ & _ & Hd) & _). exact Hd. }
        split; [now apply decimal_nonneg|]. split.
        -- intros Hz. exists soup, text, ds. repeat split; assumption.
        -- intros (soup' & text' & ds' & Hp' & Hv' & _ & Hf' & _ & Hz).
           rewrite (page_of_unique _ _ _ Hp' Hp) in Hv'.
           rewrite (value_text_unique _ _ _ Hv' Hv) in Hf'.
           now rewrite (first_paren_int_unique _ _ _ Hf Hf').
    + inversion He; subst. split; [lia|]. split; [discriminate|].
      intros (soup' & text' & ds & Hp' & Hv' & _). exfalso.
      rewrite (page_of_unique _ _ _ Hp' Hp) in Hv'.
      apply value_text_iff in Hv'. congruence.
Qed.

End Detail.

(** ** The worker pool and [main] *)

Lemma saved_file_app (a b : list event) :
  saved_file (a ++ b) =
  match saved_file b with
  | Some data => Some data
  | None => saved_file a
  end.
Proof.
  induction a as [|ev a IH]; simpl.
  - now destruct (saved_file b).
  - rewrite IH. destruct (saved_file b); reflexivity.
Qed.

Section Pool.

Variable session_get : string -> outcome Response.
Variable BeautifulSoup : string -> outcome node.

Local Abbreviation get_stackable_info := (get_stackable_info session_get BeautifulSoup).
Local Abbreviation fetch_item_data := (fetch_item_data session_get BeautifulSoup).
Local Abbreviation page_of := (page_of session_get BeautifulSoup).
Local Abbreviation detail_fails := (detail_fails session_get BeautifulSoup).
Local Abbreviation zero_count := (zero_count session_get BeautifulSoup).
Local Abbreviation produces := (produces session_get BeautifulSoup).
Local Abbreviation step := (step session_get BeautifulSoup).
Local Abbreviation steps := (steps session_get BeautifulSoup).
Local Abbreviation invariant := (invariant session_get BeautifulSoup).
Local Abbreviation main_listing := (main_listing session_get BeautifulSoup).
Local Abbreviation main_run := (main_run session_get BeautifulSoup).

(** A call of [fetch_item_data] writes no file and appends one entry, the
    one made from its tuple. *)
Lemma fetch_item_data_appends (c : string * string) (data data' : list entry)
    (t : list event) (e : entry) :
  fetch_item_data c data = (Get (snd c) :: t, Returns (e, data')) ->
  saved_file t = None /\ data' = data ++ [e] /\ produces c e.
Proof.
  destruct c as [name url]. cbn [snd]. intros H.
  destruct (get_stackable_info_events session_get BeautifulSoup url)
    as (v & [Hg | (line & Hg)]);
    rewrite (fetch_item_data_entry _ _ name url data _ v Hg) in H;
    inversion H; subst; clear H;
    (repeat split; [eexists; exact Hg]).
Qed.

(** A worker is never stuck in its call. *)
Lemma fetch_item_data_returns (c : string * string) (data : list entry) :
  exists t e,
    fetch_item_data c data = (Get (snd c) :: t, Returns (e, data ++ [e])).
Proof.
  destruct c as [name url].
  destruct (get_stackable_info_returns session_get BeautifulSoup url) as (t & v & Hg).
  rewrite (fetch_item_data_entry _ _ name url data _ v Hg). eauto.
Qed.

Lemma main_done_trace (data : list entry) (t : list event) (r : outcome unit) :
  main_done data = (t, r) -> saved_file t = Some data.
Proof. intros H. inversion H; subst. reflexivity. Qed.

Lemma main_interrupted_trace (data : list entry) (t : list event) (r : outcome unit) :
  main_interrupted data = (t, r) -> saved_file t = Some data.
Proof. intros H. inversion H; subst. reflexivity. Qed.

Lemma invariant_initial (item_tuples : list (string * string)) (t0 : list event) :
  invariant item_tuples t0 (initial t0 item_tuples).
Proof.
  constructor; cbn.
  - rewrite app_nil_r. apply Permutation_refl.
  - constructor.
  - unfold max_workers. lia.
  - reflexivity.
  - intros [H|H]; discriminate.
  - reflexivity.
Qed.

Lemma invariant_step (item_tuples : list (string * string)) (t0 : list event)
    (s s' : pool) :
  invariant item_tuples t0 s -> step s s' -> invariant item_tuples t0 s'.
Proof.
  intros [Ht He Hw Hs Hf Hc] Hstep.
  destruct Hstep as
    [s c q Hph Hq Hlen
    |s r1 c r2 t e data Hph Hr Hfetch
    |s s' [s0 keep drop Hph Hsplit]
    |s t Hph Hq Hr Hmain
    |s t Hph Hq Hr Hmain].
  - (* a worker takes a work item *)
    constructor; cbn.
    + unfold active in *; cbn. rewrite Hq in Ht.
      rewrite <- (app_assoc (running s) [c] q). exact Ht.
    + exact He.
    + rewrite length_app; cbn. unfold max_workers in *. lia.
    + rewrite saved_file_app. cbn. exact Hs.
    + intros H. destruct Hph as [E|E]; rewrite E in H; destruct H; discriminate.
    + exact Hc.
  - (* a call returns *)
    destruct (fetch_item_data_appends _ _ _ _ _ Hfetch) as (Hnone & -> & Hprod).
    constructor; cbn.
    + unfold active in *; cbn. rewrite Hr in Ht.
      eapply Permutation_trans; [|exact Ht].
      apply Permutation_app_tail.
      rewrite <- !app_assoc. apply Permutation_app_head. cbn.
      apply Permutation_middle.
    + apply Forall2_app; [exact He | constructor; [exact Hprod | constructor]].
    + rewrite Hr in Hw. rewrite length_app in *. cbn in Hw. lia.
    + rewrite saved_file_app, Hnone, Hs.
      destruct Hph as [E|E]; rewrite E; reflexivity.
    + intros H. destruct Hph as [E|E]; rewrite E in H; destruct H; discriminate.
    + exact Hc.
  - (* KeyboardInterrupt *)
    pose proof (Hc (or_introl Hph)) as Hcan.
    constructor; cbn.
    + unfold active in *; cbn. rewrite Hcan, app_nil_r, Hsplit in Ht.
      rewrite <- !app_assoc. exact Ht.
    + exact He.
    + exact Hw.
    + rewrite Hs, Hph. reflexivity.
    + intros [H|H]; discriminate.
    + intros [H|H]; discriminate.
  - (* the pool drained *)
    constructor; cbn.
    + exact Ht.
    + exact He.
    + exact Hw.
    + rewrite saved_file_app, (main_done_trace _ _ _ Hmain). reflexivity.
    + intros _. split; assumption.
    + intros _. apply Hc. left. exact Hph.
  - (* the executor shut down after an interrupt *)
    constructor; cbn.
    + exact Ht.
    + exact He.
    + exact Hw.
    + rewrite saved_file_app, (main_interrupted_trace _ _ _ Hmain). reflexivity.
    + intros _. split; assumption.
    + intros [H|H]; discriminate.
Qed.

Lemma invariant_steps (item_tuples : list (string * string)) (t0 : list event)
    (s s' : pool) :
  invariant item_tuples t0 s -> steps s s' -> invariant item_tuples t0 s'.
Proof.
  intros Hi Hs. induction Hs as [s|s1 s2 s3 _ IH Hstep]; [assumption|].
  eapply invariant_step; [apply IH; assumption | exact Hstep].
Qed.

Lemma reachable_invariant (item_tuples : list (string * string)) (t0 : list event)
    (s : pool) :
  steps (initial t0 item_tuples) s -> invariant item_tuples t0 s.
Proof. apply invariant_steps, invariant_initial. Qed.

Lemma steps_trans (s1 s2 s3 : pool) : steps s1 s2 -> steps s2 s3 -> steps s1 s3.
Proof.
  intros H1 H2. induction H2 as [s|s2 s3 s4 _ IH Hstep]; [assumption|].
  eapply steps_step; [apply IH; assumption | exact Hstep].
Qed.

(** After the interrupt the executor loses no work item and takes no new
    one: what is done, in progress or waiting stays the same collection
    until the save. *)
Lemma step_after_interrupt (s s' : pool) :
  step s s' -> phase_of s = ShuttingDown ->
  (phase_of s' = ShuttingDown \/ phase_of s' = Interrupted)
  /\ Permutation (active s') (active s).
Proof.
  intros Hstep Hph.
  destruct Hstep as
    [s c q _ Hq _
    |s r1 c r2 t e data _ Hr _
    |s s' [s0 keep drop Hph' _]
    |s t Hph' _ _ _
    |s t _ _ _ _]; try congruence.
  - split; [left; exact Hph|].
    unfold active; cbn. rewrite Hq, <- (app_assoc (running s) [c] q).
    apply Permutation_refl.
  - split; [left; exact Hph|].
    unfold active; cbn. rewrite Hr.
    rewrite <- !app_assoc. apply Permutation_app_head. cbn.
    apply Permutation_middle.
  - split; [right; reflexivity | apply Permutation_refl].
Qed.

Lemma step_from_running (s s' : pool) :
  step s s' -> phase_of s = Processing \/ phase_of s = ShuttingDown.
Proof.
  intros Hstep.
  destruct Hstep as [| |s s' [s0 keep drop Hph _]| |]; auto.
Qed.

Lemma steps_after_interrupt (s s' : pool) :
  steps s s' -> phase_of s = ShuttingDown ->
  (phase_of s' = ShuttingDown \/ phase_of s' = Interrupted)
  /\ Permutation (active s') (active s).
Proof.
  intros Hs Hph. induction Hs as [s|s1 s2 s3 _ IH Hstep].
  - split; [left; exact Hph | apply Permutation_refl].
  - destruct (IH Hph) as [[E|E] Hperm].
    + destruct (step_after_interrupt _ _ Hstep E) as [Hph' Hperm'].
      split; [exact Hph' | eapply Permutation_trans; eassumption].
    + destruct (step_from_running _ _ Hstep) as [E'|E']; congruence.
Qed.

Lemma Forall2_In_r {A B} (R : A -> B -> Prop) (l : list A) (l' : list B) (b : B) :
  Forall2 R l l' -> In b l' -> exists a, In a l /\ R a b.
Proof.
  induction 1 as [|a b' l l' HR _ IH]; intros Hin; [destruct Hin|].
  destruct Hin as [<-|Hin].
  - exists a. split; [left; reflexivity | exact HR].
  - destruct (IH Hin) as (a' & Ha & HR'). exists a'. split; [right|]; assumption.
Qed.

Lemma main_listing_refused (resp : Response) :
  session_get base_url = Returns resp ->
  status_code resp <> 200%Z ->
  main_listing =
  ([Print ("Fetching item list from: " ++ base_url); Get base_url;
    Print "[!] Failed to retrieve the item listing page"],
   Returns None).
Proof.
  intros Hg Hs. unfold_main_listing.
  rewrite Hg. apply Z.eqb_neq in Hs. rewrite Hs. reflexivity.
Qed.

(** Every run can go on to its last line: the workers take and finish the
    work items one after the other and the pool drains. *)
Lemma queue_drains (q : list (string * string)) :
  forall s,
    phase_of s = Processing -> running s = [] -> queue s = q ->
    exists s',
      steps s s' /\ phase_of s' = Processing /\ running s' = [] /\ queue s' = [].
Proof.
  induction q as [|c q IH]; intros s Hph Hr Hq.
  - exists s. repeat split; [apply steps_refl | assumption..].
  - destruct (fetch_item_data_returns c (items_data s)) as (t & e & Hfetch).
    destruct (IH (finish (start s c q) [] c [] t (items_data s ++ [e])))
      as (s' & Hsteps & Hdone); [exact Hph | reflexivity | reflexivity|].
    exists s'. split; [|exact Hdone].
    eapply steps_trans; [|exact Hsteps].
    eapply steps_step; [eapply steps_step; [apply steps_refl|]|].
    + apply step_start; [left; exact Hph | exact Hq|].
      rewrite Hr. unfold max_workers. cbn. lia.
    + eapply step_finish; [left; exact Hph | cbn; rewrite Hr; reflexivity|].
      exact Hfetch.
Qed.

Lemma run_completes (t0 : list event) (item_tuples : list (string * string)) :
  exists s, steps (initial t0 item_tuples) s /\ phase_of s = Done.
Proof.
  destruct (queue_drains item_tuples (initial t0 item_tuples))
    as (s & Hsteps & Hph & Hr & Hq); try reflexivity.
  exists (close s Done (fst (main_done (items_data s)))).
  split; [|reflexivity].
  eapply steps_step; [exact Hsteps|].
  apply (step_done _ _ s _ Hph Hq Hr). reflexivity.
Qed.

(** C1. Total accounting: when the pool drains and [main] reaches its
    last line, the file holds as many entries as the listing page gave
    candidates, one entry made from each candidate. *)
Theorem total_accounting (t0 : list event) (item_tuples : list (string * string))
    (s : pool) :
  main_listing = (t0, Returns (Some item_tuples)) ->
  steps (initial t0 item_tuples) s ->
  phase_of s = Done ->
  exists data,
    saved_file (trace s) = Some data
    /\ List.length data = List.length item_tuples
    /\ exists order, Permutation order item_tuples /\ Forall2 produces order data.
Proof.
  intros _ Hsteps Hph.
  destruct (reachable_invariant _ _ _ Hsteps) as [Ht He _ Hs Hf Hc].
  rewrite Hph in Hs.
  destruct (Hf (or_introl Hph)) as [Hq Hr].
  rewrite (Hc (or_intror Hph)) in Ht.
  unfold active in Ht. rewrite Hq, Hr, !app_nil_r in Ht.
  exists (items_data s). split; [exact Hs|]. split.
  - rewrite <- (Forall2_length He). apply Permutation_length. exact Ht.
  - exists (finished s). split; assumption.
Qed.

(** C3, as amended. Listing-fetch failure: when the listing request is
    answered with a status other than 200, [main] prints the failure line
    and returns at once; the run sends no other request and writes no
    file.  The printed line is the only report: [main] returns normally
    and the script ends with exit status 0. *)
Theorem listing_failure_aborts (resp : Response) (t : list event) (out : outcome unit) :
  session_get base_url = Returns resp ->
  status_code resp <> 200%Z ->
  main_run t out ->
  t = [Print ("Fetching item list from: " ++ base_url); Get base_url;
       Print "[!] Failed to retrieve the item listing page"]
  /\ out = Returns tt
  /\ exit_status out = 0%Z
  /\ requests t = [base_url]
  /\ saved_file t = None.
Proof.
  intros Hg Hs Hrun.
  pose proof (main_listing_refused resp Hg Hs) as E.
  destruct Hrun as [t H | t e H | t item_tuples s H _ _];
    rewrite E in H; inversion H; subst; clear H.
  repeat split.
Qed.

(** C4, as amended. Interruption accounting: when [main] is interrupted
    after [K] calls have returned, the executor first waits for the calls
    in progress and for the pending work items that were not cancelled;
    the file saved then holds exactly one entry for each call that has
    returned by the save, that is for the [K] calls returned at the
    interrupt, the calls in progress then and the pending items left in
    the queue, and never more entries than candidates. *)
Theorem interruption_accounting (t0 : list event)
    (item_tuples : list (string * string)) (s1 s2 s3 : pool) :
  steps (initial t0 item_tuples) s1 ->
  interrupts s1 s2 ->
  steps s2 s3 ->
  phase_of s3 = Interrupted ->
  saved_file (trace s3) = Some (items_data s3)
  /\ Forall2 produces (finished s3) (items_data s3)
  /\ Permutation (finished s3) (finished s1 ++ running s1 ++ queue s2)
  /\ List.length (items_data s3)
     = List.length (finished s1) + List.length (running s1) + List.length (queue s2)
  /\ List.length (items_data s3) <= List.length item_tuples.
Proof.
  intros H1 Hint H2 Hph.
  assert (H3 : steps (initial t0 item_tuples) s3).
  { eapply steps_trans; [|exact H2].
    eapply steps_step; [exact H1 | apply step_interrupt; exact Hint]. }
  destruct (reachable_invariant _ _ _ H3) as [Ht He _ Hs Hf _].
  rewrite Hph in Hs.
  destruct (Hf (or_intror Hph)) as [Hq Hr].
  assert (Hperm : Permutation (finished s3) (finished s1 ++ running s1 ++ queue s2)).
  { destruct Hint as [s1 keep drop Hph1 _].
    destruct (steps_after_interrupt _ _ H2 eq_refl) as [_ Hperm].
    unfold active in Hperm. rewrite Hq, Hr, !app_nil_r in Hperm. exact Hperm. }
  split; [exact Hs|]. split; [exact He|]. split; [exact Hperm|].
  rewrite <- (Forall2_length He). split.
  - rewrite (Permutation_length Hperm), !length_app. lia.
  - rewrite <- (Permutation_length Ht). unfold active.
    rewrite !length_app. lia.
Qed.

(** C5, as amended. Record range: every entry ever appended to
    [items_data] is made from a candidate and has a stack size of at least
    0; the stack size is 0 when the page of the candidate gives the count
    zero (the value-cell text of its matching row contains "Yes" and the
    first parenthesized integer of the text has at most 4300 digits and
    denotes zero), and it is at least 1 in every other case. *)
Theorem record_range (t0 : list event) (item_tuples : list (string * string))
    (s : pool) (e : entry) :
  steps (initial t0 item_tuples) s ->
  In e (items_data s) ->
  exists c,
    In c item_tuples
    /\ item e = fst c
    /\ (0 <= stack e)%Z
    /\ (zero_count (snd c) -> stack e = 0%Z)
    /\ (~ zero_count (snd c) -> (1 <= stack e)%Z).
Proof.
  intros Hsteps Hin.
  destruct (reachable_invariant _ _ _ Hsteps) as [Ht He _ _ _ _].
  destruct (Forall2_In_r _ _ _ _ He Hin) as (c & Hc & Hname & t & Hg).
  destruct (get_stackable_info_range _ _ _ _ _ Hg) as [Hge Hz].
  exists c. split.
  { apply (Permutation_in _ Ht). unfold active.
    apply in_or_app. left. apply in_or_app. left. exact Hc. }
  split; [exact Hname|]. split; [exact Hge|]. split.
  - intros Hzero. apply Hz. exact Hzero.
  - intros Hzero.
    destruct (Z.eq_dec (stack e) 0) as [E|E]; [|lia].
    elim Hzero. apply Hz. exact E.
Qed.


End Pool.

(** ** The listing extractor *)

Lemma collect_links_spec (links : list node) :
  forall item_tuples,
    collect_links links item_tuples =
    item_tuples ++ map Flat.candidate_of (filter Flat.kept links).
Proof.
  induction links as [|link links IH]; intros acc; cbn [collect_links filter map].
  - now rewrite app_nil_r.
  - unfold Flat.kept. cbv zeta.
    destruct (Str.nonempty (Soup.get_text link)); cbn [negb andb]; [|apply IH].
    destruct (Soup.get_text link =? "JE")%string eqn:Hje; cbn [negb andb]; [apply IH|].
    destruct (Soup.get_text link =? "BE")%string eqn:Hbe; cbn [negb andb]; [apply IH|].
    rewrite IH, <- app_assoc. reflexivity.
Qed.

Lemma collect_divs_spec (div_cols : list node) :
  forall item_tuples,
    collect_divs div_cols item_tuples =
    item_tuples
    ++ map Flat.candidate_of
         (filter Flat.kept (flat_map (Soup.find_all_href "a") div_cols)).
Proof.
  induction div_cols as [|div div_cols IH]; intros acc; cbn [collect_divs flat_map].
  - now rewrite app_nil_r.
  - rewrite IH, collect_links_spec, filter_app, map_app, app_assoc. reflexivity.
Qed.

(** The loops of [main] build the candidates of the hyperlinks taken
    column list by column list. *)
Lemma extract_candidates_by_region (soup : node) :
  extract_candidates soup = Flat.candidates soup.
Proof.
  unfold extract_candidates, Flat.candidates, Spec.hyperlinks.
  now rewrite collect_divs_spec.
Qed.

Lemma flat_map_filter {A B} (f : B -> bool) (g : A -> list B) (l : list A) :
  flat_map (fun x => filter f (g x)) l = filter f (flat_map g l).
Proof.
  induction l as [|x l IH]; cbn; [reflexivity|].
  now rewrite filter_app, IH.
Qed.

(** Below a column list every node lies inside one. *)
Lemma inside_true (n : node) :
  Spec.inside true n = n :: Soup.descendants n.
Proof.
  induction n as [s|s|name classes href cs IH] using node_tree_ind;
    try reflexivity.
  cbn [Spec.inside Soup.descendants app orb]. f_equal.
  induction IH as [|c cs Hc _ IHcs]; cbn [flat_map]; [reflexivity|].
  rewrite Hc, IHcs. reflexivity.
Qed.

Lemma walk_agrees_children (cs : list node) :
  Forall walk_agrees cs ->
  (forall region,
      In region (filter Spec.column_list (flat_map (fun c => c :: Soup.descendants c) cs)) ->
      filter Spec.column_list (Soup.descendants region) = []) ->
  flat_map Soup.descendants
    (filter Spec.column_list (flat_map (fun c => c :: Soup.descendants c) cs))
  = flat_map (fun c => Spec.inside false c) cs.
Proof.
  induction 1 as [|c cs Hc _ IH]; intros Hn; [reflexivity|].
  cbn [flat_map] in *. rewrite filter_app, flat_map_app.
  rewrite filter_app in Hn.
  rewrite Hc, IH; [reflexivity| |].
  - intros region Hin. apply Hn. apply in_or_app. right. exact Hin.
  - intros region Hin. apply Hn. apply in_or_app. left. exact Hin.
Qed.

Lemma walk_agrees_all (n : node) : walk_agrees n.
Proof.
  induction n as [s|s|name classes href cs IH] using node_tree_ind;
    unfold walk_agrees; try reflexivity.
  intros Hn.
  cbn [filter] in *.
  destruct (Spec.column_list (Tag name classes href cs)) eqn:Hr.
  - pose proof (Hn _ (or_introl eq_refl)) as Hnone.
    rewrite Hnone. cbn [flat_map Spec.inside app orb]. rewrite Hr, app_nil_r.
    cbn [Soup.descendants].
    apply flat_map_ext. intros c. symmetry. apply inside_true.
  - cbn [Spec.inside app orb]. rewrite Hr.
    cbn [Soup.descendants] in *.
    apply walk_agrees_children; assumption.
Qed.

(** Without nesting, taking the hyperlinks column list by column list is
    taking them in document order. *)
Lemma hyperlinks_document_order (soup : node) :
  Spec.not_nested soup ->
  Spec.hyperlinks soup = Spec.hyperlinks_in_document_order soup.
Proof.
  unfold Spec.not_nested, Spec.hyperlinks, Spec.hyperlinks_in_document_order.
  unfold Soup.find_all_href, Soup.find_all_class.
  intros Hn.
  rewrite (flat_map_filter Spec.hyperlink Soup.descendants). f_equal.
  destruct soup as [s|s|name classes href cs]; try reflexivity.
  cbn [Soup.descendants] in *.
  apply walk_agrees_children; [|exact Hn].
  apply Forall_forall. intros c _. apply walk_agrees_all.
Qed.

(** The tests of lines 99-104 skip and keep the links that the
    specification skips and keeps. *)
Lemma candidates_of_filter (links : list node) :
  Spec.candidates_of links (map Flat.candidate_of (filter Flat.kept links)).
Proof.
  induction links as [|link links IH]; cbn [filter map]; [constructor|].
  unfold Flat.kept at 1. cbv zeta.
  pose proof (reads_get_text link) as Hr.
  destruct (Soup.get_text link) as [|c name] eqn:Hn; cbn [Str.nonempty andb].
  - apply Spec.candidates_skip; [left; exact Hr | exact IH].
  - destruct (String c name =? "JE")%string eqn:Hje; cbn [negb andb].
    { apply String.eqb_eq in Hje. rewrite Hje in Hr.
      apply Spec.candidates_skip; [right; left; exact Hr | exact IH]. }
    destruct (String c name =? "BE")%string eqn:Hbe; cbn [negb andb].
    { apply String.eqb_eq in Hbe. rewrite Hbe in Hr.
      apply Spec.candidates_skip; [right; right; exact Hr | exact IH]. }
    apply String.eqb_neq in Hje, Hbe.
    cbn [map]. unfold Flat.candidate_of at 1. rewrite Hn.
    apply Spec.candidates_keep; try assumption. discriminate.
Qed.

Lemma candidates_of_unique (links : list node) (cs : list (string * string)) :
  Spec.candidates_of links cs ->
  cs = map Flat.candidate_of (filter Flat.kept links).
Proof.
  induction 1 as [|link links cs Hskip _ IH|link links cs name Hr Hne Hje Hbe _ IH];
    [reflexivity| |]; cbn [filter]; unfold Flat.kept at 1; cbv zeta.
  - destruct Hskip as [Hr | [Hr | Hr]]; apply reads_iff in Hr; rewrite Hr; exact IH.
  - apply reads_iff in Hr. rewrite Hr.
    apply nonempty_true in Hne. apply String.eqb_neq in Hje, Hbe.
    rewrite Hne, Hje, Hbe. cbn [negb andb map].
    unfold Flat.candidate_of at 1. rewrite Hr, IH. reflexivity.
Qed.

(** C8, as amended. Listing filter and order: the candidates are exactly
    what the hyperlinks of the column lists give, taken column list by
    column list and each column list in document order: a hyperlink whose
    trimmed text is empty, "JE" or "BE" gives nothing, every other one
    gives its trimmed text and the wiki origin followed by its href,
    nothing sorted and nothing removed; on a page where no column list
    lies inside another this is the document order of the hyperlinks. *)
Theorem listing_filter_and_order (soup : node) :
  Spec.candidates_of (Spec.hyperlinks soup) (extract_candidates soup)
  /\ (forall cs,
        Spec.candidates_of (Spec.hyperlinks soup) cs ->
        cs = extract_candidates soup)
  /\ (Spec.not_nested soup ->
      Spec.candidates_of (Spec.hyperlinks_in_document_order soup)
        (extract_candidates soup)
      /\ forall cs,
           Spec.candidates_of (Spec.hyperlinks_in_document_order soup) cs ->
           cs = extract_candidates soup).
Proof.
  rewrite extract_candidates_by_region. unfold Flat.candidates.
  split; [apply candidates_of_filter|].
  split; [apply candidates_of_unique|].
  intros Hn. rewrite <- (hyperlinks_document_order soup Hn).
  split; [apply candidates_of_filter | apply candidates_of_unique].
Qed.

(** ** The small wiki, evaluated *)

(** Properties P3 and P4 and the scenario of the specification. *)
Example yes_16 : extract_stack_size (Demo.infobox "Yes (16)") = Returns 16%Z.
Proof. reflexivity. Qed.

Example yes_alone : extract_stack_size (Demo.infobox "Yes") = Returns 64%Z.
Proof. reflexivity. Qed.

Example no_stack : extract_stack_size (Demo.infobox "No") = Returns 1%Z.
Proof. reflexivity. Qed.

Example integer_before_yes : stack_of_text "(8) Yes (16)" = Returns 8%Z.
Proof. reflexivity. Qed.

Example row_without_value_cell :
  extract_stack_size Demo.two_tables = Returns 16%Z.
Proof. reflexivity. Qed.

Example cells_with_markup : extract_stack_size Demo.marked_up = Returns 8%Z.
Proof. reflexivity. Qed.

Example count_too_long :
  get_stackable_info Demo.session_get Demo.BeautifulSoup (snd Demo.long)
  = ([Get (snd Demo.long);
      Print ("[!] Exception for https://minecraft.wiki/w/Long: "
             ++ "Exceeds the limit (4300 digits) for integer string conversion: "
             ++ "value has 4301 digits; use sys.set_int_max_str_digits() "
             ++ "to increase the limit")],
     Returns 1%Z).
Proof. vm_compute. reflexivity. Qed.

Example four_links_one_candidate :
  extract_candidates Demo.four_links
  = [("Diamond Sword", "https://minecraft.wiki/w/Diamond_Sword")].
Proof. reflexivity. Qed.

Example nested_column_lists :
  extract_candidates Demo.nested
  = [Demo.stick; Demo.ink_sac; ("Bone", "https://minecraft.wiki/w/Bone"); Demo.ink_sac].
Proof. reflexivity. Qed.

Lemma demo_listing :
  main_listing Demo.session_get Demo.BeautifulSoup
  = (Demo.t0, Returns (Some [Demo.stick; Demo.ink_sac])).
Proof. reflexivity. Qed.

Lemma demo_run :
  steps Demo.session_get Demo.BeautifulSoup Demo.s0 Demo.s5.
Proof.
  eapply steps_step; [eapply steps_step; [eapply steps_step;
    [eapply steps_step; [eapply steps_step; [apply steps_refl|]|]|]|]|].
  - apply (step_start _ _ Demo.s0 Demo.stick [Demo.ink_sac]);
      [left; reflexivity | reflexivity | cbn; unfold max_workers; lia].
  - apply (step_start _ _ Demo.s1 Demo.ink_sac []);
      [left; reflexivity | reflexivity | cbn; unfold max_workers; lia].
  - eapply (step_finish _ _ Demo.s2 [Demo.stick] Demo.ink_sac []);
      [left; reflexivity | reflexivity | reflexivity].
  - eapply (step_finish _ _ Demo.s3 [] Demo.stick []);
      [left; reflexivity | reflexivity | reflexivity].
  - apply (step_done _ _ Demo.s4); reflexivity.
Qed.

Example scenario_file :
  saved_file (trace Demo.s5)
  = Some [{| item := "Ink Sac"; stack := 1 |}; {| item := "Stick"; stack := 64 |}].
Proof. reflexivity. Qed.

Example scenario_requests :
  requests (trace Demo.s5) = [base_url; snd Demo.stick; snd Demo.ink_sac]
  /\ requests (trace Demo.s2) = [base_url; snd Demo.stick; snd Demo.ink_sac].
Proof. split; reflexivity. Qed.

Lemma demo_run_to_interrupt :
  steps Demo.session_get Demo.BeautifulSoup Demo.s0 Demo.s1.
Proof.
  eapply steps_step; [apply steps_refl|].
  apply (step_start _ _ Demo.s0 Demo.stick [Demo.ink_sac]);
    [left; reflexivity | reflexivity | cbn; unfold max_workers; lia].
Qed.

Lemma demo_run_after_interrupt :
  steps Demo.session_get Demo.BeautifulSoup Demo.i2 Demo.i4.
Proof.
  eapply steps_step; [eapply steps_step; [apply steps_refl|]|].
  - eapply (step_finish _ _ Demo.i2 [] Demo.stick []);
      [right; reflexivity | reflexivity | reflexivity].
  - apply (step_interrupted _ _ Demo.i3); reflexivity.
Qed.

Lemma demo_run_zero :
  steps Demo.session_get Demo.BeautifulSoup Demo.z0 Demo.z2.
Proof.
  eapply steps_step; [eapply steps_step; [apply steps_refl|]|].
  - apply (step_start _ _ Demo.z0 Demo.zero []);
      [left; reflexivity | reflexivity | cbn; unfold max_workers; lia].
  - eapply (step_finish _ _ Demo.z1 [] Demo.zero []);
      [left; reflexivity | reflexivity | reflexivity].
Qed.

(** The pages of the small wiki in the words of the specification. *)

Lemma reading_page (soup : node) (body url : string) :
  page_of (Demo.serving body) (Demo.reading soup) url soup.
Proof. exists {| status_code := 200; text := body |}. repeat split. Qed.

Lemma digits_zeros (k : nat) : Spec.digits (zeros k).
Proof.
  induction k as [|k IH]; cbn [zeros Spec.digits]; [exact I|].
  split; [left; reflexivity | exact IH].
Qed.

Lemma length_zeros (k : nat) : String.length (zeros k) = k.
Proof. induction k as [|k IH]; cbn; [reflexivity | now rewrite IH]. Qed.

Lemma decimal_zeros (k : nat) : Spec.decimal (zeros k) = 0%Z.
Proof.
  induction k as [|k IH]; cbn [zeros Spec.decimal]; [reflexivity|].
  rewrite IH. reflexivity.
Qed.

Lemma long_page :
  page_of Demo.session_get Demo.BeautifulSoup (snd Demo.long)
    (Demo.infobox ("Yes (" ++ Demo.long_count ++ ")")).
Proof.
  exists {| status_code := 200; text := "Yes (" ++ Demo.long_count ++ ")" |}.
  split; [reflexivity|]. split; [reflexivity|]. vm_compute. reflexivity.
Qed.

Lemma long_value_text :
  Spec.value_text (Demo.infobox ("Yes (" ++ Demo.long_count ++ ")"))
    ("Yes (" ++ Demo.long_count ++ ")").
Proof. apply value_text_iff. vm_compute. reflexivity. Qed.

Lemma long_has_yes : Spec.has_yes ("Yes (" ++ Demo.long_count ++ ")").
Proof. exists "", (" (" ++ Demo.long_count ++ ")")%string. reflexivity. Qed.

Lemma long_paren_int :
  Spec.paren_int_after ("Yes (" ++ Demo.long_count ++ ")") "Yes " Demo.long_count.
Proof.
  exists ("(" ++ Demo.long_count ++ ")")%string. split; [reflexivity|].
  exists "". split; [reflexivity|].
  split; [discriminate | apply digits_zeros].
Qed.

Lemma long_first_paren_int :
  Spec.first_paren_int ("Yes (" ++ Demo.long_count ++ ")") Demo.long_count.
Proof. apply search_first_paren_int. vm_compute. reflexivity. Qed.

Lemma long_length : 4300 < String.length Demo.long_count.
Proof. unfold Demo.long_count. rewrite length_zeros. lia. Qed.

Lemma yes_paren_only (z pre r : string) :
  free_of "(" (z ++ ")") = true ->
  ("Yes (" ++ z ++ ")")%string = (pre ++ String "(" r)%string ->
  pre = "Yes ".
Proof.
  intros F H.
  destruct pre as [|c1 [|c2 [|c3 [|c4 [|c5 p]]]]]; cbn [String.append] in H;
    inversion H; subst; try reflexivity.
  exfalso.
  match goal with
  | E : (z ++ ")")%string = _ |- _ => rewrite E, free_of_app in F
  end.
  cbn in F. rewrite andb_false_r in F. discriminate F.
Qed.

(** Every parenthesized integer of the long text is its one run of
    zeros. *)
Lemma long_paren_int_only (pre ds : string) :
  Spec.paren_int_after ("Yes (" ++ Demo.long_count ++ ")") pre ds ->
  ds = Demo.long_count.
Proof.
  intros Hp.
  assert (F : free_of "(" (Demo.long_count ++ ")") = true)
    by (vm_compute; reflexivity).
  assert (Hn : Spec.none_before ("Yes (" ++ Demo.long_count ++ ")") (String.length pre)).
  { intros pre' ds' (rest & E & post & -> & _ & _).
    destruct Hp as (rest0 & E0 & post0 & -> & _ & _).
    rewrite (yes_paren_only Demo.long_count pre _ F E0).
    rewrite (yes_paren_only Demo.long_count pre' _ F E).
    apply Nat.le_refl. }
  refine (first_paren_int_unique _ _ _ _ long_first_paren_int).
  exists pre. split; assumption.
Qed.

(** The claims that fail as stated, at the small wiki. *)

(** The value text "Yes (0...0)" with 4301 zeros between the parentheses
    gives 1, which is not the number of a parenthesized integer of the
    text. *)
Lemma stack_size_value_parsing_counterexample :
  ~ (forall url soup text,
        page_of Demo.session_get Demo.BeautifulSoup url soup ->
        Spec.value_text soup text ->
        Spec.has_yes text ->
        (exists pre ds, Spec.paren_int_after text pre ds) ->
        exists pre ds,
          Spec.paren_int_after text pre ds
          /\ snd (get_stackable_info Demo.session_get Demo.BeautifulSoup url)
             = Returns (Spec.decimal ds)).
Proof.
  intros H.
  destruct (H _ _ _ long_page long_value_text long_has_yes
              (ex_intro _ _ (ex_intro _ _ long_paren_int)))
    as (pre & ds & Hp & Hr).
  rewrite (long_paren_int_only pre ds Hp) in Hr.
  unfold Demo.long_count in Hr. rewrite decimal_zeros in Hr.
  vm_compute in Hr. discriminate Hr.
Qed.

(** With a listing status of 404 the run is one that ends with exit
    status 0. *)
Lemma listing_failure_counterexample :
  ~ (forall resp t out,
        Demo.not_found base_url = Returns resp ->
        status_code resp <> 200%Z ->
        main_run Demo.not_found Demo.BeautifulSoup t out ->
        requests t = [base_url]
        /\ saved_file t = None
        /\ exit_status out <> 0%Z).
Proof.
  intros H.
  assert (Hr : main_run Demo.not_found Demo.BeautifulSoup
                 (fst (main_listing Demo.not_found Demo.BeautifulSoup)) (Returns tt)).
  { apply main_run_return. reflexivity. }
  destruct (H {| status_code := 404; text := "Not Found" |} _ _ eq_refl
              ltac:(discriminate) Hr) as (_ & _ & Hx).
  apply Hx. reflexivity.
Qed.

(** Interrupted when no call has returned and one is in progress, the run
    saves one entry, not none. *)
Lemma interruption_counterexample :
  ~ (forall s1 s2 s3 data,
        steps Demo.session_get Demo.BeautifulSoup Demo.s0 s1 ->
        interrupts s1 s2 ->
        steps Demo.session_get Demo.BeautifulSoup s2 s3 ->
        phase_of s3 = Interrupted ->
        saved_file (trace s3) = Some data ->
        List.length data = List.length (finished s1)).
Proof.
  intros H.
  specialize (H Demo.s1 Demo.i2 Demo.i4 (items_data Demo.i4)
                demo_run_to_interrupt (interrupts_intro Demo.s1 [] [Demo.ink_sac] eq_refl eq_refl)
                demo_run_after_interrupt eq_refl eq_refl).
  discriminate H.
Qed.

(** The page "Stackable: Yes (0)" gives an entry with stack size 0. *)
Lemma record_range_counterexample :
  ~ (forall s e,
        steps Demo.session_get Demo.BeautifulSoup Demo.z0 s ->
        In e (items_data s) ->
        (1 <= stack e)%Z).
Proof.
  intros H.
  specialize (H Demo.z2 {| item := "Zero"; stack := 0 |} demo_run_zero
                (or_introl eq_refl)).
  cbn in H. lia.
Qed.

(** A hyperlink of a column list that lies inside another one is yielded
    twice, the second time after the hyperlinks that follow it: the
    candidates are not what the hyperlinks in document order give. *)
Lemma listing_order_counterexample :
  ~ Spec.candidates_of (Spec.hyperlinks_in_document_order Demo.nested)
      (extract_candidates Demo.nested).
Proof.
  intros H. apply candidates_of_unique in H.
  vm_compute in H. discriminate H.
Qed.

Lemma long_first_page :
  page_of (Demo.serving ("(" ++ Demo.long_count ++ ") Yes (16)")) Demo.BeautifulSoup
    "https://minecraft.wiki/w/Egg"
    (Demo.infobox ("(" ++ Demo.long_count ++ ") Yes (16)")).
Proof.
  exists {| status_code := 200; text := "(" ++ Demo.long_count ++ ") Yes (16)" |}.
  split; [reflexivity|]. split; [reflexivity|]. vm_compute. reflexivity.
Qed.

(** In the value text "(0...0) Yes (16)", with 4301 zeros in the first
    pair of parentheses, the leftmost parenthesized integer is zero and
    the call returns 1. *)
Lemma leftmost_parenthesized_integer_counterexample :
  ~ (forall url soup text pre ds pre' ds',
        page_of (Demo.serving ("(" ++ Demo.long_count ++ ") Yes (16)"))
                Demo.BeautifulSoup url soup ->
        Spec.value_text soup text ->
        Spec.has_yes text ->
        Spec.paren_int_after text pre ds ->
        Spec.none_before text (String.length pre) ->
        Spec.paren_int_after text pre' ds' ->
        pre' <> pre ->
        snd (get_stackable_info (Demo.serving ("(" ++ Demo.long_count ++ ") Yes (16)"))
               Demo.BeautifulSoup url)
        = Returns (Spec.decimal ds)).
Proof.
  intros H.
  assert (Hv : Spec.value_text (Demo.infobox ("(" ++ Demo.long_count ++ ") Yes (16)"))
                 ("(" ++ Demo.long_count ++ ") Yes (16)"))
    by (apply value_text_iff; vm_compute; reflexivity).
  assert (Hy : Spec.has_yes ("(" ++ Demo.long_count ++ ") Yes (16)")).
  { exists ("(" ++ Demo.long_count ++ ") ")%string, " (16)".
    vm_compute. reflexivity. }
  assert (H1 : Spec.paren_int_after ("(" ++ Demo.long_count ++ ") Yes (16)")
                 "" Demo.long_count).
  { exists ("(" ++ Demo.long_count ++ ") Yes (16)")%string. split; [reflexivity|].
    exists " Yes (16)". split; [reflexivity|].
    split; [discriminate | apply digits_zeros]. }
  assert (H2 : Spec.paren_int_after ("(" ++ Demo.long_count ++ ") Yes (16)")
                 ("(" ++ Demo.long_count ++ ") Yes ") "16").
  { exists "(16)". split; [vm_compute; reflexivity|].
    exists "". split; [reflexivity|]. split; [discriminate|].
    cbn. repeat split; cbn; tauto. }
  specialize (H _ _ _ "" Demo.long_count _ "16" long_first_page Hv Hy H1
                (fun pre ds _ => Nat.le_0_l _) H2 ltac:(discriminate)).
  unfold Demo.long_count in H. rewrite decimal_zeros in H.
  vm_compute in H. discriminate H.
Qed.

(** The theorems with hypotheses, applied at the small wiki. *)

Lemma total_accounting_witness :
  main_listing Demo.session_get Demo.BeautifulSoup
  = (Demo.t0, Returns (Some [Demo.stick; Demo.ink_sac]))
  /\ steps Demo.session_get Demo.BeautifulSoup Demo.s0 Demo.s5
  /\ phase_of Demo.s5 = Done
  /\ exists data,
       saved_file (trace Demo.s5) = Some data
       /\ List.length data = List.length [Demo.stick; Demo.ink_sac]
       /\ exists order,
            Permutation order [Demo.stick; Demo.ink_sac]
            /\ Forall2 (produces Demo.session_get Demo.BeautifulSoup) order data.
Proof.
  split; [exact demo_listing|]. split; [exact demo_run|].
  split; [reflexivity|].
  exact (total_accounting Demo.session_get Demo.BeautifulSoup Demo.t0
           [Demo.stick; Demo.ink_sac] Demo.s5 demo_listing demo_run eq_refl).
Defined.

Lemma stack_size_value_parsing_witness :
  (page_of (Demo.serving "") (Demo.reading (Demo.infobox "Yes (16)"))
           "https://minecraft.wiki/w/Egg" (Demo.infobox "Yes (16)")
   /\ Spec.value_text (Demo.infobox "Yes (16)") "Yes (16)"
   /\ Spec.has_yes "Yes (16)"
   /\ Spec.first_paren_int "Yes (16)" "16"
   /\ String.length "16" <= 4300
   /\ get_stackable_info (Demo.serving "") (Demo.reading (Demo.infobox "Yes (16)"))
        "https://minecraft.wiki/w/Egg"
      = ([Get "https://minecraft.wiki/w/Egg"], Returns 16%Z))
  /\ (Spec.first_paren_int ("Yes (" ++ Demo.long_count ++ ")") Demo.long_count
      /\ 4300 < String.length Demo.long_count
      /\ exists line,
           get_stackable_info Demo.session_get Demo.BeautifulSoup (snd Demo.long)
           = ([Get (snd Demo.long); Print line], Returns 1%Z))
  /\ (Spec.value_text (Demo.infobox "Yes") "Yes"
      /\ (forall pre ds, ~ Spec.paren_int_after "Yes" pre ds)
      /\ get_stackable_info (Demo.serving "") (Demo.reading (Demo.infobox "Yes"))
           "https://minecraft.wiki/w/Egg"
         = ([Get "https://minecraft.wiki/w/Egg"], Returns 64%Z))
  /\ (Spec.value_text (Demo.infobox "No") "No"
      /\ ~ Spec.has_yes "No"
      /\ get_stackable_info (Demo.serving "") (Demo.reading (Demo.infobox "No"))
           "https://minecraft.wiki/w/Egg"
         = ([Get "https://minecraft.wiki/w/Egg"], Returns 1%Z)).
Proof.
  assert (V16 : Spec.value_text (Demo.infobox "Yes (16)") "Yes (16)")
    by (apply value_text_iff; reflexivity).
  assert (Y16 : Spec.has_yes "Yes (16)") by (exists "", " (16)"; reflexivity).
  assert (F16 : Spec.first_paren_int "Yes (16)" "16")
    by (apply search_first_paren_int; reflexivity).
  assert (L16 : String.length "16" <= 4300) by (cbn; lia).
  assert (VY : Spec.value_text (Demo.infobox "Yes") "Yes")
    by (apply value_text_iff; reflexivity).
  assert (YY : Spec.has_yes "Yes") by (exists "", ""; reflexivity).
  assert (NY : forall pre ds, ~ Spec.paren_int_after "Yes" pre ds)
    by (apply search_no_paren_int; reflexivity).
  assert (VN : Spec.value_text (Demo.infobox "No") "No")
    by (apply value_text_iff; reflexivity).
  assert (NN : ~ Spec.has_yes "No") by (apply contains_no_yes; reflexivity).
  split; [|split; [|split]].
  - split; [apply reading_page|]. split; [exact V16|]. split; [exact Y16|].
    split; [exact F16|]. split; [exact L16|].
    exact (proj1 (proj1 (proj1 (stack_size_value_parsing _ _ _ _ _
                                  (reading_page _ "" _) V16) Y16) "16" F16) L16).
  - split; [exact long_first_paren_int|]. split; [exact long_length|].
    exact (proj2 (proj1 (proj1 (stack_size_value_parsing _ _ _ _ _
                                  long_page long_value_text) long_has_yes)
                    Demo.long_count long_first_paren_int) long_length).
  - split; [exact VY|]. split; [exact NY|].
    exact (proj2 (proj1 (stack_size_value_parsing _ _ _ _ _
                           (reading_page _ "" _) VY) YY) NY).
  - split; [exact VN|]. split; [exact NN|].
    exact (proj2 (stack_size_value_parsing _ _ _ _ _ (reading_page _ "" _) VN) NN).
Defined.

Lemma listing_failure_aborts_witness :
  Demo.not_found base_url = Returns {| status_code := 404; text := "Not Found" |}
  /\ 404%Z <> 200%Z
  /\ main_run Demo.not_found Demo.BeautifulSoup
       (fst (main_listing Demo.not_found Demo.BeautifulSoup)) (Returns tt)
  /\ fst (main_listing Demo.not_found Demo.BeautifulSoup)
     = [Print ("Fetching item list from: " ++ base_url); Get base_url;
        Print "[!] Failed to retrieve the item listing page"]
  /\ Returns tt = Returns tt
  /\ exit_status (Returns tt) = 0%Z
  /\ requests (fst (main_listing Demo.not_found Demo.BeautifulSoup)) = [base_url]
  /\ saved_file (fst (main_listing Demo.not_found Demo.BeautifulSoup)) = None.
Proof.
  assert (Hs : 404%Z <> 200%Z) by discriminate.
  assert (Hr : main_run Demo.not_found Demo.BeautifulSoup
                 (fst (main_listing Demo.not_found Demo.BeautifulSoup)) (Returns tt)).
  { apply main_run_return. reflexivity. }
  split; [reflexivity|]. split; [exact Hs|]. split; [exact Hr|].
  exact (listing_failure_aborts Demo.not_found Demo.BeautifulSoup
           {| status_code := 404; text := "Not Found" |}
           _ _ eq_refl Hs Hr).
Defined.

Lemma interruption_accounting_witness :
  steps Demo.session_get Demo.BeautifulSoup Demo.s0 Demo.s1
  /\ interrupts Demo.s1 Demo.i2
  /\ steps Demo.session_get Demo.BeautifulSoup Demo.i2 Demo.i4
  /\ phase_of Demo.i4 = Interrupted
  /\ saved_file (trace Demo.i4) = Some (items_data Demo.i4)
  /\ Forall2 (produces Demo.session_get Demo.BeautifulSoup)
             (finished Demo.i4) (items_data Demo.i4)
  /\ Permutation (finished Demo.i4)
                 (finished Demo.s1 ++ running Demo.s1 ++ queue Demo.i2)
  /\ List.length (items_data Demo.i4)
     = List.length (finished Demo.s1) + List.length (running Demo.s1)
       + List.length (queue Demo.i2)
  /\ List.length (items_data Demo.i4) <= List.length [Demo.stick; Demo.ink_sac].
Proof.
  split; [exact demo_run_to_interrupt|].
  split; [exact (interrupts_intro Demo.s1 [] [Demo.ink_sac] eq_refl eq_refl)|].
  split; [exact demo_run_after_interrupt|].
  split; [reflexivity|].
  exact (interruption_accounting Demo.session_get Demo.BeautifulSoup Demo.t0
           [Demo.stick; Demo.ink_sac] Demo.s1 Demo.i2 Demo.i4
           demo_run_to_interrupt (interrupts_intro Demo.s1 [] [Demo.ink_sac] eq_refl eq_refl)
           demo_run_after_interrupt eq_refl).
Defined.

Lemma zero_page_gives_zero :
  zero_count Demo.session_get Demo.BeautifulSoup (snd Demo.zero).
Proof.
  exists (Demo.infobox "Yes (0)"), "Yes (0)", "0".
  split; [exists {| status_code := 200; text := "Yes (0)" |}; repeat split|].
  split; [apply value_text_iff; reflexivity|].
  split; [exists "", " (0)"; reflexivity|].
  split; [apply search_first_paren_int; reflexivity|].
  split; [cbn; lia | reflexivity].
Qed.

Lemma stick_page_gives_no_zero :
  ~ zero_count Demo.session_get Demo.BeautifulSoup (snd Demo.stick).
Proof.
  intros (soup & text & ds & Hp & Hv & _ & Hf & _ & Hz).
  assert (Hp' : page_of Demo.session_get Demo.BeautifulSoup (snd Demo.stick)
                        (Demo.infobox "Yes (64)")).
  { exists {| status_code := 200; text := "Yes (64)" |}. repeat split. }
  rewrite (page_of_unique _ _ _ _ _ Hp Hp') in Hv.
  assert (Hv' : Spec.value_text (Demo.infobox "Yes (64)") "Yes (64)")
    by (apply value_text_iff; reflexivity).
  rewrite (value_text_unique _ _ _ Hv Hv') in Hf.
  assert (Hf' : Spec.first_paren_int "Yes (64)" "64")
    by (apply search_first_paren_int; reflexivity).
  rewrite (first_paren_int_unique _ _ _ Hf Hf') in Hz.
  discriminate Hz.
Qed.

Lemma record_range_witness :
  (steps Demo.session_get Demo.BeautifulSoup Demo.z0 Demo.z2
   /\ In {| item := "Zero"; stack := 0 |} (items_data Demo.z2)
   /\ zero_count Demo.session_get Demo.BeautifulSoup (snd Demo.zero)
   /\ stack {| item := "Zero"; stack := 0 |} = 0%Z)
  /\ (steps Demo.session_get Demo.BeautifulSoup Demo.s0 Demo.s5
      /\ In {| item := "Stick"; stack := 64 |} (items_data Demo.s5)
      /\ ~ zero_count Demo.session_get Demo.BeautifulSoup (snd Demo.stick)
      /\ (1 <= stack {| item := "Stick"; stack := 64 |})%Z).
Proof.
  split.
  - split; [exact demo_run_zero|]. split; [left; reflexivity|].
    split; [exact zero_page_gives_zero|].
    destruct (record_range Demo.session_get Demo.BeautifulSoup [] [Demo.zero] Demo.z2
                {| item := "Zero"; stack := 0 |} demo_run_zero (or_introl eq_refl))
      as (c & Hin & _ & _ & Hz & _).
    destruct Hin as [<-|[]]. exact (Hz zero_page_gives_zero).
  - split; [exact demo_run|]. split; [right; left; reflexivity|].
    split; [exact stick_page_gives_no_zero|].
    destruct (record_range Demo.session_get Demo.BeautifulSoup Demo.t0
                [Demo.stick; Demo.ink_sac] Demo.s5
                {| item := "Stick"; stack := 64 |} demo_run (or_intror (or_introl eq_refl)))
      as (c & Hin & Hname & _ & _ & Hnz).
    destruct Hin as [<-|[<-|[]]]; [|discriminate Hname].
    exact (Hnz stick_page_gives_no_zero).
Defined.


Lemma missing_row_default_witness :
  page_of (Demo.serving "") (Demo.reading Demo.plain) "https://minecraft.wiki/w/Air" Demo.plain
  /\ (forall table row,
         In table (Soup.find_all_class "table" "infobox-rows" Demo.plain) ->
         In row (Soup.find_all "tr" table) ->
         ~ Spec.stackable row)
  /\ extract_stack_size Demo.plain = Returns 1%Z
  /\ get_stackable_info (Demo.serving "") (Demo.reading Demo.plain)
       "https://minecraft.wiki/w/Air"
     = ([Get "https://minecraft.wiki/w/Air"], Returns 1%Z).
Proof.
  assert (Hn : forall table row,
             In table (Soup.find_all_class "table" "infobox-rows" Demo.plain) ->
             In row (Soup.find_all "tr" table) ->
             ~ Spec.stackable row).
  { intros table row Ht Hr Hst.
    apply stackable_iff in Hst.
    destruct Ht as [<-|[]]. destruct Hr as [<-|[<-|[]]]; discriminate Hst. }
  split; [apply reading_page|]. split; [exact Hn|].
  exact (missing_row_default (Demo.serving "") (Demo.reading Demo.plain)
           "https://minecraft.wiki/w/Air" Demo.plain (reading_page _ _ _) Hn).
Defined.

Lemma first_matching_row_witness :
  page_of (Demo.serving "") (Demo.reading Demo.two_tables)
          "https://minecraft.wiki/w/Egg" Demo.two_tables
  /\ Spec.rows_in_order Demo.two_tables
     = [Demo.row "Stackable" []]
       ++ Demo.row (" Stackable" ++ Demo.nbsp) [Demo.value_cell " Yes (16) "]
       :: [Demo.row "Stackable" [Demo.value_cell "Yes (32)"]]
  /\ (forall r, In r [Demo.row "Stackable" []] -> ~ Spec.matching r)
  /\ Spec.stackable (Demo.row (" Stackable" ++ Demo.nbsp) [Demo.value_cell " Yes (16) "])
  /\ Spec.value_cell
       (Demo.row (" Stackable" ++ Demo.nbsp) [Demo.value_cell " Yes (16) "])
       (Demo.value_cell " Yes (16) ")
  /\ Spec.reads (Demo.value_cell " Yes (16) ") "Yes (16)"
  /\ Spec.stack_size_of "Yes (16)" 16%Z
  /\ exists t,
       get_stackable_info (Demo.serving "") (Demo.reading Demo.two_tables)
         "https://minecraft.wiki/w/Egg"
       = (Get "https://minecraft.wiki/w/Egg" :: t, Returns 16%Z).
Proof.
  assert (Hb : forall r, In r [Demo.row "Stackable" []] -> ~ Spec.matching r).
  { intros r [<-|[]] Hm. apply matching_iff in Hm. discriminate Hm. }
  assert (Hst : Spec.stackable
                  (Demo.row (" Stackable" ++ Demo.nbsp) [Demo.value_cell " Yes (16) "]))
    by (apply stackable_iff; reflexivity).
  assert (Hr : Spec.reads (Demo.value_cell " Yes (16) ") "Yes (16)")
    by (apply reads_iff; reflexivity).
  assert (Hs : Spec.stack_size_of "Yes (16)" 16%Z).
  { apply (Spec.size_given "Yes (16)" "16").
    - exists "", " (16)". reflexivity.
    - apply search_first_paren_int. reflexivity.
    - cbn. unfold Spec.max_digits. lia. }
  split; [apply reading_page|]. split; [reflexivity|]. split; [exact Hb|].
  split; [exact Hst|]. split; [reflexivity|]. split; [exact Hr|]. split; [exact Hs|].
  exact (proj1 (first_matching_row (Demo.serving "") (Demo.reading Demo.two_tables)
                  "https://minecraft.wiki/w/Egg" Demo.two_tables (reading_page _ _ _))
               [Demo.row "Stackable" []]
               (Demo.row (" Stackable" ++ Demo.nbsp) [Demo.value_cell " Yes (16) "])
               [Demo.row "Stackable" [Demo.value_cell "Yes (32)"]]
               (Demo.value_cell " Yes (16) ") "Yes (16)" 16%Z
               eq_refl Hb Hst eq_refl Hr Hs).
Defined.

Lemma leftmost_parenthesized_integer_witness :
  page_of (Demo.serving "") (Demo.reading Demo.marked_up)
          "https://minecraft.wiki/w/Egg" Demo.marked_up
  /\ Spec.value_text Demo.marked_up "(8)Yes(16)"
  /\ Spec.has_yes "(8)Yes(16)"
  /\ Spec.paren_int_after "(8)Yes(16)" "" "8"
  /\ Spec.none_before "(8)Yes(16)" (String.length "")
  /\ String.length "8" <= 4300
  /\ get_stackable_info (Demo.serving "") (Demo.reading Demo.marked_up)
       "https://minecraft.wiki/w/Egg"
     = ([Get "https://minecraft.wiki/w/Egg"], Returns 8%Z).
Proof.
  assert (Hv : Spec.value_text Demo.marked_up "(8)Yes(16)")
    by (apply value_text_iff; reflexivity).
  assert (Hy : Spec.has_yes "(8)Yes(16)") by (exists "(8)", "(16)"; reflexivity).
  assert (Ha : Spec.paren_int_after "(8)Yes(16)" "" "8").
  { exists "(8)Yes(16)". split; [reflexivity|].
    exists "Yes(16)". split; [reflexivity|]. split; [discriminate|].
    cbn. repeat split; cbn; tauto. }
  assert (Hb : Spec.none_before "(8)Yes(16)" (String.length "")).
  { intros pre ds _. apply Nat.le_0_l. }
  assert (L : String.length "8" <= 4300) by (cbn; lia).
  split; [apply reading_page|]. split; [exact Hv|]. split; [exact Hy|].
  split; [exact Ha|]. split; [exact Hb|]. split; [exact L|].
  exact (proj1 (leftmost_parenthesized_integer (Demo.serving "")
                  (Demo.reading Demo.marked_up) "https://minecraft.wiki/w/Egg"
                  Demo.marked_up "(8)Yes(16)" "" "8"
                  (reading_page _ _ _) Hv Hy Ha Hb) L).
Defined.

Lemma listing_filter_and_order_witness :
  Spec.not_nested Demo.listing
  /\ Spec.candidates_of (Spec.hyperlinks_in_document_order Demo.listing)
       [Demo.stick; Demo.ink_sac]
  /\ [Demo.stick; Demo.ink_sac] = extract_candidates Demo.listing.
Proof.
  assert (Hn : Spec.not_nested Demo.listing).
  { intros region Hin. destruct Hin as [<-|[]]. reflexivity. }
  assert (Hc : Spec.candidates_of (Spec.hyperlinks_in_document_order Demo.listing)
                 [Demo.stick; Demo.ink_sac]).
  { change (Spec.hyperlinks_in_document_order Demo.listing)
      with [Demo.link "/w/Stick" (Demo.lf ++ "Stick ");
            Demo.link "/w/Java_Edition" (" JE" ++ Demo.nbsp);
            Demo.link "/w/Bedrock_Edition" "BE"; Demo.link "/w/Air" Demo.nbsp;
            Demo.link "/w/Ink_Sac" ("Ink Sac" ++ Demo.lf)].
    change [Demo.stick; Demo.ink_sac]
      with [("Stick",
             (Spec.origin
              ++ Soup.href_of (Demo.link "/w/Stick" (Demo.lf ++ "Stick ")))%string);
            ("Ink Sac",
             (Spec.origin
              ++ Soup.href_of (Demo.link "/w/Ink_Sac" ("Ink Sac" ++ Demo.lf)))%string)].
    apply (Spec.candidates_keep _ _ _ "Stick");
      [apply reads_iff; reflexivity | discriminate | discriminate | discriminate|].
    apply Spec.candidates_skip; [right; left; apply reads_iff; reflexivity|].
    apply Spec.candidates_skip; [right; right; apply reads_iff; reflexivity|].
    apply Spec.candidates_skip; [left; apply reads_iff; reflexivity|].
    apply (Spec.candidates_keep _ _ _ "Ink Sac");
      [apply reads_iff; reflexivity | discriminate | discriminate | discriminate|].
    constructor. }
  split; [exact Hn|]. split; [exact Hc|].
  exact (proj2 (proj2 (proj2 (listing_filter_and_order Demo.listing)) Hn) _ Hc).
Defined.

(** * Further properties of the script *)

(** ** Texts *)

(** X1. The test of line 60 is a plain substring test: it holds exactly
    when "Yes" stands somewhere in the text, in this very spelling.  A text
    without it gives 1; a text with it gives 64 when the regular
    expression finds nothing, and otherwise the number of the digits found,
    or the [ValueError] of [int] when they are more than 4300. *)
Theorem yes_test_is_substring (text : string) :
  ((exists pre post, text = (pre ++ "Yes" ++ post)%string) ->
   stack_of_text text
   = match Re.search text with
     | Some group1 =>
         if (String.length group1 <=? 4300)%nat
         then Returns (Spec.decimal group1)
         else Raises (Str.ValueError_too_long (String.length group1))
     | None => Returns 64%Z
     end)
  /\ ((forall pre post, text <> (pre ++ "Yes" ++ post)%string) ->
      stack_of_text text = Returns 1%Z).
Proof.
  unfold stack_of_text. split; intros H.
  - apply contains_spec in H. rewrite H.
    destruct (Re.search text) as [g|]; [|reflexivity].
    destruct (String.length g <=? 4300)%nat eqn:L.
    + apply Nat.leb_le in L. now apply int_converts.
    + apply Nat.leb_gt in L. now apply int_raises.
  - destruct (Str.contains "Yes" text) eqn:Hc; [|reflexivity].
    apply contains_spec in Hc as (pre & post & E). now elim (H pre post).
Qed.


Lemma int_acc_of_uint (d : Decimal.uint) :
  forall n,
    Str.int_acc (Z.of_nat n) (NilEmpty.string_of_uint d)
    = Z.of_nat (Nat.of_uint_acc d n).
Proof.
  induction d; intros n; cbn [NilEmpty.string_of_uint Nat.of_uint_acc Str.int_acc];
    try reflexivity;
    rewrite <- IHd; f_equal; rewrite Nat.tail_mul_spec;
    match goal with
    | |- context [nat_of_ascii ?c] =>
        let v := eval vm_compute in (nat_of_ascii c) in
        change (nat_of_ascii c) with v
    end; lia.
Qed.

Lemma int_str_of_nat (n : nat) : Str.int_acc 0 (str_of_nat n) = Z.of_nat n.
Proof.
  unfold str_of_nat. rewrite (int_acc_of_uint _ 0).
  change (Nat.of_uint_acc (Nat.to_uint n) 0) with (Nat.of_uint (Nat.to_uint n)).
  now rewrite DecimalNat.Unsigned.of_to.
Qed.

Lemma all_digits_of_uint (d : Decimal.uint) :
  Str.all_digits (NilEmpty.string_of_uint d) = true.
Proof. induction d; cbn; auto. Qed.

Lemma nonempty_str_of_nat (n : nat) : str_of_nat n <> EmptyString.
Proof.
  unfold str_of_nat. intros H.
  assert (E : NilEmpty.uint_of_string (NilEmpty.string_of_uint (Nat.to_uint n))
              = Some (Nat.to_uint n)) by apply NilEmpty.usu.
  rewrite H in E. cbn in E. inversion E as [E'].
  apply (f_equal Nat.of_uint) in E'. rewrite DecimalNat.Unsigned.of_to in E'.
  cbn in E'. subst n. discriminate H.
Qed.

Lemma int_acc_zeros (k : nat) (s : string) :
  Str.int_acc 0 (zeros k ++ s) = Str.int_acc 0 s.
Proof. induction k as [|k IH]; [reflexivity | exact IH]. Qed.

Lemma all_digits_app (a b : string) :
  Str.all_digits (a ++ b) = Str.all_digits a && Str.all_digits b.
Proof.
  induction a as [|c a IH]; cbn [Str.all_digits String.append]; [reflexivity|].
  now rewrite IH, andb_assoc.
Qed.

Lemma all_digits_zeros (k : nat) : Str.all_digits (zeros k) = true.
Proof. induction k as [|k IH]; [reflexivity | exact IH]. Qed.

Lemma search_here (s g : string) :
  Re.match_here s = Some g -> Re.search s = Some g.
Proof.
  intros H. destruct s as [|c r]; [discriminate H|].
  cbn [Re.search]. now rewrite H.
Qed.

Lemma search_skip (c : ascii) (r : string) :
  Ascii.eqb c "(" = false -> Re.search (String c r) = Re.search r.
Proof.
  intros H. cbn [Re.search]. unfold Re.match_here at 1. now rewrite H.
Qed.

(** X3. A count written in decimal is read back exactly as long as [int]
    takes it: for every number [n], written as [str(n)] with [k] zeros
    before it, the value-cell text "Yes (0...0n)" gives the stack size [n]
    when the zeros and the digits of [n] are at most 4300 characters
    together, and the [ValueError] of [int] when they are more. *)
Theorem decimal_count_read_back (k n : nat) :
  (k + String.length (str_of_nat n) <= 4300 ->
   stack_of_text ("Yes (" ++ zeros k ++ str_of_nat n ++ ")")
   = Returns (Z.of_nat n))
  /\ (4300 < k + String.length (str_of_nat n) ->
      stack_of_text ("Yes (" ++ zeros k ++ str_of_nat n ++ ")")
      = Raises (Str.ValueError_too_long (k + String.length (str_of_nat n)))).
Proof.
  assert (E : stack_of_text ("Yes (" ++ zeros k ++ str_of_nat n ++ ")")
              = Str.int (zeros k ++ str_of_nat n)).
  { unfold stack_of_text. cbn [Str.contains String.append prefix orb].
    destruct (ascii_dec "Y" "Y") as [_|H]; [|now elim H].
    destruct (ascii_dec "e" "e") as [_|H]; [|now elim H].
    destruct (ascii_dec "s" "s") as [_|H]; [|now elim H].
    cbn [orb].
    assert (Hm : Re.match_here
                   (String "(" (zeros k ++ str_of_nat n ++ ")"))
                 = Some (zeros k ++ str_of_nat n)%string).
    { apply match_here_complete. exists EmptyString. split.
      - cbn [String.append]. now rewrite append_assoc.
      - split.
        + intros E. destruct k; [|discriminate E].
          exact (nonempty_str_of_nat n E).
        + rewrite all_digits_app, all_digits_zeros. apply all_digits_of_uint. }
    rewrite !search_skip by reflexivity.
    now rewrite (search_here _ _ Hm). }
  rewrite E. unfold Str.int, Str.int_max_str_digits.
  rewrite length_append, length_zeros. split; intros L.
  - apply Nat.leb_le in L. rewrite L.
    now rewrite int_acc_zeros, int_str_of_nat.
  - apply Nat.leb_gt in L. now rewrite L.
Qed.

Lemma last_char_app (c c' : ascii) (a b : string) :
  Flat.last_char c (a ++ String c' b) = Flat.last_char c' b.
Proof.
  revert c. induction a as [|x a IH]; intros c; cbn; [reflexivity | apply IH].
Qed.

Lemma trimmed_app (a b : string) :
  a <> EmptyString -> b <> EmptyString ->
  Flat.trimmed a = true -> Flat.trimmed b = true ->
  Flat.trimmed (a ++ b) = true.
Proof.
  destruct a as [|c a]; [intros H; now elim H|].
  destruct b as [|c' b]; [intros _ H; now elim H|].
  intros _ _ Ha Hb. cbn [String.append Flat.trimmed] in *.
  rewrite last_char_app.
  apply andb_true_iff in Ha as [Ha _]. apply andb_true_iff in Hb as [_ Hb].
  now rewrite Ha, Hb.
Qed.

Lemma append_nonempty (a b : string) :
  a <> EmptyString -> (a ++ b)%string <> EmptyString.
Proof. destruct a; [intros H; now elim H | discriminate]. Qed.

Lemma concat_trimmed (l : list string) :
  Forall (fun t => t <> EmptyString /\ Flat.trimmed t = true) l ->
  Flat.trimmed (String.concat "" l) = true
  /\ (l <> [] -> String.concat "" l <> EmptyString).
Proof.
  induction 1 as [|t l [Hne Ht] Hl [IH1 IH2]]; [split; [reflexivity | intros H; now elim H]|].
  destruct l as [|t' l].
  - cbn. split; [exact Ht | intros _; exact Hne].
  - change (String.concat "" (t :: t' :: l))
      with (t ++ "" ++ String.concat "" (t' :: l))%string.
    cbn [String.append]. split.
    + apply trimmed_app; try assumption. apply IH2. discriminate.
    + intros _. now apply append_nonempty.
Qed.

(** The text of a node is trimmed at both ends. *)
Lemma get_text_trimmed (n : node) : Flat.trimmed (Soup.get_text n) = true.
Proof.
  unfold Soup.get_text, Soup.stripped_strings.
  apply concat_trimmed.
  induction (Soup.descendants n) as [|d ds IH]; [constructor|].
  cbn [flat_map]. apply Forall_app. split; [|exact IH].
  destruct d as [s|s|name classes href cs]; try constructor.
  cbv zeta. destruct (Str.nonempty (Str.strip s)) eqn:Hne; constructor; [|constructor].
  split; [now apply nonempty_true|].
  destruct (strip_spec s) as (_ & _ & _ & _ & _ & H). exact H.
Qed.

(** X4. What the listing extraction yields: every candidate has a name
    that is not empty, is neither "JE" nor "BE" and neither starts nor ends
    with whitespace, and is the trimmed text of a hyperlink of a column
    list; its URL is the wiki origin followed by the href of that
    hyperlink, the href taken as it is. *)
Theorem candidates_well_formed (soup : node) (name url : string) :
  In (name, url) (extract_candidates soup) ->
  name <> EmptyString
  /\ name <> "JE" /\ name <> "BE"
  /\ Spec.trimmed name
  /\ exists region link,
       In region (Soup.find_all_class "div" "div-col" soup)
       /\ In link (Soup.find_all_href "a" region)
       /\ Spec.reads link name
       /\ url = ("https://minecraft.wiki" ++ Soup.href_of link)%string.
Proof.
  rewrite extract_candidates_by_region. unfold Flat.candidates, Spec.hyperlinks.
  intros H. apply in_map_iff in H as (link & E & Hin).
  apply filter_In in Hin as [Hin Hk].
  apply in_flat_map in Hin as (region & Hr & Hl).
  unfold Flat.candidate_of in E. inversion E; subst; clear E.
  unfold Flat.kept in Hk. cbv zeta in Hk.
  apply andb_true_iff in Hk as [Hk Hbe]. apply andb_true_iff in Hk as [Hne Hje].
  apply negb_true_iff in Hbe, Hje.
  apply String.eqb_neq in Hbe, Hje. apply nonempty_true in Hne.
  repeat split; try assumption;
    try (apply trimmed_spec; apply get_text_trimmed).
  exists region, link. repeat split; try assumption. apply reads_get_text.
Qed.

(** ** Runs of the pool *)

Lemma requests_app (a b : list event) : requests (a ++ b) = requests a ++ requests b.
Proof.
  induction a as [|ev a IH]; [reflexivity|].
  destruct ev; cbn; now rewrite IH.
Qed.

Lemma dumps_app (a b : list event) : dumps (a ++ b) = dumps a ++ dumps b.
Proof.
  induction a as [|ev a IH]; [reflexivity|].
  destruct ev; cbn; now rewrite IH.
Qed.

Section Runs.

Variable session_get : string -> outcome Response.
Variable BeautifulSoup : string -> outcome node.

Local Abbreviation get_stackable_info := (get_stackable_info session_get BeautifulSoup).
Local Abbreviation fetch_item_data := (fetch_item_data session_get BeautifulSoup).
Local Abbreviation page_of := (page_of session_get BeautifulSoup).
Local Abbreviation detail_fails := (detail_fails session_get BeautifulSoup).
Local Abbreviation produces := (produces session_get BeautifulSoup).
Local Abbreviation step := (step session_get BeautifulSoup).
Local Abbreviation steps := (steps session_get BeautifulSoup).
Local Abbreviation steps_in := (steps_in session_get BeautifulSoup).
Local Abbreviation main_listing := (main_listing session_get BeautifulSoup).
Local Abbreviation main_run := (main_run session_get BeautifulSoup).

(** The events of one call: one request, for the URL of the tuple, then
    at most one line; no other request, no file. *)
Lemma fetch_item_data_events (c : string * string) (data data' : list entry)
    (t : list event) (e : entry) :
  fetch_item_data c data = (Get (snd c) :: t, Returns (e, data')) ->
  requests t = [] /\ dumps t = [] /\ data' = data ++ [e].
Proof.
  destruct c as [name url]. cbn [snd]. intros H.
  destruct (get_stackable_info_events session_get BeautifulSoup url)
    as (v & [Hg | (line & Hg)]);
    rewrite (fetch_item_data_entry _ _ name url data _ v Hg) in H;
    inversion H; subst; clear H; repeat split.
Qed.

Lemma steps_extend (s s' : pool) :
  steps s s' ->
  exists t es cs,
    trace s' = trace s ++ t
    /\ items_data s' = items_data s ++ es
    /\ finished s' = finished s ++ cs.
Proof.
  induction 1 as [s|s1 s2 s3 _ (t & es & cs & Et & Ee & Ec) Hstep].
  - exists [], [], []. now rewrite !app_nil_r.
  - destruct Hstep as
      [s c q _ _ _
      |s r1 c r2 t' e data _ _ Hfetch
      |s s' [s0 keep drop _ _]
      |s t' _ _ _ _
      |s t' _ _ _ _]; cbn.
    + exists (t ++ [Get (snd c)]), es, cs. rewrite Et, app_assoc. auto.
    + destruct (fetch_item_data_events _ _ _ _ _ Hfetch) as (_ & _ & ->).
      exists (t ++ t'), (es ++ [e]), (cs ++ [c]).
      rewrite Et, Ee, Ec, !app_assoc. auto.
    + exists t, es, cs. auto.
    + exists (t ++ t'), es, cs. rewrite Et, app_assoc. auto.
    + exists (t ++ t'), es, cs. rewrite Et, app_assoc. auto.
Qed.

(** X5. A run only ever adds: the entries of [items_data], the calls that
    returned and the events are extended at the end and never changed or
    removed by any later transition, and the entries added are, one for
    one and in the same order, those of the calls that returned
    meanwhile. *)
Theorem run_only_appends (s s' : pool) :
  steps s s' ->
  exists t es cs,
    trace s' = trace s ++ t
    /\ items_data s' = items_data s ++ es
    /\ finished s' = finished s ++ cs
    /\ Forall2 produces cs es.
Proof.
  induction 1 as [s|s1 s2 s3 _ (t & es & cs & Et & Ee & Ec & Hp) Hstep].
  - exists [], [], []. rewrite !app_nil_r. repeat split. constructor.
  - destruct Hstep as
      [s c q _ _ _
      |s r1 c r2 t' e data _ _ Hfetch
      |s s' [s0 keep drop _ _]
      |s t' _ _ _ _
      |s t' _ _ _ _]; cbn.
    + exists (t ++ [Get (snd c)]), es, cs. rewrite Et, app_assoc. auto.
    + destruct (fetch_item_data_appends session_get BeautifulSoup _ _ _ _ _ Hfetch)
        as (_ & -> & Hprod).
      exists (t ++ t'), (es ++ [e]), (cs ++ [c]).
      rewrite Et, Ee, Ec, !app_assoc. repeat split.
      apply Forall2_app; [exact Hp | constructor; [exact Hprod | constructor]].
    + exists t, es, cs. auto.
    + exists (t ++ t'), es, cs. rewrite Et, app_assoc. auto.
    + exists (t ++ t'), es, cs. rewrite Et, app_assoc. auto.
Qed.

(** X6. Every transition uses up work: a run over [M] candidates has at
    most [2 * M + 2] transitions, however the workers are scheduled and
    wherever the interrupt falls. *)
Theorem run_length_bounded (t0 : list event) (item_tuples : list (string * string))
    (n : nat) (s : pool) :
  steps_in n (initial t0 item_tuples) s ->
  n + work_left s <= 2 * List.length item_tuples + 2.
Proof.
  intros H.
  remember (initial t0 item_tuples) as s0 eqn:E.
  induction H as [s|n s1 s2 s3 _ IH Hstep].
  - subst s. cbn. lia.
  - specialize (IH E).
    enough (work_left s3 < work_left s2) by lia.
    clear IH E. unfold work_left.
    destruct Hstep as
      [s c q Hph Hq _
      |s r1 c r2 t' e data Hph Hr _
      |s s' [s0' keep drop Hph Hsplit]
      |s t' Hph _ _ _
      |s t' Hph _ _ _]; cbn.
    + rewrite Hq, length_app. cbn. lia.
    + rewrite Hr, !length_app. cbn. lia.
    + rewrite Hph, Hsplit, length_app. lia.
    + rewrite Hph. lia.
    + rewrite Hph. lia.
Qed.

(** X7. The pool is never stuck before the save: a call in progress can
    always return (no call raises), a waiting item can be taken when no
    call is in progress, and [main] can save once nothing is left. *)
Theorem pool_never_stuck (s : pool) :
  phase_of s = Processing \/ phase_of s = ShuttingDown ->
  (forall r1 c r2,
      running s = r1 ++ c :: r2 ->
      exists t e, step s (finish s r1 c r2 t (items_data s ++ [e])))
  /\ (forall c q,
        running s = [] -> queue s = c :: q -> step s (start s c q))
  /\ (running s = [] -> queue s = [] ->
      exists p t,
        (p = Done \/ p = Interrupted)
        /\ saved_file t = Some (items_data s)
        /\ step s (close s p t)).
Proof.
  intros Hph. split; [|split].
  - intros r1 c r2 Hr.
    destruct (fetch_item_data_returns session_get BeautifulSoup c (items_data s))
      as (t & e & Hfetch).
    exists t, e. eapply step_finish; eassumption.
  - intros c q Hr Hq. apply step_start; [exact Hph | exact Hq|].
    rewrite Hr. unfold max_workers. cbn. lia.
  - intros Hr Hq. destruct Hph as [Hph|Hph].
    + exists Done, (fst (main_done (items_data s))). split; [now left|].
      split; [reflexivity|]. now apply step_done.
    + exists Interrupted, (fst (main_interrupted (items_data s))). split; [now right|].
      split; [reflexivity|]. now apply step_interrupted.
Qed.

(** The events of lines 84-111: one request, for the listing, no file. *)
Lemma main_listing_events (t : list event) (r : outcome (option (list (string * string)))) :
  main_listing = (t, r) ->
  requests t = [base_url] /\ dumps t = [].
Proof.
  unfold_main_listing.
  destruct (session_get base_url) as [resp|e].
  - destruct (status_code resp =? 200)%Z; cbn.
    + destruct (BeautifulSoup (text resp)) as [soup|e]; cbn;
        intros H; inversion H; subst; split; reflexivity.
    + intros H; inversion H; subst; split; reflexivity.
  - intros H; inversion H; subst; split; reflexivity.
Qed.

Lemma run_events (t0 : list event) (item_tuples : list (string * string)) (s : pool) :
  steps (initial t0 item_tuples) s ->
  dumps (trace s)
  = dumps t0
    ++ match phase_of s with
       | Done | Interrupted => [(output_file, items_data s)]
       | Processing | ShuttingDown => []
       end.
Proof.
  intros H. remember (initial t0 item_tuples) as s0 eqn:E.
  induction H as [s|s1 s2 s3 _ IH Hstep].
  - subst s. cbn. now rewrite !app_nil_r.
  - pose proof (IH E) as IHd. clear IH E.
    destruct Hstep as
      [s c q Hph _ _
      |s r1 c r2 t' e data Hph _ Hfetch
      |s s' [s0' keep drop Hph _]
      |s t' Hph _ _ Hmain
      |s t' Hph _ _ Hmain]; cbn.
    + rewrite dumps_app, IHd. cbn. rewrite app_nil_r.
      destruct Hph as [Hph|Hph]; rewrite Hph; reflexivity.
    + destruct (fetch_item_data_events _ _ _ _ _ Hfetch) as (_ & Hd & _).
      rewrite dumps_app, Hd, IHd, app_nil_r.
      destruct Hph as [Hph|Hph]; rewrite Hph; reflexivity.
    + rewrite Hph in IHd. exact IHd.
    + inversion Hmain; subst; clear Hmain.
      rewrite dumps_app, IHd, Hph. cbn.
      now rewrite !app_nil_r.
    + inversion Hmain; subst; clear Hmain.
      rewrite dumps_app, IHd, Hph. cbn.
      now rewrite !app_nil_r.
Qed.

(** The workers take the work items in the order of the list, and a call
    sends its request when it starts: what has been taken so far is the
    front of the list of candidates, and the requests of the pool are the
    URLs of that front, in its order. *)
Lemma taken_in_order (t0 : list event) (item_tuples : list (string * string))
    (s : pool) :
  steps (initial t0 item_tuples) s ->
  exists taken,
    item_tuples = taken ++ queue s ++ cancelled s
    /\ Permutation (finished s ++ running s) taken
    /\ requests (trace s) = requests t0 ++ map snd taken.
Proof.
  intros H. remember (initial t0 item_tuples) as s0 eqn:E.
  induction H as [s|s1 s2 s3 Hsteps IH Hstep].
  - subst s. exists []. cbn. rewrite !app_nil_r.
    repeat split. constructor.
  - destruct (IH E) as (taken & EM & Hperm & Hreq). subst s1.
    pose proof (reachable_invariant session_get BeautifulSoup _ _ _ Hsteps)
      as [_ _ _ _ _ Hcan].
    clear IH.
    destruct Hstep as
      [s c q _ Hq _
      |s r1 c r2 t' e data _ Hr Hfetch
      |s s' [s0' keep drop Hph Hsplit]
      |s t' _ _ _ Hmain
      |s t' _ _ _ Hmain]; cbn.
    + exists (taken ++ [c]). rewrite Hq in EM. split; [|split].
      * rewrite <- app_assoc. exact EM.
      * rewrite !app_assoc. apply Permutation_app_tail. exact Hperm.
      * rewrite requests_app, Hreq, map_app, app_assoc. reflexivity.
    + destruct (fetch_item_data_events _ _ _ _ _ Hfetch) as (Hrq & _ & _).
      exists taken. split; [exact EM|]. split.
      * eapply Permutation_trans; [|exact Hperm].
        rewrite Hr, <- !app_assoc. apply Permutation_app_head. cbn.
        apply Permutation_middle.
      * now rewrite requests_app, Hrq, app_nil_r.
    + exists taken. split; [|split; assumption].
      rewrite (Hcan (or_introl Hph)), app_nil_r, Hsplit in EM. exact EM.
    + exists taken. split; [exact EM|]. split; [exact Hperm|].
      inversion Hmain; subst. now rewrite requests_app, Hreq, app_nil_r.
    + exists taken. split; [exact EM|]. split; [exact Hperm|].
      inversion Hmain; subst. now rewrite requests_app, Hreq, app_nil_r.
Qed.

(** X8. The requests of a run: the listing is requested first; the
    other requests are, one for one, those of the calls that have started,
    whether they have returned or are in progress, each for the URL of its
    candidate.  The candidates are the calls that returned, the calls in
    progress, the work items waiting and the work items cancelled: what
    waits or is cancelled has not been requested. *)
Theorem requests_of_a_run (t0 : list event) (item_tuples : list (string * string))
    (s : pool) :
  main_listing = (t0, Returns (Some item_tuples)) ->
  steps (initial t0 item_tuples) s ->
  exists item_requests,
    requests (trace s) = base_url :: item_requests
    /\ Permutation item_requests (map snd (finished s ++ running s))
    /\ Permutation ((finished s ++ running s) ++ queue s ++ cancelled s)
         item_tuples.
Proof.
  intros Hl Hs.
  destruct (main_listing_events _ _ Hl) as [Hr _].
  destruct (taken_in_order _ _ _ Hs) as (taken & EM & Hperm & Er).
  exists (map snd taken). split; [now rewrite Er, Hr|]. split.
  - apply Permutation_map, Permutation_sym, Hperm.
  - rewrite EM. apply Permutation_app_tail. exact Hperm.
Qed.

(** X9. [main] writes a file at most once in a run, and only
    [minecraft_items.json]; when it raises it has written none. *)
Theorem file_written_at_most_once (t : list event) (out : outcome unit) :
  main_run t out ->
  (dumps t = [] /\ saved_file t = None)
  \/ (out = Returns tt
      /\ exists data, dumps t = [(output_file, data)] /\ saved_file t = Some data).
Proof.
  intros [t' H | t' e H | t' item_tuples s H Hs Hph].
  - destruct (main_listing_events _ _ H) as [_ Hd]. left. split; [exact Hd|].
    clear H. induction t' as [|ev t' IH]; [reflexivity|].
    destruct ev; cbn in *; try discriminate; now rewrite IH.
  - destruct (main_listing_events _ _ H) as [_ Hd]. left. split; [exact Hd|].
    clear H. induction t' as [|ev t' IH]; [reflexivity|].
    destruct ev; cbn in *; try discriminate; now rewrite IH.
  - right. split; [reflexivity|]. exists (items_data s).
    destruct (main_listing_events _ _ H) as [_ Hd].
    pose proof (run_events _ _ _ Hs) as Ed.
    destruct (reachable_invariant session_get BeautifulSoup _ _ _ Hs)
      as [_ _ _ Hsaved _ _].
    rewrite Ed, Hd. destruct Hph as [Hph|Hph]; rewrite Hph in *; split;
      first [reflexivity | exact Hsaved].
Qed.

Lemma in_firstn_front {A} (x : A) (front rest : list A) (n : nat) :
  In x front -> List.length front <= n -> In x (firstn n (front ++ rest)).
Proof.
  intros Hin Hlen. rewrite firstn_app. apply in_or_app. left.
  now rewrite firstn_all2.
Qed.

Lemma returned_in_front (t0 : list event) (item_tuples : list (string * string))
    (s : pool) :
  steps (initial t0 item_tuples) s ->
  forall k c,
    nth_error (finished s) k = Some c ->
    In c (firstn (k + max_workers) item_tuples).
Proof.
  intros H. remember (initial t0 item_tuples) as s0 eqn:E.
  induction H as [s|s1 s2 s3 Hsteps IH Hstep].
  - subst s. intros k c Hk. destruct k; discriminate Hk.
  - specialize (IH E). subst s1.
    destruct Hstep as
      [s c q _ _ _
      |s r1 c r2 t' e data _ Hr _
      |s s' [s0' keep drop _ _]
      |s t' _ _ _ _
      |s t' _ _ _ _]; cbn; try exact IH.
    intros k c0 Hk.
    destruct (Nat.lt_ge_cases k (List.length (finished s))) as [Hlt|Hge].
    + rewrite nth_error_app1 in Hk by exact Hlt. now apply IH.
    + rewrite nth_error_app2 in Hk by exact Hge.
      destruct (k - List.length (finished s)) as [|m] eqn:Em;
        [|destruct m; discriminate Hk].
      cbn in Hk. inversion Hk; subst c0; clear Hk.
      destruct (taken_in_order _ _ _ Hsteps) as (taken & EM & Hperm & _).
      pose proof (reachable_invariant session_get BeautifulSoup _ _ _ Hsteps)
        as [_ _ Hw _ _ _].
      rewrite EM. apply in_firstn_front.
      * apply (Permutation_in _ Hperm). apply in_or_app. right.
        rewrite Hr. apply in_or_app. right. now left.
      * rewrite <- (Permutation_length Hperm), length_app. lia.
Qed.

Lemma Forall2_nth_error_r {A B} (R : A -> B -> Prop) (l : list A) (l' : list B) :
  Forall2 R l l' ->
  forall k b, nth_error l' k = Some b ->
  exists a, nth_error l k = Some a /\ R a b.
Proof.
  induction 1 as [|a b' l l' HR _ IH]; intros k b Hk.
  - destruct k; discriminate Hk.
  - destruct k as [|k]; cbn in *.
    + inversion Hk; subst. now exists a.
    + now apply IH.
Qed.

(** X11. The file is in order of return, not in order of the listing, but
    a candidate cannot get far ahead: the workers take the candidates in
    the order of the listing, so the entry at position [k] of
    [items_data], counted from 0, is made from one of the first [k + 3]
    candidates. *)
Theorem bounded_overtaking (t0 : list event) (item_tuples : list (string * string))
    (s : pool) (k : nat) (e : entry) :
  steps (initial t0 item_tuples) s ->
  nth_error (items_data s) k = Some e ->
  exists c,
    In c (firstn (k + max_workers) item_tuples) /\ produces c e.
Proof.
  intros Hs Hk.
  destruct (reachable_invariant session_get BeautifulSoup _ _ _ Hs)
    as [_ He _ _ _ _].
  destruct (Forall2_nth_error_r _ _ _ He _ _ Hk) as (c & Hc & Hp).
  exists c. split; [|exact Hp].
  exact (returned_in_front _ _ _ Hs _ _ Hc).
Qed.

Lemma main_listing_candidates (t0 : list event) (item_tuples : list (string * string)) :
  main_listing = (t0, Returns (Some item_tuples)) ->
  t0 = [Print ("Fetching item list from: " ++ base_url); Get base_url;
        Print ("Total items found: " ++ str_of_nat (List.length item_tuples));
        Print "Fetching item data in parallel..."].
Proof.
  unfold_main_listing.
  destruct (session_get base_url) as [resp|e]; [|discriminate].
  destruct (status_code resp =? 200)%Z; cbn; [|discriminate].
  destruct (BeautifulSoup (text resp)) as [soup|e]; cbn; [|discriminate].
  intros H. inversion H; subst. reflexivity.
Qed.

Lemma done_by_main (s0 s : pool) :
  steps s0 s -> phase_of s = Done -> phase_of s0 = Processing ->
  exists s',
    steps s0 s'
    /\ phase_of s' = Processing
    /\ s = close s' Done (fst (main_done (items_data s'))).
Proof.
  intros H Hph H0. destruct H as [s|s1 s2 s3 Hsteps Hstep]; [congruence|].
  destruct Hstep as
    [s c q Hact _ _
    |s r1 c r2 t' e data Hact _ _
    |s s' [s0' keep drop _ _]
    |s t' Hph' _ _ Hmain
    |s t' _ _ _ _]; cbn in Hph; try discriminate;
    try (destruct Hact; congruence).
  exists s. split; [exact Hsteps|]. split; [exact Hph'|]. now rewrite Hmain.
Qed.

(** X12. The counts on the console agree: in a run that reaches the last
    line of [main], the number printed after "Total items found" is
    printed again in the "Progress saved" and "Finished" lines, which are
    the last two lines and follow the writing of the file. *)
Theorem console_counts_agree (t0 : list event) (item_tuples : list (string * string))
    (s : pool) :
  main_listing = (t0, Returns (Some item_tuples)) ->
  steps (initial t0 item_tuples) s ->
  phase_of s = Done ->
  exists calls,
    trace s
    = [Print ("Fetching item list from: " ++ base_url); Get base_url;
       Print ("Total items found: " ++ str_of_nat (List.length item_tuples));
       Print "Fetching item data in parallel..."]
      ++ calls
      ++ [Dump output_file (items_data s);
          Print ("Progress saved to " ++ output_file ++ " ("
                 ++ str_of_nat (List.length item_tuples) ++ " items)");
          Print ("Finished. Total items scraped: "
                 ++ str_of_nat (List.length item_tuples))]
    /\ dumps calls = [].
Proof.
  intros Hl Hs Hph.
  destruct (done_by_main _ _ Hs Hph eq_refl) as (s' & Hs' & Hph' & ->).
  destruct (steps_extend _ _ Hs') as (calls & _ & _ & Et & _ & _).
  pose proof (run_events _ _ _ Hs') as Ed.
  destruct (reachable_invariant session_get BeautifulSoup _ _ _ Hs)
    as [Ht He _ _ Hf Hc].
  destruct (Hf (or_introl Hph)) as [Hq Hr].
  rewrite (Hc (or_intror Hph)) in Ht. unfold active in Ht.
  rewrite Hq, Hr, !app_nil_r in Ht.
  assert (Hlen : List.length (items_data s') = List.length item_tuples).
  { cbn in He, Ht. rewrite <- (Forall2_length He). now apply Permutation_length. }
  exists calls. cbn in Et. cbn. rewrite Et, Hlen.
  rewrite (main_listing_candidates _ _ Hl). split.
  - now rewrite <- !app_assoc.
  - rewrite Et, dumps_app in Ed.
    destruct (main_listing_events _ _ Hl) as [_ Hd0]. rewrite Hd0 in Ed.
    rewrite Hph' in Ed. exact Ed.
Qed.

(** X15. An empty listing is no error: when the listing page gives no
    candidate, a run that saves, whether at the last line of [main] or
    after an interrupt, has sent the listing request only and writes the
    empty list, the text "[]". *)
Theorem empty_listing_saves_empty_list (t0 : list event) (s : pool) :
  main_listing = (t0, Returns (Some [])) ->
  steps (initial t0 []) s ->
  phase_of s = Done \/ phase_of s = Interrupted ->
  requests (trace s) = [base_url]
  /\ saved_file (trace s) = Some []
  /\ option_map Json.dumps (saved_file (trace s)) = Some "[]".
Proof.
  intros Hl Hs Hph.
  destruct (main_listing_events _ _ Hl) as [Hr0 _].
  destruct (taken_in_order _ _ _ Hs) as (taken & EM & _ & Er).
  symmetry in EM. apply app_eq_nil in EM as [-> _].
  destruct (reachable_invariant session_get BeautifulSoup _ _ _ Hs)
    as [Ht He _ Hsaved _ _].
  apply Permutation_sym, Permutation_nil, app_eq_nil in Ht as [Ha _].
  unfold active in Ha. apply app_eq_nil in Ha as [Hfin _].
  rewrite Hfin in He. apply Forall2_length in He. cbn in He.
  assert (Hfile : saved_file (trace s) = Some []).
  { rewrite Hsaved.
    destruct (items_data s); [|discriminate He].
    now destruct Hph as [-> | ->]. }
  split; [now rewrite Er, Hr0|]. split; [exact Hfile|]. now rewrite Hfile.
Qed.

End Runs.

(** ** The text of the output file *)

Lemma plain_app (a b : string) :
  Json.plain (a ++ b) = Json.plain a && Json.plain b.
Proof.
  induction a as [|c a IH]; cbn [Json.plain String.append]; [reflexivity|].
  now rewrite IH, andb_assoc.
Qed.

(** One character at a time: the escape is plain text and is read back as
    the character. *)
Lemma escape_char_plain (c : ascii) : Json.plain (Json.escape_char c) = true.
Proof.
  destruct c as [[] [] [] [] [] [] [] []]; reflexivity.
Qed.

Lemma read_escape_char (c : ascii) (r : string) :
  Json.read_string (Json.escape_char c ++ r)
  = match Json.read_string r with
    | Some (d, after) => Some (String c d, after)
    | None => None
    end.
Proof.
  destruct c as [[] [] [] [] [] [] [] []]; reflexivity.
Qed.

Lemma escape_plain (s : string) : Json.plain (Json.escape s) = true.
Proof.
  induction s as [|c s IH]; [reflexivity|].
  cbn [Json.escape]. now rewrite plain_app, escape_char_plain, IH.
Qed.

Lemma read_escape (s r : string) :
  Json.read_string (Json.escape s ++ String Json.quote r) = Some (s, r).
Proof.
  induction s as [|c s IH]; [reflexivity|].
  cbn [Json.escape]. now rewrite append_assoc, read_escape_char, IH.
Qed.

Lemma encode_string_plain (s : string) : Json.plain (Json.encode_string s) = true.
Proof.
  unfold Json.encode_string. cbn [Json.plain].
  now rewrite plain_app, escape_plain.
Qed.

Lemma encode_string_split (a b r1 r2 : string) :
  (Json.encode_string a ++ r1 = Json.encode_string b ++ r2)%string ->
  a = b /\ r1 = r2.
Proof.
  unfold Json.encode_string. cbn [String.append].
  rewrite !append_assoc. cbn [String.append].
  intros H. inversion H as [E]. apply (f_equal Json.read_string) in E.
  rewrite !read_escape in E. now inversion E.
Qed.

Lemma uint_digits (d : Decimal.uint) :
  Json.plain (NilEmpty.string_of_uint d) = true
  /\ free_of Json.newline (NilEmpty.string_of_uint d) = true.
Proof.
  induction d as [|d [IH1 IH2]|d [IH1 IH2]|d [IH1 IH2]|d [IH1 IH2]|d [IH1 IH2]
                 |d [IH1 IH2]|d [IH1 IH2]|d [IH1 IH2]|d [IH1 IH2]|d [IH1 IH2]];
    cbn [NilEmpty.string_of_uint Json.plain free_of];
    [split; reflexivity | ..]; rewrite IH1, IH2; split; reflexivity.
Qed.

Lemma repr_int_chars (z : Z) :
  Json.plain (Json.repr_int z) = true
  /\ free_of Json.newline (Json.repr_int z) = true.
Proof.
  unfold Json.repr_int, NilZero.string_of_int, NilZero.string_of_uint.
  destruct (Z.to_int z) as [d|d]; destruct d;
    try (split; reflexivity);
    match goal with
    | |- context [NilEmpty.string_of_uint ?u] =>
        destruct (uint_digits u) as [H1 H2]
    end;
    cbn [Json.plain free_of]; rewrite ?H1, ?H2; split; reflexivity.
Qed.

Lemma repr_int_inj (a b : Z) : Json.repr_int a = Json.repr_int b -> a = b.
Proof.
  unfold Json.repr_int. intros H.
  assert (Hn : forall z, Z.to_int z <> Decimal.Pos Decimal.Nil
                         /\ Z.to_int z <> Decimal.Neg Decimal.Nil).
  { intros [|p|p]; cbn; split; try discriminate; intros E; inversion E as [E'];
      exact (DecimalPos.Unsigned.to_uint_nonnil p E'). }
  apply (f_equal NilZero.int_of_string) in H.
  rewrite !NilZero.isi in H by apply Hn.
  inversion H as [E]. now apply DecimalZ.to_int_inj.
Qed.

(** Two texts free of a character that agree up to and after an
    occurrence of it agree part by part. *)
Lemma split_at_first (c : ascii) (a b r1 r2 : string) :
  free_of c a = true -> free_of c b = true ->
  (a ++ String c r1 = b ++ String c r2)%string ->
  a = b /\ r1 = r2.
Proof.
  revert b. induction a as [|x a IH]; intros [|y b] Ha Hb H;
    cbn [String.append free_of] in *.
  - inversion H. auto.
  - inversion H; subst. rewrite Ascii.eqb_refl in Hb. discriminate.
  - inversion H; subst. rewrite Ascii.eqb_refl in Ha. discriminate.
  - inversion H; subst.
    apply andb_true_iff in Ha as [_ Ha]. apply andb_true_iff in Hb as [_ Hb].
    destruct (IH b Ha Hb H2) as [-> ->]. auto.
Qed.

Lemma append_cancel_l (a x y : string) : (a ++ x = a ++ y)%string -> x = y.
Proof.
  induction a as [|c a IH]; cbn [String.append]; [auto|].
  intros H. inversion H. auto.
Qed.

Lemma dumps_entry_plain (e : entry) : Json.plain (Json.dumps_entry e) = true.
Proof.
  unfold Json.dumps_entry, Json.nl.
  destruct (repr_int_chars (stack e)) as [Hp _].
  repeat (cbn [String.append Json.plain];
          rewrite ?plain_app, ?encode_string_plain, ?Hp).
  reflexivity.
Qed.

Lemma dumps_entry_shape (e : entry) :
  Json.dumps_entry e
  = (entry_open ++ Json.encode_string (item e) ++ entry_middle
     ++ Json.repr_int (stack e) ++ String Json.newline entry_close)%string.
Proof. reflexivity. Qed.

Lemma dumps_entry_split (e1 e2 : entry) (r1 r2 : string) :
  (Json.dumps_entry e1 ++ r1 = Json.dumps_entry e2 ++ r2)%string ->
  e1 = e2 /\ r1 = r2.
Proof.
  rewrite !dumps_entry_shape, !append_assoc. intros H.
  apply append_cancel_l in H.
  apply encode_string_split in H as [Hitem H].
  apply append_cancel_l in H.
  change (String Json.newline entry_close ++ r1)%string
    with (String Json.newline (entry_close ++ r1)) in H.
  change (String Json.newline entry_close ++ r2)%string
    with (String Json.newline (entry_close ++ r2)) in H.
  destruct (repr_int_chars (stack e1)) as [_ F1].
  destruct (repr_int_chars (stack e2)) as [_ F2].
  apply (split_at_first Json.newline _ _ _ _ F1 F2) in H as [Hstack H].
  apply repr_int_inj in Hstack. apply append_cancel_l in H.
  destruct e1, e2; cbn in *; subst. auto.
Qed.

Lemma dumps_more_plain (l : list entry) : Json.plain (Json.dumps_more l) = true.
Proof.
  induction l as [|e l IH]; [reflexivity|].
  cbn [Json.dumps_more]. unfold Json.nl. cbn [String.append Json.plain].
  now rewrite plain_app, dumps_entry_plain, IH.
Qed.

Lemma dumps_more_shape (e : entry) (l : list entry) :
  Json.dumps_more (e :: l)
  = (list_next ++ Json.dumps_entry e ++ Json.dumps_more l)%string.
Proof. reflexivity. Qed.

Lemma dumps_more_split (l1 : list entry) :
  forall l2,
    (Json.dumps_more l1 ++ list_close = Json.dumps_more l2 ++ list_close)%string ->
    l1 = l2.
Proof.
  induction l1 as [|e1 l1 IH]; intros [|e2 l2] H; try reflexivity;
    try discriminate H.
  rewrite !dumps_more_shape, !append_assoc in H.
  apply append_cancel_l in H.
  apply dumps_entry_split in H as [-> H].
  f_equal. apply IH. exact H.
Qed.

Lemma dumps_shape (e : entry) (l : list entry) :
  Json.dumps (e :: l)
  = (list_open ++ Json.dumps_entry e ++ Json.dumps_more l ++ list_close)%string.
Proof. reflexivity. Qed.

(** X13. The text written into the file is plain: whatever the item
    names contain, the file holds printable ASCII characters and line
    feeds only. *)
Theorem file_text_is_plain (items_data : list entry) :
  Json.plain (Json.dumps items_data) = true.
Proof.
  destruct items_data as [|e l]; [reflexivity|].
  unfold Json.dumps, Json.nl. cbn [String.append Json.plain].
  now rewrite !plain_app, dumps_entry_plain, dumps_more_plain.
Qed.

(** X14. The file determines the entries: two lists of entries are
    written as the same text only if they are the same list, names, stack
    sizes and order included. *)
Theorem file_text_determines_entries (l1 l2 : list entry) :
  Json.dumps l1 = Json.dumps l2 -> l1 = l2.
Proof.
  destruct l1 as [|e1 l1], l2 as [|e2 l2]; intros H; try reflexivity;
    try discriminate H.
  rewrite !dumps_shape in H. apply append_cancel_l in H.
  apply dumps_entry_split in H as [-> H].
  f_equal. apply dumps_more_split. exact H.
Qed.

(** ** Whitespace around texts *)

Lemma get_text_single (name : string) (classes : list string)
    (href : option string) (s : string) :
  Soup.get_text (Tag name classes href [NavigableString s]) = Str.strip s.
Proof.
  unfold Soup.get_text, Soup.stripped_strings.
  cbn [Soup.descendants flat_map app].
  destruct (Str.strip s); reflexivity.
Qed.

(** X16. How a text is compared with "Stackable", "JE" or "BE": an
    element holding one text node has the text [m], a text without
    whitespace at its ends, exactly when the node reads [m] with nothing
    but whitespace before and after it; the whitespace characters are
    those of [str.isspace], the no-break space and the next-line
    character among them. *)
Theorem text_match_ignores_outer_whitespace (name : string)
    (classes : list string) (href : option string) (s m : string) :
  Spec.trimmed m ->
  (Soup.get_text (Tag name classes href [NavigableString s]) = m
   <-> exists l r,
         s = (l ++ m ++ r)%string /\ Spec.blank l /\ Spec.blank r).
Proof.
  intros Hm. rewrite get_text_single. split.
  - intros E. destruct (strip_trim_of s) as (l & r & Es & Hl & Hr & _).
    exists l, r. rewrite E in Es. auto.
  - intros (l & r & E & Hl & Hr). apply trim_of_strip.
    exists l, r. auto.
Qed.

(** The file after an interrupt or at the end keeps what was there: the
    entries present at any moment of a run are the beginning of the list
    saved later. *)
Lemma saved_extends (session_get : string -> outcome Response)
    (BeautifulSoup : string -> outcome node) (t0 : list event)
    (item_tuples : list (string * string)) (s1 s2 : pool) :
  steps session_get BeautifulSoup (initial t0 item_tuples) s1 ->
  steps session_get BeautifulSoup s1 s2 ->
  phase_of s2 = Done \/ phase_of s2 = Interrupted ->
  exists later, saved_file (trace s2) = Some (items_data s1 ++ later).
Proof.
  intros H1 H2 Hph.
  destruct (steps_extend _ _ _ _ H2) as (_ & later & _ & _ & Ee & _).
  destruct (reachable_invariant _ _ _ _ _ (steps_trans _ _ _ _ _ H1 H2))
    as [_ _ _ Hsaved _ _].
  exists later. rewrite Hsaved, Ee. now destruct Hph as [-> | ->].
Qed.

(** X17. Progress is never lost: the entries that are in [items_data] at
    some moment of a run are, in the same order, the beginning of the list
    that [main] saves later, at its last line or after an interrupt. *)
Theorem saved_file_keeps_progress (session_get : string -> outcome Response)
    (BeautifulSoup : string -> outcome node) (t0 : list event)
    (item_tuples : list (string * string)) (s1 s2 : pool) (k : nat) (e : entry) :
  steps session_get BeautifulSoup (initial t0 item_tuples) s1 ->
  steps session_get BeautifulSoup s1 s2 ->
  phase_of s2 = Done \/ phase_of s2 = Interrupted ->
  nth_error (items_data s1) k = Some e ->
  exists data,
    saved_file (trace s2) = Some data
    /\ firstn (List.length (items_data s1)) data = items_data s1
    /\ nth_error data k = Some e.
Proof.
  intros H1 H2 Hph Hk.
  destruct (saved_extends _ _ _ _ _ _ H1 H2 Hph) as (later & E).
  exists (items_data s1 ++ later). split; [exact E|]. split.
  - rewrite firstn_app, Nat.sub_diag, firstn_all. cbn. now rewrite app_nil_r.
  - rewrite nth_error_app1; [exact Hk|].
    apply nth_error_Some. congruence.
Qed.

(** ** The further properties at the small wiki *)

Lemma demo_run_counted :
  steps_in Demo.session_get Demo.BeautifulSoup 5 Demo.s0 Demo.s5.
Proof.
  eapply steps_in_more; [eapply steps_in_more; [eapply steps_in_more;
    [eapply steps_in_more; [eapply steps_in_more; [apply steps_in_none|]|]|]|]|].
  - apply (step_start _ _ Demo.s0 Demo.stick [Demo.ink_sac]);
      [left; reflexivity | reflexivity | cbn; unfold max_workers; lia].
  - apply (step_start _ _ Demo.s1 Demo.ink_sac []);
      [left; reflexivity | reflexivity | cbn; unfold max_workers; lia].
  - eapply (step_finish _ _ Demo.s2 [Demo.stick] Demo.ink_sac []);
      [left; reflexivity | reflexivity | reflexivity].
  - eapply (step_finish _ _ Demo.s3 [] Demo.stick []);
      [left; reflexivity | reflexivity | reflexivity].
  - apply (step_done _ _ Demo.s4); reflexivity.
Qed.

Lemma demo_main_run :
  main_run Demo.session_get Demo.BeautifulSoup (trace Demo.s5) (Returns tt).
Proof.
  exact (main_run_pool _ _ Demo.t0 [Demo.stick; Demo.ink_sac] Demo.s5
           demo_listing demo_run (or_introl eq_refl)).
Qed.

Lemma yes_test_is_substring_witness :
  ((exists pre post, "Oh Yes (16)" = (pre ++ "Yes" ++ post)%string)
   /\ stack_of_text "Oh Yes (16)" = Returns 16%Z)
  /\ ((forall pre post, "yes (16)" <> (pre ++ "Yes" ++ post)%string)
      /\ stack_of_text "yes (16)" = Returns 1%Z).
Proof.
  assert (H1 : exists pre post, "Oh Yes (16)" = (pre ++ "Yes" ++ post)%string)
    by (exists "Oh ", " (16)"; reflexivity).
  assert (H2 : forall pre post, "yes (16)" <> (pre ++ "Yes" ++ post)%string).
  { intros pre post E.
    assert (C : Str.contains "Yes" "yes (16)" = true)
      by (apply contains_spec; exists pre, post; exact E).
    discriminate C. }
  split.
  - split; [exact H1|]. exact (proj1 (yes_test_is_substring "Oh Yes (16)") H1).
  - split; [exact H2|]. exact (proj2 (yes_test_is_substring "yes (16)") H2).
Defined.


Lemma decimal_count_read_back_witness :
  (2 + String.length (str_of_nat 16) <= 4300
   /\ stack_of_text "Yes (0016)" = Returns 16%Z)
  /\ (4300 < 4300 + String.length (str_of_nat 7)
      /\ stack_of_text ("Yes (" ++ zeros 4300 ++ "7" ++ ")")
         = Raises (Str.ValueError_too_long 4301)).
Proof.
  assert (L1 : 2 + String.length (str_of_nat 16) <= 4300) by (cbn; lia).
  assert (L2 : 4300 < 4300 + String.length (str_of_nat 7)) by (cbn; lia).
  split.
  - split; [exact L1|]. exact (proj1 (decimal_count_read_back 2 16) L1).
  - split; [exact L2|]. exact (proj2 (decimal_count_read_back 4300 7) L2).
Defined.

Lemma candidates_well_formed_witness :
  In Demo.ink_sac (extract_candidates Demo.listing)
  /\ "Ink Sac" <> EmptyString
  /\ "Ink Sac" <> "JE" /\ "Ink Sac" <> "BE"
  /\ Spec.trimmed "Ink Sac"
  /\ exists region link,
       In region (Soup.find_all_class "div" "div-col" Demo.listing)
       /\ In link (Soup.find_all_href "a" region)
       /\ Spec.reads link "Ink Sac"
       /\ "https://minecraft.wiki/w/Ink_Sac"
          = ("https://minecraft.wiki" ++ Soup.href_of link)%string.
Proof.
  assert (Hin : In Demo.ink_sac (extract_candidates Demo.listing))
    by (right; left; reflexivity).
  split; [exact Hin|].
  exact (candidates_well_formed Demo.listing "Ink Sac"
           "https://minecraft.wiki/w/Ink_Sac" Hin).
Defined.

Lemma run_only_appends_witness :
  steps Demo.session_get Demo.BeautifulSoup Demo.s0 Demo.s5
  /\ exists t es cs,
       trace Demo.s5 = trace Demo.s0 ++ t
       /\ items_data Demo.s5 = items_data Demo.s0 ++ es
       /\ finished Demo.s5 = finished Demo.s0 ++ cs
       /\ Forall2 (produces Demo.session_get Demo.BeautifulSoup) cs es.
Proof.
  split; [exact demo_run|].
  exact (run_only_appends Demo.session_get Demo.BeautifulSoup Demo.s0 Demo.s5 demo_run).
Defined.

Lemma run_length_bounded_witness :
  steps_in Demo.session_get Demo.BeautifulSoup 5 Demo.s0 Demo.s5
  /\ 5 + work_left Demo.s5 <= 2 * List.length [Demo.stick; Demo.ink_sac] + 2.
Proof.
  split; [exact demo_run_counted|].
  exact (run_length_bounded Demo.session_get Demo.BeautifulSoup Demo.t0
           [Demo.stick; Demo.ink_sac] 5 Demo.s5 demo_run_counted).
Defined.

Lemma pool_never_stuck_witness :
  (phase_of Demo.s2 = Processing \/ phase_of Demo.s2 = ShuttingDown)
  /\ (forall r1 c r2,
         running Demo.s2 = r1 ++ c :: r2 ->
         exists t e,
           step Demo.session_get Demo.BeautifulSoup Demo.s2
                (finish Demo.s2 r1 c r2 t (items_data Demo.s2 ++ [e])))
  /\ (forall c q,
         running Demo.s2 = [] -> queue Demo.s2 = c :: q ->
         step Demo.session_get Demo.BeautifulSoup Demo.s2 (start Demo.s2 c q))
  /\ (running Demo.s2 = [] -> queue Demo.s2 = [] ->
      exists p t,
        (p = Done \/ p = Interrupted)
        /\ saved_file t = Some (items_data Demo.s2)
        /\ step Demo.session_get Demo.BeautifulSoup Demo.s2 (close Demo.s2 p t)).
Proof.
  split; [left; reflexivity|].
  exact (pool_never_stuck Demo.session_get Demo.BeautifulSoup Demo.s2
           (or_introl eq_refl)).
Defined.

Lemma requests_of_a_run_witness :
  main_listing Demo.session_get Demo.BeautifulSoup
  = (Demo.t0, Returns (Some [Demo.stick; Demo.ink_sac]))
  /\ steps Demo.session_get Demo.BeautifulSoup Demo.s0 Demo.s1
  /\ exists item_requests,
       requests (trace Demo.s1) = base_url :: item_requests
       /\ Permutation item_requests ["https://minecraft.wiki/w/Stick"]
       /\ Permutation ([Demo.stick] ++ [Demo.ink_sac]) [Demo.stick; Demo.ink_sac].
Proof.
  split; [exact demo_listing|]. split; [exact demo_run_to_interrupt|].
  exact (requests_of_a_run Demo.session_get Demo.BeautifulSoup Demo.t0
           [Demo.stick; Demo.ink_sac] Demo.s1 demo_listing demo_run_to_interrupt).
Defined.

Lemma file_written_at_most_once_witness :
  main_run Demo.session_get Demo.BeautifulSoup (trace Demo.s5) (Returns tt)
  /\ ((dumps (trace Demo.s5) = [] /\ saved_file (trace Demo.s5) = None)
      \/ (Returns tt = Returns tt
          /\ exists data,
               dumps (trace Demo.s5) = [(output_file, data)]
               /\ saved_file (trace Demo.s5) = Some data)).
Proof.
  split; [exact demo_main_run|].
  exact (file_written_at_most_once Demo.session_get Demo.BeautifulSoup
           (trace Demo.s5) (Returns tt) demo_main_run).
Defined.

Lemma bounded_overtaking_witness :
  steps Demo.session_get Demo.BeautifulSoup Demo.s0 Demo.s5
  /\ nth_error (items_data Demo.s5) 0 = Some {| item := "Ink Sac"; stack := 1 |}
  /\ exists c,
       In c (firstn (0 + max_workers) [Demo.stick; Demo.ink_sac])
       /\ produces Demo.session_get Demo.BeautifulSoup c
                   {| item := "Ink Sac"; stack := 1 |}.
Proof.
  split; [exact demo_run|]. split; [reflexivity|].
  exact (bounded_overtaking Demo.session_get Demo.BeautifulSoup Demo.t0
           [Demo.stick; Demo.ink_sac] Demo.s5 0 {| item := "Ink Sac"; stack := 1 |}
           demo_run eq_refl).
Defined.

Lemma console_counts_agree_witness :
  main_listing Demo.session_get Demo.BeautifulSoup
  = (Demo.t0, Returns (Some [Demo.stick; Demo.ink_sac]))
  /\ steps Demo.session_get Demo.BeautifulSoup Demo.s0 Demo.s5
  /\ phase_of Demo.s5 = Done
  /\ exists calls,
       trace Demo.s5
       = [Print ("Fetching item list from: " ++ base_url); Get base_url;
          Print ("Total items found: "
                 ++ str_of_nat (List.length [Demo.stick; Demo.ink_sac]));
          Print "Fetching item data in parallel..."]
         ++ calls
         ++ [Dump output_file (items_data Demo.s5);
             Print ("Progress saved to " ++ output_file ++ " ("
                    ++ str_of_nat (List.length [Demo.stick; Demo.ink_sac])
                    ++ " items)");
             Print ("Finished. Total items scraped: "
                    ++ str_of_nat (List.length [Demo.stick; Demo.ink_sac]))]
       /\ dumps calls = [].
Proof.
  split; [exact demo_listing|]. split; [exact demo_run|]. split; [reflexivity|].
  exact (console_counts_agree Demo.session_get Demo.BeautifulSoup Demo.t0
           [Demo.stick; Demo.ink_sac] Demo.s5 demo_listing demo_run eq_refl).
Defined.

Lemma file_text_determines_entries_witness :
  Json.dumps (items_data Demo.s5) = Json.dumps (items_data Demo.s5)
  /\ items_data Demo.s5 = items_data Demo.s5.
Proof.
  split; [reflexivity|].
  exact (file_text_determines_entries (items_data Demo.s5) (items_data Demo.s5) eq_refl).
Defined.

Lemma edge_run :
  steps Edge.session_get Edge.BeautifulSoup (initial Edge.t0 []) Edge.saved.
Proof.
  eapply steps_step; [apply steps_refl|].
  apply (step_done _ _ (initial Edge.t0 [])); reflexivity.
Qed.

Lemma empty_listing_saves_empty_list_witness :
  main_listing Edge.session_get Edge.BeautifulSoup = (Edge.t0, Returns (Some []))
  /\ steps Edge.session_get Edge.BeautifulSoup (initial Edge.t0 []) Edge.saved
  /\ (phase_of Edge.saved = Done \/ phase_of Edge.saved = Interrupted)
  /\ requests (trace Edge.saved) = [base_url]
  /\ saved_file (trace Edge.saved) = Some []
  /\ option_map Json.dumps (saved_file (trace Edge.saved)) = Some "[]".
Proof.
  split; [reflexivity|]. split; [exact edge_run|]. split; [left; reflexivity|].
  exact (empty_listing_saves_empty_list Edge.session_get Edge.BeautifulSoup
           Edge.t0 Edge.saved eq_refl edge_run (or_introl eq_refl)).
Defined.

Lemma text_match_ignores_outer_whitespace_witness :
  Spec.trimmed "Stackable"
  /\ (exists l r,
        (Demo.lf ++ " Stackable" ++ Demo.nbsp)%string = (l ++ "Stackable" ++ r)%string
        /\ Spec.blank l /\ Spec.blank r)
  /\ Soup.get_text
       (Tag "th" [] None [NavigableString (Demo.lf ++ " Stackable" ++ Demo.nbsp)])
     = "Stackable".
Proof.
  assert (Ht : Spec.trimmed "Stackable") by (apply trimmed_spec; reflexivity).
  assert (He : exists l r,
             (Demo.lf ++ " Stackable" ++ Demo.nbsp)%string
             = (l ++ "Stackable" ++ r)%string
             /\ Spec.blank l /\ Spec.blank r).
  { exists (Demo.lf ++ " ")%string, Demo.nbsp. split; [reflexivity|].
    split; cbn; unfold Spec.space; cbn; tauto. }
  split; [exact Ht|]. split; [exact He|].
  exact (proj2 (text_match_ignores_outer_whitespace "th" [] None
                  (Demo.lf ++ " Stackable" ++ Demo.nbsp) "Stackable" Ht) He).
Defined.

Lemma saved_file_keeps_progress_witness :
  steps Demo.session_get Demo.BeautifulSoup Demo.s0 Demo.s3
  /\ steps Demo.session_get Demo.BeautifulSoup Demo.s3 Demo.s5
  /\ (phase_of Demo.s5 = Done \/ phase_of Demo.s5 = Interrupted)
  /\ nth_error (items_data Demo.s3) 0 = Some {| item := "Ink Sac"; stack := 1 |}
  /\ exists data,
       saved_file (trace Demo.s5) = Some data
       /\ firstn (List.length (items_data Demo.s3)) data = items_data Demo.s3
       /\ nth_error data 0 = Some {| item := "Ink Sac"; stack := 1 |}.
Proof.
  assert (H1 : steps Demo.session_get Demo.BeautifulSoup Demo.s0 Demo.s3).
  { eapply steps_step; [eapply steps_step; [eapply steps_step; [apply steps_refl|]|]|].
    - apply (step_start _ _ Demo.s0 Demo.stick [Demo.ink_sac]);
        [left; reflexivity | reflexivity | cbn; unfold max_workers; lia].
    - apply (step_start _ _ Demo.s1 Demo.ink_sac []);
        [left; reflexivity | reflexivity | cbn; unfold max_workers; lia].
    - eapply (step_finish _ _ Demo.s2 [Demo.stick] Demo.ink_sac []);
        [left; reflexivity | reflexivity | reflexivity]. }
  assert (H2 : steps Demo.session_get Demo.BeautifulSoup Demo.s3 Demo.s5).
  { eapply steps_step; [eapply steps_step; [apply steps_refl|]|].
    - eapply (step_finish _ _ Demo.s3 [] Demo.stick []);
        [left; reflexivity | reflexivity | reflexivity].
    - apply (step_done _ _ Demo.s4); reflexivity. }
  split; [exact H1|]. split; [exact H2|]. split; [left; reflexivity|].
  split; [reflexivity|].
  exact (saved_file_keeps_progress Demo.session_get Demo.BeautifulSoup Demo.t0
           [Demo.stick; Demo.ink_sac] Demo.s3 Demo.s5 0
           {| item := "Ink Sac"; stack := 1 |} H1 H2 (or_introl eq_refl) eq_refl).
Defined.
